(** * Tea Timer: a shallow embedding of [src/App.js] and its verification

    The development follows the component [TeaTimer] of [src/App.js]:
    the stopwatch state and its handlers, the timer effect and its
    intervals, the session log with its [localStorage] persistence, the
    statistics, the chart data, the CSV export and the display
    formatting.  The JavaScript runtime the component calls into
    (numbers, [toFixed], [parseFloat], [padStart], [join], [slice],
    [reverse], [JSON.stringify], [JSON.parse]) is modelled after
    ECMAScript.

    Conventions of the model:
    - a JavaScript string is a [string]: the text as a sequence of bytes
      (UTF-8 for characters outside ASCII);
    - a JavaScript number is an IEEE 754 binary64 value, a [spec_float]
      with precision 53 and [emax = 1024], and [+] and [/] are the
      Standard Library's [SFadd] and [SFdiv];
    - the stopwatch counter [time] only ever holds [0] or the result of
      adding [10] to a value it held, so it is a number that is an
      integer; the state keeps that integer, in [Z], and every operation
      on it ([+ 10], [/ 60000], [formatTime]) is the operation on the
      number [of_Z time];
    - [localStorage] is a finite map from keys to strings, and arrays that
      are updated in place live in a heap of array objects. *)

From Stdlib Require Import ZArith List String Ascii Bool Lia.
From Stdlib Require Import Floats.SpecFloat.
From stdpp Require Import gmap strings.
Import ListNotations.
Local Open Scope Z_scope.

(* ================================================================= *)
(** * Part I: the model *)
(* ================================================================= *)

(** ** Strings: the methods of [String.prototype] and [Array.prototype.join]
    the component uses *)

Module JSString.

Definition quote_char : ascii := ascii_of_nat 34.
Definition newline_char : ascii := ascii_of_nat 10.
Definition comma_char : ascii := ascii_of_nat 44.
Definition backslash_char : ascii := ascii_of_nat 92.

Definition quote : string := String quote_char EmptyString.
Definition newline : string := String newline_char EmptyString.

(** [n] characters taken from [fill] repeated; [cur] is what is left of the
    copy of [fill] being read. *)
Fixpoint cycle (n : nat) (fill cur : string) : string :=
  match n with
  | O => EmptyString
  | S n' =>
      match cur with
      | String c r => String c (cycle n' fill r)
      | EmptyString =>
          match fill with
          | String c r => String c (cycle n' fill r)
          | EmptyString => EmptyString
          end
      end
  end.

(** [s.padStart(maxLength, fillString)] *)
Definition padStart (maxLength : nat) (fillString : string) (s : string) : string :=
  if (maxLength <=? String.length s)%nat then s
  else match fillString with
       | EmptyString => s
       | _ => cycle (maxLength - String.length s) fillString fillString +:+ s
       end.

(** [array.join(sep)] on an array of strings *)
Fixpoint join (sep : string) (l : list string) : string :=
  match l with
  | [] => EmptyString
  | [x] => x
  | x :: xs => x +:+ sep +:+ join sep xs
  end.

(** [s.split(sep)] for a separator of one character *)
Fixpoint split_go (sep : ascii) (s : string) (cur : string) : list string :=
  match s with
  | EmptyString => [cur]
  | String c r =>
      if Ascii.eqb c sep then cur :: split_go sep r EmptyString
      else split_go sep r (cur +:+ String c EmptyString)
  end.

Definition split (sep : ascii) (s : string) : list string :=
  split_go sep s EmptyString.

(** Whether a character occurs in a string. *)
Fixpoint mem_char (c : ascii) (s : string) : bool :=
  match s with
  | EmptyString => false
  | String d r => Ascii.eqb c d || mem_char c r
  end.

(** The decimal digit [0 <= d < 10] as a character. *)
Definition digit_char (d : Z) : ascii := ascii_of_nat (48 + Z.to_nat d).

Definition is_digit (c : ascii) : bool :=
  let n := nat_of_ascii c in ((48 <=? n) && (n <=? 57))%nat.

Definition digit_val (c : ascii) : Z := Z.of_nat (nat_of_ascii c) - 48.

(** The decimal digits of [n >= 0], most significant first, before [acc]. *)
Fixpoint dec_digits (fuel : nat) (n : Z) (acc : string) : string :=
  match fuel with
  | O => acc
  | S f =>
      let acc' := String (digit_char (n mod 10)) acc in
      if n / 10 =? 0 then acc' else dec_digits f (n / 10) acc'
  end.

Definition Z_to_dec (n : Z) : string :=
  dec_digits (S (Z.to_nat (Z.log2 n))) n EmptyString.

(** The integer a string of decimal digits denotes, after [acc]. *)
Fixpoint dec_value (s : string) (acc : Z) : Z :=
  match s with
  | EmptyString => acc
  | String c r => dec_value r (10 * acc + digit_val c)
  end.

Fixpoint all_digits (s : string) : bool :=
  match s with
  | EmptyString => true
  | String c r => is_digit c && all_digits r
  end.

Fixpoint zeros (n : nat) : string :=
  match n with
  | O => EmptyString
  | S n' => String "0" (zeros n')
  end.

(** [s.substring(0, n)] and [s.substring(n)] *)
Fixpoint take (n : nat) (s : string) : string :=
  match n, s with
  | S n', String c r => String c (take n' r)
  | _, _ => EmptyString
  end.

Fixpoint drop (n : nat) (s : string) : string :=
  match n, s with
  | S n', String _ r => drop n' r
  | _, _ => s
  end.

End JSString.

(** ** Numbers: IEEE 754 binary64, [Number.prototype.toFixed],
    [Number::toString], [Math.min] and [Math.max] *)

Module JSNumber.
Import JSString.

Definition prec : Z := 53.
Definition emax : Z := 1024.

(** A number is a [spec_float]; [is_number] says that it is a binary64
    value (its mantissa and exponent are the canonical ones). *)
Definition number : Type := spec_float.
Definition is_number (x : number) : bool := valid_binary prec emax x.

Definition pos_zero : number := S754_zero false.
Definition neg_zero : number := S754_zero true.

(** The number an integer literal or an integer-valued counter denotes. *)
Definition of_Z (z : Z) : number := binary_normalize prec emax z 0 false.

Definition add : number -> number -> number := SFadd prec emax.
Definition div : number -> number -> number := SFdiv prec emax.
Definition ltb : number -> number -> bool := SFltb.

(** The integer a number is, for a number that is an integer (and the
    integer part of any other finite number). *)
Definition to_Z (x : number) : Z :=
  match x with
  | S754_finite s m e =>
      let v := if 0 <=? e then Zpos m * 2 ^ e else Zpos m / 2 ^ (- e) in
      if s then - v else v
  | _ => 0
  end.

(** [Math.floor(x)] *)
Definition floor (x : number) : number :=
  match x with
  | S754_finite s m e =>
      if 0 <=? e then x
      else
        let q := Zpos m / 2 ^ (- e) in
        let r := Zpos m mod 2 ^ (- e) in
        if s then binary_normalize prec emax (- (if r =? 0 then q else q + 1)) 0 true
        else binary_normalize prec emax q 0 false
  | _ => x
  end.

(** [x % y]: the remainder of the division that truncates, which has the
    sign of [x] and is exact. *)
Definition rem (x y : number) : number :=
  match x, y with
  | S754_nan, _ | _, S754_nan => S754_nan
  | S754_infinity _, _ => S754_nan
  | _, S754_zero _ => S754_nan
  | _, S754_infinity _ => x
  | S754_zero _, _ => x
  | S754_finite sx mx ex, S754_finite _ my ey =>
      let e := Z.min ex ey in
      let r := (Zpos mx * 2 ^ (ex - e)) mod (Zpos my * 2 ^ (ey - e)) in
      binary_normalize prec emax (if sx then - r else r) e sx
  end.

(** [Object.is] on numbers: the same value, [-0] and [+0] apart. *)
Definition same (x y : number) : bool :=
  match x, y with
  | S754_zero a, S754_zero b => Bool.eqb a b
  | S754_infinity a, S754_infinity b => Bool.eqb a b
  | S754_nan, S754_nan => true
  | S754_finite a m e, S754_finite b m' e' =>
      Bool.eqb a b && Pos.eqb m m' && Z.eqb e e'
  | _, _ => false
  end.

(** Finite, and not [-0]: the numbers [JSON.stringify] writes as a
    numeral that denotes them. *)
Definition json_safe (x : number) : bool :=
  match x with
  | S754_zero s => negb s
  | S754_finite _ _ _ => is_number x
  | _ => false
  end.

(** The number nearest to the ratio [a / b] of two positive integers (ties
    to even), with sign [neg]. *)
Definition round_ratio (neg : bool) (a b : Z) : number :=
  let '(q, e, l) := SFdiv_core_binary prec emax a 0 b 0 in
  binary_round_aux prec emax neg q e l.

(** The number nearest to [n * 10^e10]: the value of a decimal numeral
    with digits [n] and exponent [e10]. *)
Definition of_decimal (neg : bool) (n e10 : Z) : number :=
  if 0 <=? e10 then round_ratio neg (n * 10 ^ e10) 1
  else round_ratio neg n (10 ^ (- e10)).

(** *** [Number::toString] *)

(** The exact value [m * 2^e] of a finite number as a ratio of integers. *)
Definition ratio_of (m : positive) (e : Z) : Z * Z :=
  if 0 <=? e then (Zpos m * 2 ^ e, 1) else (Zpos m, 2 ^ (- e)).

(** The least [j >= j0] with [b <= a * 10^j]. *)
Fixpoint first_scale (fuel : nat) (a b j : Z) : Z :=
  match fuel with
  | O => j
  | S f => if b <=? a * 10 ^ j then j else first_scale f a b (j + 1)
  end.

(** The position [pt] of the decimal point of [a / b > 0]:
    [10^(pt-1) <= a/b < 10^pt]. *)
Definition point_of (a b : Z) : Z :=
  if b <=? a then Z.of_nat (String.length (Z_to_dec (a / b)))
  else 1 - first_scale (S (Z.to_nat (Z.log2 b))) a b 1.

(** Whether the numeral with digits [n] and decimal point at [pt] denotes
    the positive number [x]. *)
Definition denotes (x : number) (n pt : Z) : bool :=
  same (of_decimal false n (pt - Z.of_nat (String.length (Z_to_dec n)))) x.

(** The numeral of [k] digits that denotes [x] and is nearest to it, when
    there is one. *)
Definition candidate (x : number) (a b pt0 : Z) (k : Z) : option (Z * Z) :=
  let d := k - pt0 in
  let num := if 0 <=? d then a * 10 ^ d else a in
  let den := if 0 <=? d then b else b * 10 ^ (- d) in
  let lo := num / den in
  let r := num mod den in
  let hi := if lo + 1 =? 10 ^ k then (10 ^ (k - 1), pt0 + 1) else (lo + 1, pt0) in
  let lo_ok := denotes x lo pt0 in
  let hi_ok := denotes x (fst hi) (snd hi) in
  if r =? 0 then (if lo_ok then Some (lo, pt0) else None)
  else match lo_ok, hi_ok with
       | true, true =>
           match 2 * r ?= den with
           | Lt => Some (lo, pt0)
           | Gt => Some hi
           | Eq => if Z.even lo then Some (lo, pt0) else Some hi
           end
       | true, false => Some (lo, pt0)
       | false, true => Some hi
       | false, false => None
       end.

Fixpoint shortest_from (fuel : nat) (x : number) (a b pt0 k : Z) : option (Z * Z) :=
  match fuel with
  | O => None
  | S f =>
      match candidate x a b pt0 k with
      | Some r => Some r
      | None => shortest_from f x a b pt0 (k + 1)
      end
  end.

(** The full decimal expansion of [m * 2^e]. *)
Definition exact_decimal (m : positive) (e : Z) : Z * Z :=
  if 0 <=? e then
    let n := Zpos m * 2 ^ e in (n, Z.of_nat (String.length (Z_to_dec n)))
  else
    let n := Zpos m * 5 ^ (- e) in (n, Z.of_nat (String.length (Z_to_dec n)) + e).

(** The digits and the decimal point of the shortest numeral that denotes
    the positive number [m * 2^e].  A numeral of at most 17 digits always
    does; the full expansion closes the search. *)
Definition shortest (m : positive) (e : Z) : Z * Z :=
  let '(a, b) := ratio_of m e in
  match shortest_from 17 (S754_finite false m e) a b (point_of a b) 1 with
  | Some r => r
  | None => exact_decimal m e
  end.

Definition exponent_part (e : Z) : string :=
  String "e"%char
    (String (if e <? 0 then "-"%char else "+"%char) (Z_to_dec (Z.abs e))).

(** The text of the numeral with digits [n] and decimal point at [pt]. *)
Definition layout (n pt : Z) : string :=
  let ds := Z_to_dec n in
  let k := Z.of_nat (String.length ds) in
  if (k <=? pt) && (pt <=? 21) then ds +:+ zeros (Z.to_nat (pt - k))
  else if (0 <? pt) && (pt <=? 21) then
    take (Z.to_nat pt) ds +:+ "." +:+ drop (Z.to_nat pt) ds
  else if (-6 <? pt) && (pt <=? 0) then
    "0." +:+ zeros (Z.to_nat (- pt)) +:+ ds
  else if k =? 1 then ds +:+ exponent_part (pt - 1)
  else take 1 ds +:+ "." +:+ drop 1 ds +:+ exponent_part (pt - 1).

Definition toString (x : number) : string :=
  match x with
  | S754_nan => "NaN"
  | S754_zero _ => "0"
  | S754_infinity s => (if s then "-" else EmptyString) +:+ "Infinity"
  | S754_finite s m e =>
      let '(n, pt) := shortest m e in
      (if s then "-" else EmptyString) +:+ layout n pt
  end.

(** *** [Number.prototype.toFixed] *)

(** Whether [m * 2^e >= bound]. *)
Definition mag_ge (m : positive) (e : Z) (bound : Z) : bool :=
  if 0 <=? e then bound <=? Zpos m * 2 ^ e else bound * 2 ^ (- e) <=? Zpos m.

(** The integer [n] for which [n / 10^f] is nearest to [m * 2^e], the
    larger one when two are as near. *)
Definition nearest_scaled (m : positive) (e : Z) (f : nat) : Z :=
  let s := Zpos m * 10 ^ Z.of_nat f in
  if 0 <=? e then s * 2 ^ e else (2 * s + 2 ^ (- e)) / 2 ^ (- e + 1).

(** The digits of [n] with a decimal point before the last [f] of them. *)
Definition fixed_digits (n : Z) (f : nat) : string :=
  let m := Z_to_dec n in
  match f with
  | O => m
  | _ =>
      let m := if (String.length m <=? f)%nat
               then zeros (f + 1 - String.length m) +:+ m else m in
      let k := String.length m in
      take (k - f) m +:+ "." +:+ drop (k - f) m
  end.

(** [x.toFixed(f)] *)
Definition toFixed (f : nat) (x : number) : string :=
  match x with
  | S754_nan | S754_infinity _ => toString x
  | S754_zero _ => fixed_digits 0 f
  | S754_finite s m e =>
      (if s then "-" else EmptyString) +:+
      (if mag_ge m e (10 ^ 21) then toString (S754_finite false m e)
       else fixed_digits (nearest_scaled m e f) f)
  end.

(** *** [Math.min] and [Math.max] of a list of numbers *)

Definition is_zero (s : bool) (x : number) : bool :=
  match x with
  | S754_zero s' => Bool.eqb s s'
  | _ => false
  end.

Fixpoint min_from (lowest : number) (l : list number) : number :=
  match l with
  | [] => lowest
  | x :: r =>
      match x with
      | S754_nan => S754_nan
      | _ =>
          let lowest := if is_zero true x && is_zero false lowest then x else lowest in
          min_from (if ltb x lowest then x else lowest) r
      end
  end.

Fixpoint max_from (highest : number) (l : list number) : number :=
  match l with
  | [] => highest
  | x :: r =>
      match x with
      | S754_nan => S754_nan
      | _ =>
          let highest := if is_zero false x && is_zero true highest then x else highest in
          max_from (if ltb highest x then x else highest) r
      end
  end.

Definition math_min (l : list number) : number := min_from (S754_infinity false) l.
Definition math_max (l : list number) : number := max_from (S754_infinity true) l.

End JSNumber.

(** ** [JSON.stringify] and [JSON.parse] *)

Module JSON.
Import JSString JSNumber.

(** The values JSON text denotes.  The members of an object are listed in
    property order, which is the order of insertion (keys that are array
    indices, which an object lists first, do not occur in this component). *)
#[warnings="-register-all"]
Inductive value : Type :=
| JNull
| JBool (b : bool)
| JNum (x : number)
| JStr (s : string)
| JArr (l : list value)
| JObj (l : list (string * value)).

(** *** [JSON.stringify] *)

Definition hex_char (n : nat) : ascii :=
  if (n <? 10)%nat then ascii_of_nat (48 + n) else ascii_of_nat (87 + n).

(** [QuoteJSONString] on one character: the two-character escapes, [\u00XX]
    for the other control characters, the character itself otherwise. *)
Definition escape_char (c : ascii) : string :=
  let n := nat_of_ascii c in
  if (n =? 8)%nat then "\b"
  else if (n =? 9)%nat then "\t"
  else if (n =? 10)%nat then "\n"
  else if (n =? 12)%nat then "\f"
  else if (n =? 13)%nat then "\r"
  else if (n =? 34)%nat then String backslash_char quote
  else if (n =? 92)%nat then "\\"
  else if (n <? 32)%nat then
    "\u00" +:+ String (hex_char (n / 16)) (String (hex_char (n mod 16)) EmptyString)
  else String c EmptyString.

Fixpoint quote_body (s : string) : string :=
  match s with
  | EmptyString => EmptyString
  | String c r => escape_char c +:+ quote_body r
  end.

Definition quote_json (s : string) : string := quote +:+ quote_body s +:+ quote.

Definition is_finite (x : number) : bool :=
  match x with
  | S754_zero _ | S754_finite _ _ _ => true
  | _ => false
  end.

(** [JSON.stringify(v)] (no replacer, no indentation) *)
Fixpoint stringify (v : value) : string :=
  match v with
  | JNull => "null"
  | JBool true => "true"
  | JBool false => "false"
  | JNum x => if is_finite x then toString x else "null"
  | JStr s => quote_json s
  | JArr l => "[" +:+ join "," (map stringify l) +:+ "]"
  | JObj l =>
      "{" +:+ join "," (map (fun kv => quote_json (fst kv) +:+ ":" +:+ stringify (snd kv)) l)
      +:+ "}"
  end.

(** *** [JSON.parse] *)

Definition is_ws (c : ascii) : bool :=
  let n := nat_of_ascii c in
  ((n =? 32) || (n =? 9) || (n =? 10) || (n =? 13))%nat.

Fixpoint skip_ws (s : string) : string :=
  match s with
  | String c r => if is_ws c then skip_ws r else s
  | EmptyString => EmptyString
  end.

Definition hex_val (c : ascii) : option N :=
  let n := N_of_ascii c in
  (if (48 <=? n) && (n <=? 57) then Some (n - 48)
   else if (97 <=? n) && (n <=? 102) then Some (n - 87)
   else if (65 <=? n) && (n <=? 70) then Some (n - 55)
   else None)%N.

(** The UTF-8 bytes of a code point. *)
Definition utf8 (cp : N) : string :=
  let b (n : N) := String (ascii_of_N n) EmptyString in
  (if cp <? 128 then b cp
   else if cp <? 2048 then b (192 + cp / 64) +:+ b (128 + cp mod 64)
   else if cp <? 65536 then
     b (224 + cp / 4096) +:+ b (128 + (cp / 64) mod 64) +:+ b (128 + cp mod 64)
   else
     b (240 + cp / 262144) +:+ b (128 + (cp / 4096) mod 64)
     +:+ b (128 + (cp / 64) mod 64) +:+ b (128 + cp mod 64))%N.

Definition is_high_surrogate (cu : N) : bool := ((55296 <=? cu) && (cu <? 56320))%N.
Definition is_low_surrogate (cu : N) : bool := ((56320 <=? cu) && (cu <? 57344))%N.

(** The text a pending high surrogate stands for when no low surrogate
    follows it. *)
Definition flush (pend : option N) : string :=
  match pend with
  | Some hi => utf8 hi
  | None => EmptyString
  end.

(** Where the reader of a string literal stands: between characters, after
    a backslash, or inside the four hexadecimal digits of [\u] ([todo] of
    them are still to be read, [acc] is the value of those read). *)
Inductive lex_state : Type :=
| Plain
| Escaped
| Hex (todo : nat) (acc : N).

(** The body of a string literal, after its opening quote: the string it
    denotes and the text after its closing quote.  [pend] is a high
    surrogate read from a [\u] escape and not written yet; [out] is the
    string read so far. *)
Fixpoint parse_string_body (st : lex_state) (pend : option N) (out : string)
    (s : string) : option (string * string) :=
  match s with
  | EmptyString => None
  | String c r =>
      match st with
      | Plain =>
          if Ascii.eqb c quote_char then Some (out +:+ flush pend, r)
          else if Ascii.eqb c backslash_char then parse_string_body Escaped pend out r
          else if (nat_of_ascii c <? 32)%nat then None
          else parse_string_body Plain None (out +:+ flush pend +:+ String c EmptyString) r
      | Escaped =>
          let simple (d : nat) :=
            parse_string_body Plain None
              (out +:+ flush pend +:+ String (ascii_of_nat d) EmptyString) r in
          if Ascii.eqb c "u" then parse_string_body (Hex 4 0) pend out r
          else if Ascii.eqb c quote_char then simple 34%nat
          else if Ascii.eqb c backslash_char then simple 92%nat
          else if Ascii.eqb c "/" then simple 47%nat
          else if Ascii.eqb c "b" then simple 8%nat
          else if Ascii.eqb c "f" then simple 12%nat
          else if Ascii.eqb c "n" then simple 10%nat
          else if Ascii.eqb c "r" then simple 13%nat
          else if Ascii.eqb c "t" then simple 9%nat
          else None
      | Hex todo acc =>
          match hex_val c with
          | None => None
          | Some d =>
              let cu := (16 * acc + d)%N in
              match todo with
              | S (S _ as todo') => parse_string_body (Hex todo' cu) pend out r
              | _ =>
                  match pend with
                  | Some hi =>
                      if is_low_surrogate cu then
                        parse_string_body Plain None
                          (out +:+ utf8 (65536 + (hi - 55296) * 1024 + (cu - 56320))%N) r
                      else if is_high_surrogate cu then
                        parse_string_body Plain (Some cu) (out +:+ utf8 hi) r
                      else parse_string_body Plain None (out +:+ utf8 hi +:+ utf8 cu) r
                  | None =>
                      if is_high_surrogate cu then parse_string_body Plain (Some cu) out r
                      else parse_string_body Plain None (out +:+ utf8 cu) r
                  end
              end
          end
      end
  end.

(** A string literal: the opening quote, then the body. *)
Definition parse_string (s : string) : option (string * string) :=
  match s with
  | String c r =>
      if Ascii.eqb c quote_char then parse_string_body Plain None EmptyString r else None
  | EmptyString => None
  end.

(** The longest prefix of decimal digits, and what follows it. *)
Fixpoint span_digits (s : string) : string * string :=
  match s with
  | String c r =>
      if is_digit c then let '(ds, rest) := span_digits r in (String c ds, rest)
      else (EmptyString, s)
  | EmptyString => (EmptyString, EmptyString)
  end.

(** The integer part of a numeral: [0], or digits that do not start with
    [0]. *)
Definition span_int (s : string) : string * string :=
  match s with
  | String c r => if Ascii.eqb c "0" then ("0", r) else span_digits s
  | EmptyString => (EmptyString, EmptyString)
  end.

Definition span_frac (s : string) : option (string * string) :=
  match s with
  | String c r =>
      if Ascii.eqb c "." then
        let '(fs, rest) := span_digits r in
        match fs with
        | EmptyString => None
        | _ => Some (fs, rest)
        end
      else Some (EmptyString, s)
  | EmptyString => Some (EmptyString, s)
  end.

Definition span_exp (s : string) : option (Z * string) :=
  match s with
  | String c r =>
      if Ascii.eqb c "e" || Ascii.eqb c "E" then
        let '(neg, r1) :=
          match r with
          | String d r' =>
              if Ascii.eqb d "-" then (true, r')
              else if Ascii.eqb d "+" then (false, r') else (false, r)
          | EmptyString => (false, r)
          end in
        let '(es, rest) := span_digits r1 in
        match es with
        | EmptyString => None
        | _ => Some (if neg then - dec_value es 0 else dec_value es 0, rest)
        end
      else Some (0, s)
  | EmptyString => Some (0, s)
  end.

(** A JSON numeral after its sign, and the number it denotes. *)
Definition parse_unsigned (neg : bool) (s1 : string) : option (number * string) :=
  let '(ip, s2) := span_int s1 in
  match ip with
  | EmptyString => None
  | _ =>
      match span_frac s2 with
      | None => None
      | Some (fp, s3) =>
          match span_exp s3 with
          | None => None
          | Some (ex, s4) =>
              let n := dec_value (ip +:+ fp) 0 in
              let x := if n =? 0 then S754_zero neg
                       else of_decimal neg n (ex - Z.of_nat (String.length fp)) in
              Some (x, s4)
          end
      end
  end.

(** A JSON numeral and the number it denotes. *)
Definition parse_number (s : string) : option (number * string) :=
  match s with
  | String c r => if Ascii.eqb c "-" then parse_unsigned true r else parse_unsigned false s
  | EmptyString => None
  end.

(** [s] starts with the literal [lit]: what follows it. *)
Fixpoint expect (lit s : string) : option string :=
  match lit with
  | EmptyString => Some s
  | String c l =>
      match s with
      | String d r => if Ascii.eqb c d then expect l r else None
      | EmptyString => None
      end
  end.

(** [CreateDataProperty]: a key that is present keeps its place and takes
    the new value, a new key goes last. *)
Fixpoint obj_set (k : string) (v : value) (l : list (string * value)) : list (string * value) :=
  match l with
  | [] => [(k, v)]
  | (k', v') :: r => if String.eqb k k' then (k, v) :: r else (k', v') :: obj_set k v r
  end.

(** A JSON value, after white space; [fuel] bounds the number of values,
    elements and members read. *)
Fixpoint parse_value (fuel : nat) (s : string) : option (value * string) :=
  match fuel with
  | O => None
  | S f =>
      match skip_ws s with
      | EmptyString => None
      | String c r as s' =>
          if Ascii.eqb c "{" then
            match skip_ws r with
            | String d r' =>
                if Ascii.eqb d "}" then Some (JObj [], r') else parse_members f [] r
            | EmptyString => None
            end
          else if Ascii.eqb c "[" then
            match skip_ws r with
            | String d r' =>
                if Ascii.eqb d "]" then Some (JArr [], r') else parse_elements f [] r
            | EmptyString => None
            end
          else if Ascii.eqb c quote_char then
            match parse_string s' with
            | Some (str, rest) => Some (JStr str, rest)
            | None => None
            end
          else if Ascii.eqb c "t" then option_map (pair (JBool true)) (expect "true" s')
          else if Ascii.eqb c "f" then option_map (pair (JBool false)) (expect "false" s')
          else if Ascii.eqb c "n" then option_map (pair JNull) (expect "null" s')
          else
            match parse_number s' with
            | Some (x, rest) => Some (JNum x, rest)
            | None => None
            end
      end
  end

with parse_elements (fuel : nat) (acc : list value) (s : string) : option (value * string) :=
  match fuel with
  | O => None
  | S f =>
      match parse_value f s with
      | None => None
      | Some (v, rest) =>
          match skip_ws rest with
          | String c r =>
              if Ascii.eqb c "," then parse_elements f (acc ++ [v]) r
              else if Ascii.eqb c "]" then Some (JArr (acc ++ [v]), r)
              else None
          | EmptyString => None
          end
      end
  end

with parse_members (fuel : nat) (acc : list (string * value)) (s : string)
    : option (value * string) :=
  match fuel with
  | O => None
  | S f =>
      match parse_string (skip_ws s) with
      | None => None
      | Some (k, rest) =>
          match skip_ws rest with
          | String c r =>
              if Ascii.eqb c ":" then
                match parse_value f r with
                | None => None
                | Some (v, rest') =>
                    match skip_ws rest' with
                    | String d r' =>
                        if Ascii.eqb d "," then parse_members f (obj_set k v acc) r'
                        else if Ascii.eqb d "}" then Some (JObj (obj_set k v acc), r')
                        else None
                    | EmptyString => None
                    end
                end
              else None
          | EmptyString => None
          end
      end
  end.

(** [JSON.parse(text)]: the value, or [None] where [JSON.parse] throws a
    [SyntaxError]. *)
Definition parse (text : string) : option value :=
  match parse_value (S (String.length text)) text with
  | Some (v, rest) =>
      match skip_ws rest with
      | EmptyString => Some v
      | _ => None
      end
  | None => None
  end.

End JSON.

(** ** The component [TeaTimer] *)

Module TeaTimer.
Import JSString JSNumber JSON.

(** *** Sessions *)

(** The object [handleSave] builds:
    [{ id, time, timeMinutes, date, notes }]. *)
Module Session.
Record t : Type := mk {
  id : number;
  time : number;
  timeMinutes : number;
  date : string;
  notes : string
}.
End Session.

(** The object of a session, its properties in the order of the object
    literal in [handleSave]. *)
Definition session_value (s : Session.t) : value :=
  JObj [("id", JNum (Session.id s));
        ("time", JNum (Session.time s));
        ("timeMinutes", JNum (Session.timeMinutes s));
        ("date", JStr (Session.date s));
        ("notes", JStr (Session.notes s))].

Definition sessions_value (l : list Session.t) : value :=
  JArr (map session_value l).

(** The session a value is, when it is an object as [handleSave] builds
    them: these five properties, in this order, with a number or a string
    in each, and no other.  Every other value is no session of the model:
    the component holds what [JSON.parse] returns as it is, and a
    [Session.t] can stand for such objects only. *)
Definition session_of_value (v : value) : option Session.t :=
  match v with
  | JObj [(k1, JNum i); (k2, JNum t); (k3, JNum tm); (k4, JStr d); (k5, JStr n)] =>
      if String.eqb k1 "id" && String.eqb k2 "time" && String.eqb k3 "timeMinutes"
         && String.eqb k4 "date" && String.eqb k5 "notes"
      then Some (Session.mk i t tm d n)
      else None
  | _ => None
  end.

Fixpoint sessions_of_list (l : list value) : option (list Session.t) :=
  match l with
  | [] => Some []
  | v :: r =>
      match session_of_value v, sessions_of_list r with
      | Some s, Some ss => Some (s :: ss)
      | _, _ => None
      end
  end.

Definition sessions_of_value (v : value) : option (list Session.t) :=
  match v with
  | JArr l => sessions_of_list l
  | _ => None
  end.

(** *** State: the [useState] cells of the component *)

Inductive view : Type := TimerView | TrendsView | SettingsView.

Record State : Type := mkState {
  time : Z;
  isRunning : bool;
  showSaveDialog : bool;
  notes : string;
  sessions : list Session.t;
  activeView : view
}.

(** The state of the first render. *)
Definition initial : State :=
  mkState 0 false false EmptyString [] TimerView.

(** A call of one of the setters. *)
Inductive update : Type :=
| setTime (t : Z)
| setIsRunning (b : bool)
| setShowSaveDialog (b : bool)
| setNotes (s : string)
| setSessions (l : list Session.t)
| setActiveView (v : view).

Definition apply_update (st : State) (u : update) : State :=
  match u with
  | setTime t => mkState t (isRunning st) (showSaveDialog st) (notes st) (sessions st) (activeView st)
  | setIsRunning b => mkState (time st) b (showSaveDialog st) (notes st) (sessions st) (activeView st)
  | setShowSaveDialog b => mkState (time st) (isRunning st) b (notes st) (sessions st) (activeView st)
  | setNotes s => mkState (time st) (isRunning st) (showSaveDialog st) s (sessions st) (activeView st)
  | setSessions l => mkState (time st) (isRunning st) (showSaveDialog st) (notes st) l (activeView st)
  | setActiveView v => mkState (time st) (isRunning st) (showSaveDialog st) (notes st) (sessions st) v
  end.

Definition apply_updates (st : State) (us : list update) : State :=
  fold_left apply_update us st.

(** Whether a handler called [setSessions]: the array it passes is a new
    one, so the effect that depends on [sessions] runs after the render. *)
Definition sets_sessions (us : list update) : bool :=
  existsb (fun u => match u with setSessions _ => true | _ => false end) us.

(** *** Timer controls *)

(** What [Date.now()] and [new Date().toISOString()] return when
    [handleSave] runs. *)
Record clock : Type := mkClock { now : number; isoString : string }.

Definition handleStartStop (st : State) : list update :=
  [setIsRunning (negb (isRunning st))].

Definition handleReset (st : State) : list update :=
  [setTime 0; setIsRunning false; setNotes EmptyString].

(** The object [newSession] of [handleSave]. *)
Definition newSession (c : clock) (st : State) : Session.t :=
  Session.mk (now c) (of_Z (time st)) (div (of_Z (time st)) (of_Z 60000))
             (isoString c) (notes st).

Definition handleSave (c : clock) (st : State) : list update :=
  if 0 <? time st then
    [setSessions (sessions st ++ [newSession c st]); setShowSaveDialog false]
    ++ handleReset st
  else [].

(** The callback of [setInterval]: [setTime(prevTime => prevTime + 10)],
    with the addition of numbers. *)
Definition tick (st : State) : list update :=
  [setTime (to_Z (add (of_Z (time st)) (of_Z 10)))].

(** *** Persistence: the two effects on [localStorage] *)

Definition storage_key : string := "teaSessions".

(** The effect that depends on [sessions]. *)
Definition persist (l : list Session.t) (ls : gmap string string) : gmap string string :=
  if (0 <? List.length l)%nat then <[storage_key := stringify (sessions_value l)]> ls
  else ls.

(** The effect that runs on mount: what it passes to [setSessions], when
    it does, or that [JSON.parse] throws. *)
Inductive load_result : Type :=
| NoData
| Loaded (v : value)
| Throws.

Definition load (ls : gmap string string) : load_result :=
  match ls !! storage_key with
  | Some savedSessions =>
      match savedSessions with
      | EmptyString => NoData
      | _ =>
          match parse savedSessions with
          | Some v => Loaded v
          | None => Throws
          end
      end
  | None => NoData
  end.

(** *** Events *)

Inductive event : Type :=
| Tick
| StartStop
| Reset
| Save (c : clock)
| OpenSaveDialog
| CancelSaveDialog
| EditNotes (s : string)
| Navigate (v : view).

Definition handler (e : event) (st : State) : list update :=
  match e with
  | Tick => tick st
  | StartStop => handleStartStop st
  | Reset => handleReset st
  | Save c => handleSave c st
  | OpenSaveDialog => [setShowSaveDialog true]
  | CancelSaveDialog => [setShowSaveDialog false]
  | EditNotes s => [setNotes s]
  | Navigate v => [setActiveView v]
  end.

Record World : Type := mkWorld {
  state : State;
  localStorage : gmap string string
}.

(** An event, the render it causes and the effects after the render. *)
Definition step (w : World) (e : event) : World :=
  let us := handler e (state w) in
  let st' := apply_updates (state w) us in
  mkWorld st'
    (if sets_sessions us then persist (sessions st') (localStorage w)
     else localStorage w).

Definition run (w : World) (es : list event) : World := fold_left step es w.

(** The component after its mount: the first render shows [initial]; its
    effects run in the order of their declaration, the one that loads and
    then the one that persists (with the empty log of the first render);
    the render that follows a call of [setSessions] runs the one that
    persists again.  [Ready w]: the component is in [w].  [Crashed]:
    [JSON.parse] threw and nothing caught it.  [Holds v]: [setSessions(v)]
    was called with a value that is not a list of sessions as [handleSave]
    builds them; the component holds [v] as it is, and the model, whose
    state holds a list of such sessions, does not follow it there (with
    some such [v] the next render throws, with others the component
    works). *)
Inductive mounted : Type :=
| Ready (w : World)
| Crashed
| Holds (v : value).

Definition mount (ls : gmap string string) : mounted :=
  match load ls with
  | NoData => Ready (mkWorld initial (persist (sessions initial) ls))
  | Throws => Crashed
  | Loaded v =>
      match sessions_of_value v with
      | Some l =>
          Ready (mkWorld (apply_update initial (setSessions l))
                         (persist l (persist (sessions initial) ls)))
      | None => Holds v
      end
  end.

(** *** Display *)

(** [formatTime(milliseconds)], on numbers; the component calls it with
    [time]. *)
Definition formatTime (milliseconds : number) : string :=
  let totalSeconds := floor (div milliseconds (of_Z 1000)) in
  let minutes := floor (div totalSeconds (of_Z 60)) in
  let seconds := rem totalSeconds (of_Z 60) in
  let ms := floor (div (rem milliseconds (of_Z 1000)) (of_Z 10)) in
  padStart 2 "0" (toString minutes) +:+ ":" +:+
  padStart 2 "0" (toString seconds) +:+ "." +:+
  padStart 2 "0" (toString ms).

(** *** Statistics *)

Record Stats : Type := mkStats {
  average : value;
  shortest : value;
  longest : value
}.

(** [getStats()]: three numbers for the empty log, three strings
    otherwise. *)
Definition getStats (sessions : list Session.t) : Stats :=
  if (List.length sessions =? 0)%nat then
    mkStats (JNum (of_Z 0)) (JNum (of_Z 0)) (JNum (of_Z 0))
  else
    let times := map Session.timeMinutes sessions in
    let average :=
      div (fold_left add times (of_Z 0)) (of_Z (Z.of_nat (List.length times))) in
    let shortest := math_min times in
    let longest := math_max times in
    mkStats (JStr (toFixed 2 average)) (JStr (toFixed 2 shortest))
            (JStr (toFixed 2 longest)).

(** *** The recent sessions: [sessions.slice(-3).reverse()] *)

(** The elements of [array.slice(start)]. *)
Definition slice {A : Type} (start : Z) (l : list A) : list A :=
  let len := Z.of_nat (List.length l) in
  let k := if start <? 0 then Z.max (len + start) 0 else Z.min start len in
  skipn (Z.to_nat k) l.

(** Arrays are objects: a heap maps each reference to the elements of its
    array.  [slice] allocates a new array, [reverse] updates its array in
    place and returns the same reference. *)
Definition array_slice (start : Z) (r : nat) (h : gmap nat (list Session.t))
    : option (nat * gmap nat (list Session.t)) :=
  match h !! r with
  | Some l => let r' := fresh (dom h) in Some (r', <[r' := slice start l]> h)
  | None => None
  end.

Definition array_reverse (r : nat) (h : gmap nat (list Session.t))
    : option (nat * gmap nat (list Session.t)) :=
  match h !! r with
  | Some l => Some (r, <[r := rev l]> h)
  | None => None
  end.

(** [sessions.slice(-3).reverse()], for the reference [sessions] of the
    log in the heap. *)
Definition recent (sessions : nat) (h : gmap nat (list Session.t))
    : option (nat * gmap nat (list Session.t)) :=
  match array_slice (-3) sessions h with
  | Some (r, h') => array_reverse r h'
  | None => None
  end.

(** *** Export *)

Section ExportCSV.

(** [new Date(date).toLocaleString()], which depends on the locale and the
    time zone of the host. *)
Variable toLocaleString : string -> string.

(** [s.notes || ''] *)
Definition or_empty (s : string) : string :=
  match s with
  | EmptyString => EmptyString
  | _ => s
  end.

Definition headers : list string := ["Date"; "Time (minutes)"; "Notes"].

Definition rows (sessions : list Session.t) : list (list string) :=
  map (fun s => [toLocaleString (Session.date s);
                 toFixed 2 (Session.timeMinutes s);
                 or_empty (Session.notes s)]) sessions.

Definition quoted (cell : string) : string := quote +:+ cell +:+ quote.

(** [csvContent] of [exportToCSV], the text of the file it offers. *)
Definition csvContent (sessions : list Session.t) : string :=
  join newline
    (join "," headers :: map (fun row => join "," (map quoted row)) (rows sessions)).

End ExportCSV.

End TeaTimer.

(** ** More of the component *)

Module TeaTimerView.
Import JSString JSNumber JSON TeaTimer.

(** The name of the file [exportToCSV] offers:
    [`tea-sessions-${new Date().toISOString().split('T')[0]}.csv`], for
    the text [iso] of [new Date().toISOString()]. *)
Definition downloadName (iso : string) : string :=
  "tea-sessions-" +:+ hd EmptyString (split "T" iso) +:+ ".csv".

(** Whether the timer view offers the button that opens the save dialog:
    [{time > 0 && !isRunning && (...)}] inside
    [{activeView === 'timer' && (...)}]. *)
Definition saveButtonShown (st : State) : bool :=
  match activeView st with
  | TimerView => (0 <? time st) && negb (isRunning st)
  | _ => false
  end.

End TeaTimerView.

(** ** The timer effect *)

Module TeaTimerEffects.
Import TeaTimer.

(** The timers of the page: the handles of the intervals that are set,
    the handle [setInterval] returns next (handles are positive and none
    is used twice), and [intervalRef.current], [None] for [null]. *)
Record Timers : Type := mkTimers {
  intervalRef : option nat;
  live : gset nat;
  next : nat
}.

Definition setInterval (t : Timers) : nat * Timers :=
  (next t, mkTimers (intervalRef t) ({[next t]} ∪ live t) (S (next t))).

Definition clearInterval (id : nat) (t : Timers) : Timers :=
  mkTimers (intervalRef t) (live t ∖ {[id]}) (next t).

(** [if (intervalRef.current) { clearInterval(intervalRef.current); }] *)
Definition clear_current (t : Timers) : Timers :=
  match intervalRef t with
  | Some id => if (id =? 0)%nat then t else clearInterval id t
  | None => t
  end.

(** The body of the effect, in a render with this [isRunning]. *)
Definition timer_effect (isRunning : bool) (t : Timers) : Timers :=
  if isRunning then
    let '(id, t') := setInterval t in
    mkTimers (Some id) (live t') (next t')
  else clear_current t.

(** The function the effect returns, which runs before the effect runs
    again and when the component unmounts. *)
Definition timer_cleanup (t : Timers) : Timers := clear_current t.

(** The effect depends on [isRunning]: after a render in which it has
    changed, the last cleanup runs and then the body. *)
Definition rerender (before after : bool) (t : Timers) : Timers :=
  if Bool.eqb before after then t else timer_effect after (timer_cleanup t).

Definition step_timers (w : World) (e : event) (t : Timers) : Timers :=
  rerender (isRunning (state w)) (isRunning (state (step w e))) t.

Fixpoint run_timers (w : World) (es : list event) (t : Timers) : Timers :=
  match es with
  | [] => t
  | e :: es' => run_timers (step w e) es' (step_timers w e t)
  end.

End TeaTimerEffects.

(** ** [parseFloat] *)

Module JSGlobal.
Import JSString JSNumber JSON.

(** The white space and the line terminators of one byte: tab, line
    feed, vertical tab, form feed, carriage return and space. *)
Definition is_space (c : ascii) : bool :=
  let n := N_of_ascii c in (((9 <=? n) && (n <=? 13)) || (n =? 32))%N.

Definition is_byte (n : N) (c : ascii) : bool := (N_of_ascii c =? n)%N.

(** What follows the white space character or line terminator a string
    starts with, if it starts with one; those beyond one byte are
    [U+00A0], [U+1680], [U+2000] to [U+200A], [U+2028], [U+2029],
    [U+202F], [U+205F], [U+3000] and [U+FEFF], in UTF-8. *)
Definition space_prefix (s : string) : option string :=
  match s with
  | String c r =>
      if is_space c then Some r
      else if is_byte 194 c then
        match r with
        | String c2 r2 => if is_byte 160 c2 then Some r2 else None
        | EmptyString => None
        end
      else if is_byte 225 c || is_byte 226 c || is_byte 227 c || is_byte 239 c then
        match r with
        | String c2 (String c3 r3) =>
            let n2 := N_of_ascii c2 in
            let n3 := N_of_ascii c3 in
            if (is_byte 225 c && (n2 =? 154) && (n3 =? 128)
                || is_byte 226 c && (n2 =? 128)
                   && ((128 <=? n3) && (n3 <=? 138) || (n3 =? 168) || (n3 =? 169)
                       || (n3 =? 175))
                || is_byte 226 c && (n2 =? 129) && (n3 =? 159)
                || is_byte 227 c && (n2 =? 128) && (n3 =? 128)
                || is_byte 239 c && (n2 =? 187) && (n3 =? 191))%N
            then Some r3 else None
        | _ => None
        end
      else None
  | EmptyString => None
  end.

(** The string without the white space it starts with. *)
Fixpoint trim_start (fuel : nat) (s : string) : string :=
  match fuel with
  | O => s
  | S f =>
      match space_prefix s with
      | Some r => trim_start f r
      | None => s
      end
  end.

(** [parseFloat(string)]: the number of the longest prefix of the trimmed
    string that is a decimal literal (a sign, then [Infinity], or digits
    with a period among, before or after them, then an exponent), and
    [NaN] when there is none.  The number is the one nearest to the
    literal. *)
Definition parseFloat (str : string) : number :=
  let trimmed := trim_start (String.length str) str in
  let '(neg, s1) :=
    match trimmed with
    | String c r =>
        if Ascii.eqb c "-" then (true, r)
        else if Ascii.eqb c "+" then (false, r) else (false, trimmed)
    | EmptyString => (false, trimmed)
    end in
  match expect "Infinity" s1 with
  | Some _ => S754_infinity neg
  | None =>
      let '(ip, s2) := span_digits s1 in
      let '(fp, s3) :=
        match s2 with
        | String c r => if Ascii.eqb c "." then span_digits r else (EmptyString, s2)
        | EmptyString => (EmptyString, s2)
        end in
      match ip +:+ fp with
      | EmptyString => S754_nan
      | digits =>
          let ex := match span_exp s3 with
                    | Some (ex, _) => ex
                    | None => 0
                    end in
          let n := dec_value digits 0 in
          if n =? 0 then S754_zero neg
          else of_decimal neg n (ex - Z.of_nat (String.length fp))
      end
  end.

End JSGlobal.

(** ** The chart *)

Module TeaTimerChart.
Import JSString JSNumber JSON JSGlobal TeaTimer.

(** A point of the chart: [{ session, time, date }]. *)
Record point : Type := mkPoint {
  session : number;
  time : number;
  date : string
}.

Section Chart.

(** [new Date(date).toLocaleDateString()], which depends on the locale
    and the time zone of the host. *)
Variable toLocaleDateString : string -> string.

(** The callback of [sessions.map] in [getChartData], and the [map] from
    the index [index]. *)
Definition chart_point (s : Session.t) (index : nat) : point :=
  mkPoint (of_Z (Z.of_nat index + 1))
          (parseFloat (toFixed 2 (Session.timeMinutes s)))
          (toLocaleDateString (Session.date s)).

Fixpoint map_from (index : nat) (sessions : list Session.t) : list point :=
  match sessions with
  | [] => []
  | s :: r => chart_point s index :: map_from (S index) r
  end.

Definition getChartData (sessions : list Session.t) : list point :=
  map_from 0 sessions.

End Chart.

End TeaTimerChart.


(* ================================================================= *)
(** * Part II: the vocabulary of the properties *)
(* ================================================================= *)

Import JSString JSNumber JSON TeaTimer.
#[local] Arguments String.append !_ _ / : simpl nomatch.

(** The two decimal digits of [0 <= n < 100]. *)
Definition two_digits (n : Z) : string :=
  String (digit_char (n / 10)) (String (digit_char (n mod 10)) EmptyString).

(** The number [x] is one nearest to [t / 60000]: a number [M * 2^E] at
    most half a unit in its last place from the quotient. *)
Definition nearest_minutes (t : Z) (x : number) : Prop :=
  exists (M : positive) (E : Z),
    x = S754_finite false M E /\ bounded prec emax M E = true /\ E <= 0
    /\ 2 * Z.abs (60000 * Zpos M - t * 2 ^ (- E)) <= 60000.

(** [toFixed(2)] writes [x] as digits, a period and two digits, and these
    hundredths are at most half a hundredth from [t / 60000]. *)
Definition shown_minutes (t : Z) (x : number) : Prop :=
  exists ip fp,
    toFixed 2 x = ip +:+ "." +:+ fp
    /\ all_digits ip = true /\ all_digits fp = true
    /\ (1 <= String.length ip)%nat /\ String.length fp = 2%nat
    /\ Z.abs (600 * dec_value (ip +:+ fp) 0 - t) <= 300.

(** The minutes of a session are derived from its milliseconds: the
    milliseconds are an integer [t] below [2^53], held exactly, and the
    minutes are a number nearest to [t / 60000], within half a hundredth
    of it when written with two decimals. *)
Definition minutes_derived (s : Session.t) : Prop :=
  0 < to_Z (Session.time s) < 2 ^ 53
  /\ Session.time s = of_Z (to_Z (Session.time s))
  /\ nearest_minutes (to_Z (Session.time s)) (Session.timeMinutes s)
  /\ shown_minutes (to_Z (Session.time s)) (Session.timeMinutes s).

(** The last [n] elements of a list, in the order of the list. *)
Definition last_n {A : Type} (n : nat) (l : list A) : list A :=
  skipn (List.length l - n) l.

(** Neither a double quote nor a line break occurs in the string. *)
Definition clean (s : string) : bool :=
  negb (mem_char quote_char s) && negb (mem_char newline_char s).

(** A data line of the export: three quoted fields. *)
Definition csv_line (toLocaleString : string -> string) (s : Session.t) : string :=
  quoted (toLocaleString (Session.date s)) +:+ "," +:+
  quoted (toFixed 2 (Session.timeMinutes s)) +:+ "," +:+
  quoted (Session.notes s).

(** The text up to the next double quote, and what follows that quote. *)
Fixpoint read_quoted (s : string) (cur : string) : option (string * string) :=
  match s with
  | EmptyString => None
  | String c r =>
      if Ascii.eqb c quote_char then Some (cur, r)
      else read_quoted r (cur +:+ String c EmptyString)
  end.

(** The fields of a line of double-quoted fields separated by commas, as a
    reader of CSV splits it. *)
Fixpoint read_fields (fuel : nat) (s : string) : option (list string) :=
  match fuel with
  | O => None
  | S f =>
      match s with
      | String c r =>
          if Ascii.eqb c quote_char then
            match read_quoted r EmptyString with
            | Some (field, EmptyString) => Some [field]
            | Some (field, String d r') =>
                if Ascii.eqb d comma_char then option_map (cons field) (read_fields f r')
                else None
            | None => None
            end
          else None
      | EmptyString => None
      end
  end.

Definition quoted_fields (line : string) : option (list string) :=
  read_fields (S (String.length line)) line.

(** Where [toFixed] writes plain decimals: zero and the finite numbers
    below [10^21] in magnitude. *)
Definition fixed_range (x : number) : bool :=
  match x with
  | S754_zero _ => true
  | S754_finite _ m e => negb (mag_ge m e (10 ^ 21))
  | _ => false
  end.

(** [x < 0] *)
Definition is_negative (x : number) : bool :=
  match x with
  | S754_finite s _ _ => s
  | S754_infinity s => s
  | _ => false
  end.

(** The text after a value in what [JSON.stringify] writes: nothing, or a
    comma, a closing bracket or a closing brace. *)
Definition delimited (rest : string) : bool :=
  match rest with
  | EmptyString => true
  | String c _ => Ascii.eqb c "," || Ascii.eqb c "]" || Ascii.eqb c "}"
  end.

(** The text does not go on with a decimal digit. *)
Definition no_digit_ahead (rest : string) : bool :=
  match rest with
  | EmptyString => true
  | String c _ => negb (is_digit c)
  end.

(** No string occurs twice in the list. *)
Fixpoint distinct (l : list string) : bool :=
  match l with
  | [] => true
  | k :: r => negb (existsb (String.eqb k) r) && distinct r
  end.

(** The values [JSON.stringify] writes without loss: their numbers are
    finite and not [-0], and no object has a key twice. *)
Fixpoint wf_value (v : value) : bool :=
  match v with
  | JNum x => json_safe x
  | JArr l => forallb wf_value l
  | JObj l => distinct (map fst l) && forallb (fun kv => wf_value (snd kv)) l
  | _ => true
  end.

(** The number of values, elements and members of a value. *)
Fixpoint vsize (v : value) : nat :=
  match v with
  | JArr l => S (list_sum (map (fun v => S (vsize v)) l))
  | JObj l => S (list_sum (map (fun kv => S (vsize (snd kv))) l))
  | _ => 1
  end.

(** The first character of a JSON numeral. *)
Definition number_head (c : ascii) : bool := is_digit c || Ascii.eqb c "-".

(** The numeric fields of a session are finite and not [-0]. *)
Definition session_safe (s : Session.t) : bool :=
  json_safe (Session.id s) && json_safe (Session.time s)
  && json_safe (Session.timeMinutes s).

(** The first character of the text of a value. *)
Definition value_head (c : ascii) : bool :=
  number_head c || Ascii.eqb c "n" || Ascii.eqb c "t" || Ascii.eqb c "f"
  || Ascii.eqb c quote_char || Ascii.eqb c "[" || Ascii.eqb c "{".

(** The text of a member of an object. *)
Definition member_text (kv : string * value) : string :=
  quote_json (fst kv) +:+ ":" +:+ stringify (snd kv).

(** What [parse_value] promises for the text of [v]. *)
Definition reads_back (v : value) : Prop :=
  wf_value v = true ->
  forall fuel rest,
    (vsize v <= fuel)%nat -> delimited rest = true ->
    parse_value fuel (stringify v +:+ rest) = Some (v, rest).

(** *** Vocabulary of the further properties *)

Import TeaTimerView TeaTimerEffects JSGlobal.

(** The events that never take elapsed time away: all but a reset and a
    save. *)
Definition keeps_time (e : event) : bool :=
  match e with
  | Reset | Save _ => false
  | _ => true
  end.

Definition is_tick (e : event) : bool :=
  match e with
  | Tick => true
  | _ => false
  end.

Definition is_start_stop (e : event) : bool :=
  match e with
  | StartStop => true
  | _ => false
  end.

(** The number of elements of a list that satisfy a test. *)
Definition count_if {A : Type} (f : A -> bool) (l : list A) : nat :=
  List.length (List.filter f l).

(** The storage holds the log: the text under [teaSessions] is the log as
    [JSON.stringify] writes it, unless the log is empty. *)
Definition in_sync (w : World) : Prop :=
  sessions (state w) = []
  \/ localStorage w !! storage_key
     = Some (stringify (sessions_value (sessions (state w)))).

(** The number of occurrences of a character in a string. *)
Fixpoint count_char (c : ascii) (s : string) : nat :=
  match s with
  | EmptyString => O
  | String d r => ((if Ascii.eqb d c then 1 else 0) + count_char c r)%nat
  end.

(** The elapsed time a display of [formatTime] shows, in milliseconds:
    digits, a colon, digits, a period, digits. *)
Definition read_display (s : string) : option Z :=
  let '(mm, r1) := span_digits s in
  match r1 with
  | String c1 r2 =>
      if Ascii.eqb c1 ":" then
        let '(ss, r3) := span_digits r2 in
        match r3 with
        | String c2 r4 =>
            if Ascii.eqb c2 "." then
              let '(cc, r5) := span_digits r4 in
              match r5 with
              | EmptyString =>
                  Some (dec_value mm 0 * 60000 + dec_value ss 0 * 1000 + dec_value cc 0 * 10)
              | _ => None
              end
            else None
        | EmptyString => None
        end
      else None
  | EmptyString => None
  end.

(** The line breaks in the date and in the notes of a session, as the
    export writes them. *)
Definition line_breaks (toLocaleString : string -> string) (s : Session.t) : nat :=
  (count_char newline_char (toLocaleString (Session.date s))
   + count_char newline_char (Session.notes s))%nat.

(** [n] hundredths is the decimal with two places nearest to [x], the
    larger in magnitude of two that are as near; [n = 0] for a zero. *)
Definition nearest_hundredth (x : number) (n : Z) : Prop :=
  match x with
  | S754_zero _ => n = 0
  | S754_finite _ m e =>
      let '(a, b) := ratio_of m e in
      - b <= 2 * (100 * a - n * b) < b
  | _ => False
  end.

(** [Date.now()] of a save is finite and not [-0]. *)
Definition clock_ok (e : event) : bool :=
  match e with
  | Save c => json_safe (now c)
  | _ => true
  end.

(** [Number.isNaN] *)
Definition is_nan (x : number) : bool :=
  match x with
  | S754_nan => true
  | _ => false
  end.

(** The place of a number in the order of [<]: sign, exponent and
    mantissa, compared in this order. *)
Definition order_key (x : number) : Z * Z * Z :=
  match x with
  | S754_infinity true => (-2, 0, 0)
  | S754_finite true m e => (-1, - e, - Zpos m)
  | S754_finite false m e => (1, e, Zpos m)
  | S754_infinity false => (2, 0, 0)
  | _ => (0, 0, 0)
  end.

Definition order_key_lt (a b : Z * Z * Z) : Prop :=
  fst (fst a) < fst (fst b)
  \/ (fst (fst a) = fst (fst b)
      /\ (snd (fst a) < snd (fst b)
          \/ (snd (fst a) = snd (fst b) /\ snd a < snd b))).

(** The intervals of the component in the timers [t], beside the
    intervals [others] of the page: one, whose handle is in
    [intervalRef], while the timer runs, and none while it is stopped. *)
Definition timers_ok (running : bool) (others : gset nat) (t : Timers) : Prop :=
  (1 <= next t)%nat
  /\ (forall id, id ∈ live t -> (id < next t)%nat)
  /\ (forall id, id ∈ others -> (id < next t)%nat)
  /\ (forall id, intervalRef t = Some id -> (0 < id < next t)%nat /\ (id ∉ others))
  /\ (if running
      then exists id, intervalRef t = Some id /\ live t = {[id]} ∪ others
      else live t = others).

(** Whether an interval of the component is set: one that is set and is
    not among the intervals [others] of the rest of the page.  The
    callback of such an interval is the one that ticks. *)
Definition ticking (others : gset nat) (t : Timers) : bool :=
  negb (bool_decide (live t ∖ others = ∅)).

(** The events of a run can occur on the page, from the component in [w]
    with the timers [t]: each tick is the callback of an interval of the
    component that is set when it fires. *)
Fixpoint occurs (others : gset nat) (w : World) (t : Timers) (es : list event) : bool :=
  match es with
  | [] => true
  | e :: es' =>
      (if is_tick e then ticking others t else true)
      && occurs others (step w e) (step_timers w e t) es'
  end.

(** Reading a record of CSV as RFC 4180 describes it: the fields are
    separated by commas; a field in double quotes may hold commas, and a
    double quote in it is written twice; a field without quotes holds
    no double quote.  [st] is where the reader is, [cur] what it has
    read of the field. *)
Inductive csv_state : Type := FieldStart | Unquoted | Quoted | QuoteSeen.

Fixpoint rfc_go (st : csv_state) (cur : string) (s : string) : option (list string) :=
  match s with
  | EmptyString =>
      match st with
      | Quoted => None
      | _ => Some [cur]
      end
  | String c r =>
      match st with
      | FieldStart =>
          if Ascii.eqb c quote_char then rfc_go Quoted EmptyString r
          else if Ascii.eqb c comma_char
          then option_map (cons EmptyString) (rfc_go FieldStart EmptyString r)
          else rfc_go Unquoted (String c EmptyString) r
      | Unquoted =>
          if Ascii.eqb c quote_char then None
          else if Ascii.eqb c comma_char
          then option_map (cons cur) (rfc_go FieldStart EmptyString r)
          else rfc_go Unquoted (cur +:+ String c EmptyString) r
      | Quoted =>
          if Ascii.eqb c quote_char then rfc_go QuoteSeen cur r
          else rfc_go Quoted (cur +:+ String c EmptyString) r
      | QuoteSeen =>
          if Ascii.eqb c quote_char then rfc_go Quoted (cur +:+ quote) r
          else if Ascii.eqb c comma_char
          then option_map (cons cur) (rfc_go FieldStart EmptyString r)
          else None
      end
  end.

Definition rfc_fields (record : string) : option (list string) :=
  rfc_go FieldStart EmptyString record.

(** Writing a record as RFC 4180 describes it: every field in double
    quotes, with each double quote of the field written twice. *)
Fixpoint double_quotes (s : string) : string :=
  match s with
  | EmptyString => EmptyString
  | String c r =>
      if Ascii.eqb c quote_char then String c (String c (double_quotes r))
      else String c (double_quotes r)
  end.

Definition rfc_record (cells : list string) : string :=
  join "," (map (fun cell => quote +:+ double_quotes cell +:+ quote) cells).


(* ================================================================= *)
(** * Part III: proofs *)
(* ================================================================= *)

(** ** Strings and decimal digits *)

Module StringFacts.

Lemma append_nil_r (s : string) : s +:+ EmptyString = s.
Proof. induction s; simpl; congruence. Qed.

Lemma append_assoc (a b c : string) : (a +:+ b) +:+ c = a +:+ (b +:+ c).
Proof. induction a; simpl; congruence. Qed.

Lemma length_append (a b : string) :
  String.length (a +:+ b) = (String.length a + String.length b)%nat.
Proof. induction a; simpl; congruence. Qed.

Lemma mem_char_append (c : ascii) (a b : string) :
  mem_char c (a +:+ b) = mem_char c a || mem_char c b.
Proof. induction a; simpl; [reflexivity|]. rewrite IHa. apply orb_assoc. Qed.

Lemma clean_append (a b : string) : clean (a +:+ b) = clean a && clean b.
Proof.
  unfold clean. rewrite !mem_char_append.
  destruct (mem_char quote_char a), (mem_char quote_char b),
    (mem_char newline_char a), (mem_char newline_char b); reflexivity.
Qed.

Lemma clean_cons (c : ascii) (s : string) :
  clean (String c s) = clean (String c EmptyString) && clean s.
Proof. apply (clean_append (String c EmptyString) s). Qed.

Lemma clean_no_quote (s : string) : clean s = true -> mem_char quote_char s = false.
Proof. unfold clean. destruct (mem_char quote_char s); [discriminate | reflexivity]. Qed.

Lemma clean_no_newline (s : string) : clean s = true -> mem_char newline_char s = false.
Proof.
  unfold clean. destruct (mem_char newline_char s); [|reflexivity].
  rewrite andb_false_r. discriminate.
Qed.

Lemma is_digit_clean (c : ascii) : is_digit c = true -> clean (String c EmptyString) = true.
Proof.
  destruct c as [[] [] [] [] [] [] [] []]; vm_compute; congruence.
Qed.

Lemma all_digits_clean (s : string) : all_digits s = true -> clean s = true.
Proof.
  induction s as [|c s IH]; cbn [all_digits]; [reflexivity|].
  intros H. apply andb_prop in H. destruct H as [Hc Hs].
  rewrite clean_cons, (is_digit_clean _ Hc), (IH Hs). reflexivity.
Qed.

Lemma digit_char_is_digit (d : Z) : 0 <= d < 10 -> is_digit (digit_char d) = true.
Proof.
  intros H.
  assert (d = 0 \/ d = 1 \/ d = 2 \/ d = 3 \/ d = 4 \/ d = 5 \/ d = 6 \/ d = 7
          \/ d = 8 \/ d = 9) as C by lia.
  repeat (destruct C as [-> | C]; [reflexivity|]). subst. reflexivity.
Qed.

Lemma digit_val_char (d : Z) : 0 <= d < 10 -> digit_val (digit_char d) = d.
Proof.
  intros H.
  assert (d = 0 \/ d = 1 \/ d = 2 \/ d = 3 \/ d = 4 \/ d = 5 \/ d = 6 \/ d = 7
          \/ d = 8 \/ d = 9) as C by lia.
  repeat (destruct C as [-> | C]; [reflexivity|]). subst. reflexivity.
Qed.

Lemma all_digits_append (a b : string) :
  all_digits (a +:+ b) = all_digits a && all_digits b.
Proof.
  induction a; cbn [all_digits String.append]; [reflexivity|].
  rewrite IHa. apply andb_assoc.
Qed.

Lemma all_digits_dec_digits (fuel : nat) : forall n acc,
  all_digits acc = true -> all_digits (dec_digits fuel n acc) = true.
Proof.
  induction fuel as [|f IH]; intros n acc H; cbn [dec_digits]; [exact H|].
  assert (Hc : all_digits (String (digit_char (n mod 10)) acc) = true).
  { cbn [all_digits]. rewrite H, digit_char_is_digit; [reflexivity|].
    apply Z.mod_pos_bound. lia. }
  destruct (n / 10 =? 0); [exact Hc | apply IH; exact Hc].
Qed.

Lemma all_digits_Z_to_dec (n : Z) : all_digits (Z_to_dec n) = true.
Proof. apply all_digits_dec_digits. reflexivity. Qed.

Lemma all_digits_zeros (n : nat) : all_digits (zeros n) = true.
Proof. induction n; cbn [zeros all_digits]; auto. Qed.

Lemma all_digits_take (n : nat) : forall s,
  all_digits s = true -> all_digits (take n s) = true.
Proof.
  induction n as [|n IH]; intros [|c s] H; cbn [take all_digits]; try reflexivity.
  cbn [all_digits] in H. apply andb_prop in H. destruct H as [-> Hs]. apply IH, Hs.
Qed.

Lemma all_digits_drop (n : nat) : forall s,
  all_digits s = true -> all_digits (drop n s) = true.
Proof.
  induction n as [|n IH]; intros [|c s] H; cbn [drop]; try reflexivity; try exact H.
  cbn [all_digits] in H. apply andb_prop in H. destruct H as [_ Hs]. apply IH, Hs.
Qed.

Lemma take_drop (n : nat) : forall s, take n s +:+ drop n s = s.
Proof.
  induction n as [|n IH]; intros [|c s]; cbn [take drop String.append]; try reflexivity.
  rewrite IH. reflexivity.
Qed.

Lemma length_drop (n : nat) : forall s,
  String.length (drop n s) = (String.length s - n)%nat.
Proof.
  induction n as [|n IH]; intros [|c s]; cbn [drop String.length]; try reflexivity.
  apply IH.
Qed.

Lemma length_take (n : nat) : forall s,
  String.length (take n s) = Nat.min n (String.length s).
Proof.
  induction n as [|n IH]; intros [|c s]; cbn [take String.length]; try reflexivity.
  rewrite IH. reflexivity.
Qed.

Lemma length_zeros (n : nat) : String.length (zeros n) = n.
Proof. induction n; cbn [zeros String.length]; congruence. Qed.

Lemma dec_digits_length (fuel : nat) : forall n acc,
  (String.length acc <= String.length (dec_digits fuel n acc))%nat.
Proof.
  induction fuel as [|f IH]; intros n acc; cbn [dec_digits]; [lia|].
  destruct (n / 10 =? 0); cbn [String.length]; [lia|].
  specialize (IH (n / 10) (String (digit_char (n mod 10)) acc)).
  cbn [String.length] in IH. lia.
Qed.

Lemma Z_to_dec_nonempty (n : Z) : (1 <= String.length (Z_to_dec n))%nat.
Proof.
  unfold Z_to_dec. cbn [dec_digits]. destruct (n / 10 =? 0); cbn [String.length]; [lia|].
  pose proof (dec_digits_length (Z.to_nat (Z.log2 n)) (n / 10)
                (String (digit_char (n mod 10)) EmptyString)) as H.
  cbn [String.length] in H. lia.
Qed.

Lemma Z_to_dec_small (n : Z) :
  0 <= n < 10 -> Z_to_dec n = String (digit_char n) EmptyString.
Proof.
  intros H. unfold Z_to_dec. cbn [dec_digits].
  rewrite Z.mod_small by lia. rewrite Z.div_small by lia. reflexivity.
Qed.

Lemma log2_ge_3 (n : Z) : 10 <= n -> exists k, Z.to_nat (Z.log2 n) = S k.
Proof.
  intros H. assert (3 <= Z.log2 n).
  { change 3 with (Z.log2 10). apply Z.log2_le_mono. lia. }
  exists (Z.to_nat (Z.log2 n) - 1)%nat. lia.
Qed.

Lemma Z_to_dec_two (n : Z) : 10 <= n < 100 -> Z_to_dec n = two_digits n.
Proof.
  intros H. unfold Z_to_dec. destruct (log2_ge_3 n) as [k ->]; [lia|].
  assert (0 < n / 10 < 10).
  { split; [apply Z.div_str_pos; lia | apply Z.div_lt_upper_bound; lia]. }
  cbn [dec_digits]. destruct (n / 10 =? 0) eqn:E; [lia|].
  rewrite (Z.mod_small (n / 10)) by lia.
  rewrite (Z.div_small (n / 10)) by lia. reflexivity.
Qed.

Lemma Z_to_dec_long (n : Z) : 10 <= n -> (2 <= String.length (Z_to_dec n))%nat.
Proof.
  intros H. unfold Z_to_dec. destruct (log2_ge_3 n) as [k ->]; [lia|].
  assert (0 < n / 10) by (apply Z.div_str_pos; lia).
  cbn [dec_digits]. destruct (n / 10 =? 0) eqn:E; [lia|].
  destruct (n / 10 / 10 =? 0); cbn [String.length]; [lia|].
  pose proof (dec_digits_length k (n / 10 / 10)
    (String (digit_char ((n / 10) mod 10)) (String (digit_char (n mod 10)) EmptyString))) as L.
  cbn [String.length] in L. lia.
Qed.

Lemma pad2_small (n : Z) :
  0 <= n < 100 -> padStart 2 "0" (Z_to_dec n) = two_digits n.
Proof.
  intros H.
  destruct (Z_lt_le_dec n 10) as [Hs|Hl].
  - rewrite Z_to_dec_small by lia. unfold two_digits.
    rewrite Z.div_small, Z.mod_small by lia. reflexivity.
  - rewrite Z_to_dec_two by lia. reflexivity.
Qed.

Lemma pad2_large (n : Z) :
  100 <= n -> padStart 2 "0" (Z_to_dec n) = Z_to_dec n.
Proof.
  intros H.
  pose proof (Z_to_dec_long n ltac:(lia)) as L. unfold padStart.
  destruct (2 <=? String.length (Z_to_dec n))%nat eqn:E2; [reflexivity|].
  apply Nat.leb_gt in E2. lia.
Qed.

(** *** Splitting and joining *)

Lemma split_go_plain (sep : ascii) (s : string) : forall cur,
  mem_char sep s = false -> split_go sep s cur = [cur +:+ s].
Proof.
  induction s as [|c s IH]; intros cur H; cbn [split_go].
  - rewrite append_nil_r. reflexivity.
  - cbn [mem_char] in H. apply orb_false_elim in H. destruct H as [Hc Hs].
    rewrite Ascii.eqb_sym, Hc, (IH _ Hs), append_assoc. reflexivity.
Qed.

Lemma split_go_sep (sep : ascii) (a r : string) : forall cur,
  mem_char sep a = false ->
  split_go sep (a +:+ String sep r) cur = (cur +:+ a) :: split_go sep r EmptyString.
Proof.
  induction a as [|c a IH]; intros cur H; cbn [split_go String.append].
  - rewrite Ascii.eqb_refl, append_nil_r. reflexivity.
  - cbn [mem_char] in H. apply orb_false_elim in H. destruct H as [Hc Hs].
    rewrite Ascii.eqb_sym, Hc, (IH _ Hs), append_assoc. reflexivity.
Qed.

Lemma split_join (sep : ascii) (l : list string) :
  l <> [] ->
  Forall (fun s => mem_char sep s = false) l ->
  split sep (join (String sep EmptyString) l) = l.
Proof.
  intros Hne H. unfold split. induction H as [|x l Hx Hl IH]; [contradiction|].
  destruct l as [|y l].
  - cbn [join]. rewrite split_go_plain by exact Hx. reflexivity.
  - change (join (String sep EmptyString) (x :: y :: l))
      with (x +:+ String sep EmptyString +:+ join (String sep EmptyString) (y :: l)).
    cbn [String.append]. rewrite split_go_sep by exact Hx.
    rewrite IH by discriminate. reflexivity.
Qed.

Lemma read_quoted_field (field rest : string) : forall cur,
  mem_char quote_char field = false ->
  read_quoted (field +:+ String quote_char rest) cur = Some (cur +:+ field, rest).
Proof.
  induction field as [|c s IH]; intros cur H; cbn [read_quoted String.append].
  - rewrite Ascii.eqb_refl, append_nil_r. reflexivity.
  - cbn [mem_char] in H. apply orb_false_elim in H. destruct H as [Hc Hs].
    rewrite Ascii.eqb_sym, Hc, (IH _ Hs), append_assoc. reflexivity.
Qed.

End StringFacts.

(** ** The text of numbers *)

Import StringFacts.

Module FormatFacts.

Lemma clean_zeros (n : nat) : clean (zeros n) = true.
Proof. apply all_digits_clean, all_digits_zeros. Qed.

Lemma clean_Z_to_dec (n : Z) : clean (Z_to_dec n) = true.
Proof. apply all_digits_clean, all_digits_Z_to_dec. Qed.

Lemma clean_take (k : nat) (s : string) : all_digits s = true -> clean (take k s) = true.
Proof. intros H. apply all_digits_clean, all_digits_take, H. Qed.

Lemma clean_drop (k : nat) (s : string) : all_digits s = true -> clean (drop k s) = true.
Proof. intros H. apply all_digits_clean, all_digits_drop, H. Qed.

Lemma clean_exponent_part (e : Z) : clean (exponent_part e) = true.
Proof.
  unfold exponent_part. rewrite clean_cons, (clean_cons _ (Z_to_dec _)), clean_Z_to_dec.
  destruct (e <? 0); reflexivity.
Qed.

Lemma clean_layout (n pt : Z) : clean (layout n pt) = true.
Proof.
  unfold layout. pose proof (all_digits_Z_to_dec n) as D.
  repeat match goal with
         | |- context [if ?b then _ else _] => destruct b
         end;
    rewrite ?clean_append, ?clean_Z_to_dec, ?clean_zeros, ?clean_exponent_part,
      ?(clean_take _ _ D), ?(clean_drop _ _ D); reflexivity.
Qed.

Lemma clean_toString (x : number) : clean (toString x) = true.
Proof.
  destruct x as [s|s| |s m e]; cbn [toString]; try reflexivity.
  - destruct s; reflexivity.
  - destruct (JSNumber.shortest m e) as [n pt]. rewrite clean_append, clean_layout.
    destruct s; reflexivity.
Qed.

(** The digits [fixed_digits] writes: an integer part, and [f] decimals. *)
Lemma fixed_digits_shape (n : Z) (f : nat) :
  exists ip fp,
    fixed_digits n (S f) = ip +:+ "." +:+ fp
    /\ all_digits ip = true /\ all_digits fp = true
    /\ (1 <= String.length ip)%nat /\ String.length fp = S f.
Proof.
  unfold fixed_digits.
  set (m := if (String.length (Z_to_dec n) <=? S f)%nat
            then zeros (S f + 1 - String.length (Z_to_dec n)) +:+ Z_to_dec n
            else Z_to_dec n).
  assert (Hd : all_digits m = true).
  { subst m. destruct (_ <=? _)%nat;
      rewrite ?all_digits_append, ?all_digits_zeros, all_digits_Z_to_dec; reflexivity. }
  assert (Hl : (S f + 1 <= String.length m)%nat).
  { subst m. pose proof (Z_to_dec_nonempty n).
    destruct (String.length (Z_to_dec n) <=? S f)%nat eqn:E.
    - apply Nat.leb_le in E. rewrite length_append, length_zeros. lia.
    - apply Nat.leb_gt in E. lia. }
  exists (take (String.length m - S f) m), (drop (String.length m - S f) m).
  split; [reflexivity|].
  split; [apply all_digits_take, Hd|]. split; [apply all_digits_drop, Hd|].
  rewrite length_take, length_drop. lia.
Qed.

Lemma clean_fixed_digits (n : Z) (f : nat) : clean (fixed_digits n f) = true.
Proof.
  destruct f as [|f]; [apply clean_Z_to_dec|].
  destruct (fixed_digits_shape n f) as (ip & fp & -> & Hi & Hf & _).
  rewrite !clean_append, (all_digits_clean _ Hi), (all_digits_clean _ Hf). reflexivity.
Qed.

Lemma clean_toFixed (f : nat) (x : number) : clean (toFixed f x) = true.
Proof.
  destruct x as [s|s| |s m e]; cbn [toFixed].
  - apply clean_fixed_digits.
  - apply clean_toString.
  - reflexivity.
  - rewrite clean_append.
    destruct (mag_ge m e (10 ^ 21)); rewrite ?clean_toString, ?clean_fixed_digits;
      destruct s; reflexivity.
Qed.

End FormatFacts.

(** ** Rounding: the cases where division is exact *)

Module RoundingFacts.

Lemma digits2_pos_size (p : positive) : digits2_pos p = Pos.size p.
Proof. induction p; cbn [digits2_pos Pos.size]; congruence. Qed.

Lemma Zdigits2_log2 (z : Z) : 0 < z -> Zdigits2 z = Z.log2 z + 1.
Proof.
  destruct z as [|p|p]; try lia. intros _. cbn [Zdigits2].
  rewrite digits2_pos_size. destruct p; cbn [Z.log2 Pos.size]; lia.
Qed.

Lemma digits2_pos_log2 (p : positive) : Zpos (digits2_pos p) = Z.log2 (Zpos p) + 1.
Proof. apply (Zdigits2_log2 (Zpos p)). lia. Qed.

Lemma iter_pos_nat {A : Type} (f : A -> A) (p : positive) : forall x,
  SpecFloat.iter_pos f p x = Nat.iter (Pos.to_nat p) f x.
Proof.
  induction p as [p IH|p IH|]; intros x; cbn [SpecFloat.iter_pos].
  - rewrite !IH, Pos2Nat.inj_xI, <- Nat.iter_add, <- Nat.iter_succ_r. f_equal. lia.
  - rewrite !IH, Pos2Nat.inj_xO, <- Nat.iter_add. f_equal. lia.
  - reflexivity.
Qed.

Lemma shr_1_even (z : Z) :
  0 < z -> shr_1 (Build_shr_record (2 * z) false false) = Build_shr_record z false false.
Proof. destruct z; try lia. reflexivity. Qed.

Lemma shr_exact (k : nat) : forall z,
  0 < z ->
  Nat.iter k shr_1 (Build_shr_record (z * 2 ^ Z.of_nat k) false false)
  = Build_shr_record z false false.
Proof.
  induction k as [|k IH]; intros z Hz.
  - cbn [Nat.iter]. rewrite Z.mul_1_r. reflexivity.
  - rewrite Nat.iter_succ_r.
    replace (z * 2 ^ Z.of_nat (S k)) with (2 * (z * 2 ^ Z.of_nat k))
      by (rewrite Nat2Z.inj_succ, Z.pow_succ_r; lia).
    rewrite shr_1_even by (apply Z.mul_pos_pos; [lia | apply Z.pow_pos_nonneg; lia]).
    apply IH, Hz.
Qed.

(** A mantissa with [t] more binary zeros rounds to the number itself. *)
Lemma round_exact (s : bool) (M : positive) (E t : Z) :
  bounded prec emax M E = true -> 0 <= t ->
  binary_round_aux prec emax s (Zpos M * 2 ^ t) (E - t) loc_Exact = S754_finite s M E.
Proof.
  intros HB Ht. unfold bounded, canonical_mantissa in HB.
  apply andb_prop in HB. destruct HB as [HC HE].
  apply Z.eqb_eq in HC. rewrite digits2_pos_log2 in HC.
  assert (Hpos : 0 < Zpos M * 2 ^ t) by (apply Z.mul_pos_pos; [lia | apply Z.pow_pos_nonneg; lia]).
  unfold binary_round_aux.
  assert (E1 : shr_fexp prec emax (Zpos M * 2 ^ t) (E - t) loc_Exact
               = (Build_shr_record (Zpos M) false false, E)).
  { unfold shr_fexp. rewrite Zdigits2_log2 by exact Hpos.
    rewrite Z.log2_mul_pow2 by lia.
    replace (t + Z.log2 (Zpos M) + 1 + (E - t)) with (Z.log2 (Zpos M) + 1 + E) by lia.
    rewrite HC. replace (E - (E - t)) with t by lia.
    cbn [shr_record_of_loc]. unfold shr. destruct t as [|p|p]; try lia.
    - rewrite Z.mul_1_r. f_equal. lia.
    - rewrite iter_pos_nat. rewrite <- (positive_nat_Z p) at 1.
      rewrite shr_exact by lia. f_equal. lia. }
  rewrite E1. cbn [shr_m loc_of_shr_record round_nearest_even].
  assert (E2 : shr_fexp prec emax (Zpos M) E loc_Exact
               = (Build_shr_record (Zpos M) false false, E)).
  { unfold shr_fexp. rewrite Zdigits2_log2 by lia. rewrite HC, Z.sub_diag. reflexivity. }
  rewrite E2. cbn [shr_m]. rewrite HE. reflexivity.
Qed.

(** The division of the core gives an exact quotient when the ratio is a
    number: [m1 * 2^e1 / (m2 * 2^e2) = M * 2^E], written without
    fractions. *)
Lemma div_core_exact (m1 m2 M : positive) (e1 e2 E : Z) :
  bounded prec emax M E = true ->
  (if 0 <=? e1 - e2 - E
   then Zpos m1 * 2 ^ (e1 - e2 - E) = Zpos m2 * Zpos M
   else Zpos m1 = Zpos m2 * Zpos M * 2 ^ (- (e1 - e2 - E))) ->
  exists t, 0 <= t /\
    SFdiv_core_binary prec emax (Zpos m1) e1 (Zpos m2) e2
    = (Zpos M * 2 ^ t, E - t, loc_Exact).
Proof.
  intros HB Hx. pose proof HB as HB'. unfold bounded, canonical_mantissa in HB'.
  apply andb_prop in HB'. destruct HB' as [HC _].
  apply Z.eqb_eq in HC. rewrite digits2_pos_log2 in HC.
  unfold SFdiv_core_binary.
  rewrite !Zdigits2_log2 by lia.
  set (d1 := Z.log2 (Zpos m1) + 1). set (d2 := Z.log2 (Zpos m2) + 1).
  set (dM := Z.log2 (Zpos M) + 1) in *.
  set (e' := Z.min (fexp prec emax (d1 + e1 - (d2 + e2))) (e1 - e2)).
  assert (B1 : 2 ^ (d1 - 1) <= Zpos m1 < 2 ^ d1).
  { subst d1. pose proof (Z.log2_spec (Zpos m1) ltac:(lia)).
    replace (Z.log2 (Zpos m1) + 1 - 1) with (Z.log2 (Zpos m1)) by lia.
    replace (Z.log2 (Zpos m1) + 1) with (Z.succ (Z.log2 (Zpos m1))) by lia. lia. }
  assert (B2 : 2 ^ (d2 - 1) <= Zpos m2 < 2 ^ d2).
  { subst d2. pose proof (Z.log2_spec (Zpos m2) ltac:(lia)).
    replace (Z.log2 (Zpos m2) + 1 - 1) with (Z.log2 (Zpos m2)) by lia.
    replace (Z.log2 (Zpos m2) + 1) with (Z.succ (Z.log2 (Zpos m2))) by lia. lia. }
  assert (BM : 2 ^ (dM - 1) <= Zpos M < 2 ^ dM).
  { subst dM. pose proof (Z.log2_spec (Zpos M) ltac:(lia)).
    replace (Z.log2 (Zpos M) + 1 - 1) with (Z.log2 (Zpos M)) by lia.
    replace (Z.log2 (Zpos M) + 1) with (Z.succ (Z.log2 (Zpos M))) by lia. lia. }
  assert (Hd1 : 1 <= d1) by (subst d1; pose proof (Z.log2_nonneg (Zpos m1)); lia).
  assert (Hd2 : 1 <= d2) by (subst d2; pose proof (Z.log2_nonneg (Zpos m2)); lia).
  assert (HdM : 1 <= dM) by (subst dM; pose proof (Z.log2_nonneg (Zpos M)); lia).
  (* the magnitude of the quotient is at least that of the estimate *)
  assert (Hmag : d1 + e1 - (d2 + e2) <= dM + E).
  { destruct (0 <=? e1 - e2 - E) eqn:Ea.
    - apply Z.leb_le in Ea.
      assert (2 ^ (d1 - 1 + (e1 - e2 - E)) < 2 ^ (d2 + dM)).
      { rewrite !Z.pow_add_r by lia.
        apply Z.le_lt_trans with (Zpos m1 * 2 ^ (e1 - e2 - E)).
        - apply Z.mul_le_mono_nonneg_r; [apply Z.pow_nonneg; lia | lia].
        - rewrite Hx. apply Z.mul_lt_mono_nonneg; lia. }
      apply Z.pow_lt_mono_r_iff in H; lia.
    - apply Z.leb_gt in Ea.
      assert (2 ^ (d1 - 1) < 2 ^ (d2 + dM + - (e1 - e2 - E))).
      { rewrite !Z.pow_add_r by lia.
        apply Z.le_lt_trans with (Zpos m1); [lia|]. rewrite Hx.
        apply Z.mul_lt_mono_pos_r; [apply Z.pow_pos_nonneg; lia|].
        apply Z.mul_lt_mono_nonneg; lia. }
      apply Z.pow_lt_mono_r_iff in H; lia. }
  assert (He' : e' <= E).
  { subst e'. rewrite <- HC. unfold fexp. lia. }
  assert (Hs : 0 <= e1 - e2 - e') by (subst e'; lia).
  exists (E - e'). split; [lia|].
  replace (E - (E - e')) with e' by lia.
  assert (Hm' : match e1 - e2 - e' with
                | Z0 => Zpos m1
                | Zpos _ => Z.shiftl (Zpos m1) (e1 - e2 - e')
                | Zneg _ => 0
                end = Zpos m1 * 2 ^ (e1 - e2 - e')).
  { destruct (e1 - e2 - e') eqn:Es; try lia.
    rewrite Z.shiftl_mul_pow2 by lia. reflexivity. }
  rewrite Hm'.
  assert (Hq : Zpos m1 * 2 ^ (e1 - e2 - e') = Zpos m2 * (Zpos M * 2 ^ (E - e'))).
  { destruct (0 <=? e1 - e2 - E) eqn:Ea.
    - apply Z.leb_le in Ea.
      replace (e1 - e2 - e') with ((e1 - e2 - E) + (E - e')) by lia.
      rewrite Z.pow_add_r by lia. rewrite Z.mul_assoc, Hx. ring.
    - apply Z.leb_gt in Ea. rewrite Hx.
      replace (E - e') with (- (e1 - e2 - E) + (e1 - e2 - e')) by lia.
      rewrite Z.pow_add_r by lia. ring. }
  rewrite Hq.
  assert (Hd : Zpos m2 * (Zpos M * 2 ^ (E - e')) / Zpos m2 = Zpos M * 2 ^ (E - e')).
  { rewrite Z.mul_comm. apply Z.div_mul. lia. }
  assert (Hr : (Zpos m2 * (Zpos M * 2 ^ (E - e'))) mod Zpos m2 = 0).
  { rewrite Z.mul_comm. apply Z.mod_mul. lia. }
  unfold Z.div in Hd. unfold Z.modulo in Hr.
  destruct (Z.div_eucl (Zpos m2 * (Zpos M * 2 ^ (E - e'))) (Zpos m2)) as [q r].
  subst q r.
  f_equal. unfold new_location, new_location_even, new_location_odd.
  destruct (Z.even (Zpos m2)); reflexivity.
Qed.

Lemma div_exact (s : bool) (m1 m2 M : positive) (e1 e2 E : Z) :
  bounded prec emax M E = true ->
  (if 0 <=? e1 - e2 - E
   then Zpos m1 * 2 ^ (e1 - e2 - E) = Zpos m2 * Zpos M
   else Zpos m1 = Zpos m2 * Zpos M * 2 ^ (- (e1 - e2 - E))) ->
  (let '(q, e, l) := SFdiv_core_binary prec emax (Zpos m1) e1 (Zpos m2) e2 in
   binary_round_aux prec emax s q e l) = S754_finite s M E.
Proof.
  intros HB Hx. destruct (div_core_exact m1 m2 M e1 e2 E HB Hx) as (t & Ht & ->).
  apply round_exact; assumption.
Qed.





Lemma round_ratio_exact (s : bool) (a b M : positive) (E : Z) :
  bounded prec emax M E = true ->
  (if 0 <=? - E then Zpos a * 2 ^ (- E) = Zpos b * Zpos M
   else Zpos a = Zpos b * Zpos M * 2 ^ E) ->
  round_ratio s (Zpos a) (Zpos b) = S754_finite s M E.
Proof.
  intros HB Hx. unfold round_ratio. apply div_exact; [exact HB|].
  replace (0 - 0 - E) with (- E) by lia. rewrite Z.opp_involutive. exact Hx.
Qed.

End RoundingFacts.
(** ** Arithmetic of numbers on integers: exact sums and remainders, rounded quotients *)

Import RoundingFacts.

Module ArithFacts.

Lemma iter_xO (m p : positive) : Zpos (Pos.iter xO m p) = Zpos m * 2 ^ Zpos p.
Proof.
  induction p as [|p IH] using Pos.peano_ind.
  - cbn [Pos.iter]. lia.
  - rewrite Pos.iter_succ, Pos2Z.inj_succ, Z.pow_succ_r by lia.
    rewrite Pos2Z.inj_xO, IH. ring.
Qed.

(** An integer below [2^53] is a number, exactly. *)
Lemma of_Z_exact (t : Z) :
  0 < t < 2 ^ 53 ->
  exists M E,
    of_Z t = S754_finite false M E /\ bounded prec emax M E = true
    /\ E = Z.log2 t - 52 /\ Zpos M = t * 2 ^ (- E).
Proof.
  intros [H0 H1]. destruct t as [|m|m]; try lia.
  pose proof (Z.log2_nonneg (Zpos m)) as L0.
  assert (L1 : Z.log2 (Zpos m) < 53) by (apply Z.log2_lt_pow2; lia).
  unfold of_Z. cbn [binary_normalize]. unfold binary_round, shl_align.
  rewrite digits2_pos_log2.
  assert (Ef : fexp prec emax (Z.log2 (Zpos m) + 1 + 0) = Z.log2 (Zpos m) - 52).
  { unfold fexp, emin, prec, emax. lia. }
  rewrite Ef.
  assert (HB : forall M, Zpos M = Zpos m * 2 ^ (52 - Z.log2 (Zpos m)) ->
             bounded prec emax M (Z.log2 (Zpos m) - 52) = true).
  { intros M EM. unfold bounded, canonical_mantissa.
    rewrite digits2_pos_log2, EM, Z.log2_mul_pow2 by lia.
    apply andb_true_intro. split; [apply Z.eqb_eq | apply Z.leb_le];
      unfold fexp, emin, prec, emax; lia. }
  destruct (Z.log2 (Zpos m) - 52 - 0) as [|d|d] eqn:Ed; try lia.
  - exists m, 0. assert (E0 : Z.log2 (Zpos m) - 52 = 0) by lia.
    rewrite E0 in *. split.
    + replace (Zpos m) with (Zpos m * 2 ^ 0) at 1 by (rewrite Z.pow_0_r; lia).
      change 0 with (0 - 0) at 2. apply round_exact; [|lia].
      apply HB. replace (52 - Z.log2 (Zpos m)) with 0 by lia. rewrite Z.pow_0_r. lia.
    + split; [apply HB; replace (52 - Z.log2 (Zpos m)) with 0 by lia; rewrite Z.pow_0_r; lia|].
      split; [lia|]. cbn. lia.
  - exists (Pos.iter xO m d), (Z.log2 (Zpos m) - 52).
    assert (EM : Zpos (Pos.iter xO m d) = Zpos m * 2 ^ (52 - Z.log2 (Zpos m))).
    { rewrite iter_xO. f_equal. f_equal. lia. }
    split.
    + replace (Zpos (Pos.iter xO m d)) with (Zpos (Pos.iter xO m d) * 2 ^ 0)
        by (rewrite Z.pow_0_r; lia).
      replace (Z.log2 (Zpos m) - 52) with (Z.log2 (Zpos m) - 52 - 0) at 1 by lia.
      apply round_exact; [apply HB, EM | lia].
    + split; [apply HB, EM|]. split; [reflexivity|]. rewrite EM. f_equal. f_equal. lia.
Qed.

(** The mantissa of such a number has 53 digits, and its exponent is
    between [-52] and [0]. *)
Lemma of_Z_shape (t : Z) (M : positive) (E : Z) :
  0 < t < 2 ^ 53 -> E = Z.log2 t - 52 -> Zpos M = t * 2 ^ (- E) ->
  Z.log2 (Zpos M) = 52 /\ -52 <= E <= 0.
Proof.
  intros Ht HE HM. pose proof (Z.log2_nonneg t) as L0.
  assert (L1 : Z.log2 t < 53) by (apply Z.log2_lt_pow2; lia).
  split; [|lia]. rewrite HM, Z.log2_mul_pow2 by lia. lia.
Qed.

(** An integer below [2^53] scaled by a power of two normalizes to the
    integer. *)
Lemma normalize_exact (t k : Z) :
  0 < t < 2 ^ 53 -> 0 <= k ->
  binary_normalize prec emax (t * 2 ^ k) (- k) false = of_Z t.
Proof.
  intros Ht Hk. destruct (of_Z_exact t Ht) as (M & E & -> & HB & HE & HM).
  pose proof (Z.log2_nonneg t) as L0.
  assert (L1 : Z.log2 t < 53) by (apply Z.log2_lt_pow2; lia).
  assert (Hp : 0 < t * 2 ^ k) by (apply Z.mul_pos_pos; [lia | apply Z.pow_pos_nonneg; lia]).
  destruct (t * 2 ^ k) as [|p|p] eqn:Ep; try lia.
  cbn [binary_normalize]. unfold binary_round, shl_align.
  rewrite digits2_pos_log2, <- Ep, Z.log2_mul_pow2 by lia.
  assert (Ef : fexp prec emax (k + Z.log2 t + 1 + - k) = E).
  { unfold fexp, emin, prec, emax. clear - HE L0 L1. lia. }
  rewrite Ef.
  destruct (E - - k) as [|d|d] eqn:Ed.
  - replace (Zpos p) with (Zpos M * 2 ^ 0)
      by (rewrite Z.pow_0_r, Z.mul_1_r, HM, <- Ep; f_equal; f_equal; lia).
    replace (- k) with (E - 0) by lia. apply round_exact; [exact HB | lia].
  - replace (Zpos p) with (Zpos M * 2 ^ (Zpos d)).
    + replace (- k) with (E - Zpos d) by lia. apply round_exact; [exact HB | lia].
    + rewrite HM, <- Ep, <- Z.mul_assoc, <- Z.pow_add_r by lia. f_equal. f_equal. lia.
  - replace (Zpos (Pos.iter xO p d)) with (Zpos M * 2 ^ 0).
    + replace E with (E - 0) at 1 by lia. apply round_exact; [exact HB | lia].
    + rewrite iter_xO, <- Ep, HM, Z.pow_0_r, Z.mul_1_r, <- Z.mul_assoc, <- Z.pow_add_r by lia.
      f_equal. f_equal. lia.
Qed.

Lemma to_Z_of_Z (t : Z) : 0 <= t < 2 ^ 53 -> to_Z (of_Z t) = t.
Proof.
  intros Ht. destruct (Z.eq_dec t 0) as [->|Hn]; [reflexivity|].
  destruct (of_Z_exact t ltac:(lia)) as (M & E & -> & HB & HE & HM).
  destruct (of_Z_shape t M E ltac:(lia) HE HM) as [_ HEr].
  cbn [to_Z]. rewrite HM. destruct (0 <=? E) eqn:E0.
  - apply Z.leb_le in E0. replace E with 0 by lia. cbn. lia.
  - apply Z.div_mul. apply Z.pow_nonzero; lia.
Qed.

Lemma shl_align_value (m : positive) (e ez : Z) :
  ez <= e -> Zpos (fst (shl_align m e ez)) = Zpos m * 2 ^ (e - ez).
Proof.
  intros H. unfold shl_align. destruct (ez - e) as [|d|d] eqn:Ed; try lia; cbn [fst].
  - replace (e - ez) with 0 by lia. cbn. lia.
  - rewrite iter_xO. f_equal. f_equal. lia.
Qed.

(** Addition is exact on integers whose sum is below [2^53]. *)
Lemma add_exact (a b : Z) :
  0 <= a -> 0 <= b -> a + b < 2 ^ 53 -> add (of_Z a) (of_Z b) = of_Z (a + b).
Proof.
  intros Ha Hb Hs.
  destruct (Z.eq_dec a 0) as [->|Na].
  { rewrite Z.add_0_l. destruct (Z.eq_dec b 0) as [->|Nb]; [reflexivity|].
    destruct (of_Z_exact b ltac:(lia)) as (M & E & -> & _). reflexivity. }
  destruct (Z.eq_dec b 0) as [->|Nb].
  { rewrite Z.add_0_r. destruct (of_Z_exact a ltac:(lia)) as (M & E & -> & _). reflexivity. }
  destruct (of_Z_exact a ltac:(lia)) as (Ma & Ea & -> & _ & HEa & HMa).
  destruct (of_Z_exact b ltac:(lia)) as (Mb & Eb & -> & _ & HEb & HMb).
  destruct (of_Z_shape a Ma Ea ltac:(lia) HEa HMa) as [_ Ra].
  destruct (of_Z_shape b Mb Eb ltac:(lia) HEb HMb) as [_ Rb].
  unfold add. cbn [SFadd cond_Zopp].
  rewrite !shl_align_value by lia. rewrite HMa, HMb.
  set (ez := Z.min Ea Eb).
  replace (a * 2 ^ (- Ea) * 2 ^ (Ea - ez) + b * 2 ^ (- Eb) * 2 ^ (Eb - ez))
    with ((a + b) * 2 ^ (- ez)).
  - replace ez with (- - ez) at 2 by lia. apply normalize_exact; subst ez; lia.
  - rewrite <- !Z.mul_assoc, <- !Z.pow_add_r by (subst ez; lia).
    replace (- Ea + (Ea - ez)) with (- ez) by lia.
    replace (- Eb + (Eb - ez)) with (- ez) by lia. ring.
Qed.

(** The remainder is exact on integers below [2^53]. *)
Lemma rem_exact (a b : Z) :
  0 <= a < 2 ^ 53 -> 0 < b < 2 ^ 53 -> rem (of_Z a) (of_Z b) = of_Z (a mod b).
Proof.
  intros Ha Hb.
  destruct (of_Z_exact b Hb) as (Mb & Eb & -> & _ & HEb & HMb).
  destruct (of_Z_shape b Mb Eb Hb HEb HMb) as [_ Rb].
  destruct (Z.eq_dec a 0) as [->|Na]; [reflexivity|].
  destruct (of_Z_exact a ltac:(lia)) as (Ma & Ea & -> & _ & HEa & HMa).
  destruct (of_Z_shape a Ma Ea ltac:(lia) HEa HMa) as [_ Ra].
  cbn [rem]. set (e := Z.min Ea Eb). rewrite HMa, HMb.
  replace (a * 2 ^ (- Ea) * 2 ^ (Ea - e)) with (a * 2 ^ (- e))
    by (rewrite <- Z.mul_assoc, <- Z.pow_add_r by (subst e; lia); f_equal; f_equal; lia).
  replace (b * 2 ^ (- Eb) * 2 ^ (Eb - e)) with (b * 2 ^ (- e))
    by (rewrite <- Z.mul_assoc, <- Z.pow_add_r by (subst e; lia); f_equal; f_equal; lia).
  rewrite Z.mul_mod_distr_r by (try lia; apply Z.pow_nonzero; subst e; lia).
  pose proof (Z.mod_pos_bound a b ltac:(lia)) as Hm.
  destruct (Z.eq_dec (a mod b) 0) as [->|Nm]; [reflexivity|].
  replace e with (- - e) at 2 by lia. apply normalize_exact; subst e; lia.
Qed.

End ArithFacts.

Module DivFacts.
Import ArithFacts.

Lemma loc_of_shr_record_of_loc (m : Z) (l : location) :
  loc_of_shr_record (shr_record_of_loc m l) = l.
Proof. destruct l as [|[]]; reflexivity. Qed.

Lemma shr_record_of_loc_m (m : Z) (l : location) : shr_m (shr_record_of_loc m l) = m.
Proof. destruct l as [|[]]; reflexivity. Qed.

(** What the location of a remainder says. *)
Lemma new_location_spec (nb k : Z) :
  0 <= k < nb ->
  match new_location nb k with
  | loc_Exact => k = 0
  | loc_Inexact Lt => 0 < k /\ 2 * k < nb
  | loc_Inexact Eq => 0 < k /\ 2 * k = nb
  | loc_Inexact Gt => 0 < k /\ 2 * k > nb
  end.
Proof.
  intros H. unfold new_location, new_location_even, new_location_odd.
  destruct (Z.even nb) eqn:Ev.
  - destruct (k =? 0) eqn:E0; [apply Z.eqb_eq in E0; exact E0|].
    apply Z.eqb_neq in E0. destruct (Z.compare_spec (2 * k) nb); lia.
  - destruct (k =? 0) eqn:E0; [apply Z.eqb_eq in E0; exact E0|].
    apply Z.eqb_neq in E0.
    assert (Od : Z.odd nb = true) by (rewrite <- Z.negb_even, Ev; reflexivity).
    apply Z.odd_spec in Od. destruct Od as [h Hh].
    destruct (Z.compare_spec (2 * k + 1) nb); lia.
Qed.

(** The second step of rounding, on a mantissa of 53 digits or on [2^53]. *)
Lemma shr_fexp_rounded (s : bool) (r e : Z) :
  2 ^ 52 <= r <= 2 ^ 53 -> -1074 <= e -> e + 53 < 1024 ->
  exists M E,
    (let '(mrs, e'') := shr_fexp prec emax r e loc_Exact in
     match shr_m mrs with
     | Z0 => S754_zero s
     | Zpos m => if e'' <=? emax - prec then S754_finite s m e'' else S754_infinity s
     | Zneg _ => S754_nan
     end) = S754_finite s M E
    /\ bounded prec emax M E = true
    /\ ((Zpos M = r /\ E = e) \/ (r = 2 ^ 53 /\ Zpos M = 2 ^ 52 /\ E = e + 1)).
Proof.
  intros Br Hlo Hhi.
  destruct (Z_lt_le_dec r (2 ^ 53)) as [Hlt|Hge].
  - assert (Lr : Z.log2 r = 52)
      by (apply Z.log2_unique; [lia | change (2 ^ (52 + 1)) with (2 ^ 53); lia]).
    unfold shr_fexp. rewrite Zdigits2_log2 by lia. rewrite Lr.
    replace (fexp prec emax (52 + 1 + e) - e) with 0
      by (unfold fexp, emin, prec, emax; lia).
    cbn [shr shr_record_of_loc shr_m].
    destruct r as [|M|M] eqn:Er; try lia.
    exists M, e.
    replace (e <=? emax - prec) with true
      by (symmetry; apply Z.leb_le; unfold emax, prec; lia).
    split; [reflexivity|]. split; [|left; auto].
    unfold bounded, canonical_mantissa. rewrite digits2_pos_log2, Lr.
    apply andb_true_intro. split; [apply Z.eqb_eq | apply Z.leb_le];
      unfold fexp, emin, prec, emax; lia.
  - assert (Er : r = 9007199254740992) by (change (2 ^ 53) with 9007199254740992 in *; lia).
    rewrite Er. unfold shr_fexp.
    change (Zdigits2 9007199254740992) with 54.
    replace (fexp prec emax (54 + e) - e) with 1
      by (unfold fexp, emin, prec, emax; lia).
    cbn [shr shr_record_of_loc SpecFloat.iter_pos shr_1 shr_m orb].
    exists 4503599627370496%positive, (e + 1).
    replace (e + 1 <=? emax - prec) with true
      by (symmetry; apply Z.leb_le; unfold emax, prec; lia).
    split; [reflexivity|]. split; [|right; auto].
    unfold bounded, canonical_mantissa.
    change (Z.pos (digits2_pos 4503599627370496)) with 53.
    apply andb_true_intro. split; [apply Z.eqb_eq | apply Z.leb_le];
      unfold fexp, emin, prec, emax; lia.
Qed.


(** Rounding a quotient of 53 or 54 digits: the result is the multiple of
    the unit in the last place below the ratio [A / B] or the one above,
    whichever is nearer. *)
Lemma round_aux_near (s : bool) (q e : Z) (l : location) (A B : Z) :
  0 < B -> q * B <= A < (q + 1) * B ->
  match l with
  | loc_Exact => A = q * B
  | loc_Inexact Lt => q * B < A /\ 2 * (A - q * B) < B
  | loc_Inexact Eq => 2 * (A - q * B) = B
  | loc_Inexact Gt => 2 * (A - q * B) > B
  end ->
  52 <= Z.log2 q <= 53 -> -1074 <= Z.log2 q + e - 52 -> Z.log2 q + 1 + e < 1024 ->
  exists n m1 r M E,
    binary_round_aux prec emax s q e l = S754_finite s M E
    /\ bounded prec emax M E = true
    /\ n = Z.log2 q - 52 /\ Z.log2 m1 = 52
    /\ m1 * (B * 2 ^ n) <= A < (m1 + 1) * (B * 2 ^ n)
    /\ ((r = m1 /\ 2 * (A - m1 * (B * 2 ^ n)) <= B * 2 ^ n)
        \/ (r = m1 + 1 /\ 2 * (A - m1 * (B * 2 ^ n)) >= B * 2 ^ n))
    /\ ((Zpos M = r /\ E = e + n) \/ (r = 2 ^ 53 /\ Zpos M = 2 ^ 52 /\ E = e + n + 1)).
Proof.
  intros HB HA Hl Lq Hlo Hhi.
  assert (Hq : 0 < q).
  { destruct (Z_lt_le_dec 0 q) as [P|P]; [exact P|].
    rewrite Z.log2_nonpos in Lq by exact P. lia. }
  pose proof (Z.log2_spec q Hq) as Sq.
  unfold binary_round_aux.
  destruct (Z.eq_dec (Z.log2 q) 52) as [L52|L53].
  - (* no shift *)
    rewrite L52 in Sq. change (Z.succ 52) with 53 in Sq.
    unfold shr_fexp at 1. rewrite Zdigits2_log2 by exact Hq. rewrite L52.
    replace (fexp prec emax (52 + 1 + e) - e) with 0
      by (unfold fexp, emin, prec, emax; lia).
    cbn [shr]. rewrite shr_record_of_loc_m, loc_of_shr_record_of_loc.
    set (r := round_nearest_even q l).
    assert (Hr : (r = q /\ 2 * (A - q * B) <= B) \/ (r = q + 1 /\ 2 * (A - q * B) >= B)).
    { subst r. destruct l as [|[]]; cbn [round_nearest_even].
      - left. split; [reflexivity | lia].
      - destruct (Z.even q); [left | right]; split; try reflexivity; lia.
      - left. split; [reflexivity | lia].
      - right. split; [reflexivity | lia]. }
    destruct (shr_fexp_rounded s r e ltac:(lia) ltac:(lia) ltac:(lia)) as (M & E & -> & HBd & HM).
    exists 0, q, r, M, E. split; [reflexivity|]. split; [exact HBd|].
    split; [lia|]. split; [exact L52|].
    rewrite Z.pow_0_r, Z.mul_1_r, Z.add_0_r. auto.
  - (* one shift *)
    assert (L53' : Z.log2 q = 53) by lia.
    rewrite L53' in Sq. change (Z.succ 53) with 54 in Sq.
    unfold shr_fexp at 1. rewrite Zdigits2_log2 by exact Hq. rewrite L53'.
    replace (fexp prec emax (53 + 1 + e) - e) with 1
      by (unfold fexp, emin, prec, emax; lia).
    cbn [shr SpecFloat.iter_pos].
    set (h := q / 2).
    assert (Hh : q = 2 * h + q mod 2) by (subst h; apply Z.div_mod; lia).
    pose proof (Z.mod_pos_bound q 2 ltac:(lia)) as Hb.
    assert (Bh : 2 ^ 52 <= h < 2 ^ 53).
    { change (2 ^ 54) with (2 * 2 ^ 53) in Sq. change (2 ^ 53) with (2 * 2 ^ 52) in Sq at 1.
      lia. }
    assert (Lh : Z.log2 h = 52)
      by (apply Z.log2_unique; [lia | change (2 ^ (52 + 1)) with (2 ^ 53); lia]).
    assert (Hs : shr_m (shr_1 (shr_record_of_loc q l)) = h
                 /\ exists r,
                      r = round_nearest_even h
                            (loc_of_shr_record (shr_1 (shr_record_of_loc q l)))
                      /\ ((r = h /\ 2 * (A - h * (B * 2)) <= B * 2)
                          \/ (r = h + 1 /\ 2 * (A - h * (B * 2)) >= B * 2))).
    { destruct q as [|p|p]; try lia.
      destruct p as [p|p|]; [| |lia].
      - (* odd *)
        assert (Eh : h = Zpos p).
        { subst h. rewrite Pos2Z.inj_xI. symmetry. apply (Z.div_unique _ 2 _ 1); lia. }
        rewrite Pos2Z.inj_xI in HA, Hl. rewrite <- Eh in HA, Hl.
        destruct l as [|[]]; cbn [shr_record_of_loc shr_1 shr_m orb loc_of_shr_record];
          (split; [symmetry; exact Eh|]);
          eexists; (split; [reflexivity|]); cbn [round_nearest_even].
        + destruct (Z.even h); [left | right]; split; try reflexivity; lia.
        + right. split; [reflexivity | lia].
        + right. split; [reflexivity | lia].
        + right. split; [reflexivity | lia].
      - (* even *)
        assert (Eh : h = Zpos p).
        { subst h. rewrite Pos2Z.inj_xO. symmetry. apply (Z.div_unique _ 2 _ 0); lia. }
        rewrite Pos2Z.inj_xO in HA, Hl. rewrite <- Eh in HA, Hl.
        destruct l as [|[]]; cbn [shr_record_of_loc shr_1 shr_m orb loc_of_shr_record];
          (split; [symmetry; exact Eh|]);
          eexists; (split; [reflexivity|]); cbn [round_nearest_even].
        + left. split; [reflexivity | lia].
        + left. split; [reflexivity | lia].
        + left. split; [reflexivity | lia].
        + left. split; [reflexivity | lia]. }
    destruct Hs as (Em & r & Er & Hr). rewrite Em, <- Er.
    destruct (shr_fexp_rounded s r (e + 1) ltac:(lia) ltac:(lia) ltac:(lia))
      as (M & E & -> & HBd & HM).
    exists 1, h, r, M, E. split; [reflexivity|]. split; [exact HBd|].
    split; [lia|]. split; [exact Lh|].
    change (2 ^ 1) with 2. split; [|split; [exact Hr | exact HM]].
    clear - HA Hh Hb HB. nia.
Qed.


(** The quotient of two normal numbers whose exponents are not too far
    apart: the neighbour of the ratio of the mantissas that is nearer. *)
Lemma div_near (sx sy : bool) (ma mb : positive) (ea eb : Z) :
  Z.log2 (Zpos ma) = 52 -> Z.log2 (Zpos mb) = 52 -> -1021 <= ea - eb <= 1021 ->
  exists n m1 r M E,
    div (S754_finite sx ma ea) (S754_finite sy mb eb) = S754_finite (xorb sx sy) M E
    /\ bounded prec emax M E = true
    /\ 0 <= n <= 1 /\ Z.log2 m1 = 52
    /\ m1 * (Zpos mb * 2 ^ n) <= Zpos ma * 2 ^ 53 < (m1 + 1) * (Zpos mb * 2 ^ n)
    /\ ((r = m1 /\ 2 * (Zpos ma * 2 ^ 53 - m1 * (Zpos mb * 2 ^ n)) <= Zpos mb * 2 ^ n)
        \/ (r = m1 + 1
            /\ 2 * (Zpos ma * 2 ^ 53 - m1 * (Zpos mb * 2 ^ n)) >= Zpos mb * 2 ^ n))
    /\ ((Zpos M = r /\ E = ea - eb - 53 + n)
        \/ (r = 2 ^ 53 /\ Zpos M = 2 ^ 52 /\ E = ea - eb - 53 + n + 1)).
Proof.
  intros L1 L2 He. unfold div. cbn [SFdiv]. unfold SFdiv_core_binary.
  rewrite !Zdigits2_log2, L1, L2 by lia.
  replace (Z.min (fexp prec emax (52 + 1 + ea - (52 + 1 + eb))) (ea - eb))
    with (ea - eb - 53) by (unfold fexp, emin, prec, emax; lia).
  replace (ea - eb - (ea - eb - 53)) with 53 by lia.
  rewrite Z.shiftl_mul_pow2 by lia.
  pose proof (Z.log2_spec (Zpos ma) ltac:(lia)) as S1. rewrite L1 in S1.
  pose proof (Z.log2_spec (Zpos mb) ltac:(lia)) as S2. rewrite L2 in S2.
  change (Z.succ 52) with 53 in *.
  pose proof (Z_div_mod (Zpos ma * 2 ^ 53) (Zpos mb) ltac:(lia)) as Hdm.
  destruct (Z.div_eucl (Zpos ma * 2 ^ 53) (Zpos mb)) as [q r0].
  destruct Hdm as [Hdm Hr0].
  pose proof (new_location_spec (Zpos mb) r0 Hr0) as Hloc.
  change (2 ^ 52) with 4503599627370496 in *.
  change (2 ^ 53) with 9007199254740992 in *.
  assert (Hq1 : 4503599627370496 <= q) by nia.
  assert (Hq2 : q < 18014398509481984) by nia.
  assert (Lq : 52 <= Z.log2 q <= 53).
  { split.
    - apply Z.log2_le_pow2; [lia|]. change (2 ^ 52) with 4503599627370496. lia.
    - assert (Z.log2 q < 54); [|lia].
      apply Z.log2_lt_pow2; [lia|]. change (2 ^ 54) with 18014398509481984. lia. }
  destruct (round_aux_near (xorb sx sy) q (ea - eb - 53) (new_location (Zpos mb) r0)
              (Zpos ma * 9007199254740992) (Zpos mb))
    as (n & m1 & r & M & E & HE & HBd & Hn & Lm & Hfl & Hrd & HM);
    [lia | lia | | exact Lq | lia | lia |].
  { destruct (new_location (Zpos mb) r0) as [|[]]; lia. }
  exists n, m1, r, M, E.
  change (2 ^ 53) with 9007199254740992 in HM.
  split; [exact HE|]. split; [exact HBd|]. split; [lia|]. auto.
Qed.

(** The existence part alone. *)
Lemma div_normal (sx sy : bool) (m1 m2 : positive) (e1 e2 : Z) :
  Z.log2 (Zpos m1) = 52 -> Z.log2 (Zpos m2) = 52 -> -1021 <= e1 - e2 <= 1021 ->
  exists M E,
    div (S754_finite sx m1 e1) (S754_finite sy m2 e2) = S754_finite (xorb sx sy) M E
    /\ bounded prec emax M E = true.
Proof.
  intros L1 L2 He.
  destruct (div_near sx sy m1 m2 e1 e2 L1 L2 He) as (n & m & r & M & E & H1 & H2 & _).
  exists M, E. auto.
Qed.

End DivFacts.

Module QuotientFacts.
Import ArithFacts DivFacts.

(** The quotient of two positive integers below [2^53], as a number
    [r * 2^(-g)]: [r] is the integer below [a * 2^g / b] or the one above,
    whichever is nearer, and the integer part of the number is the
    integer quotient. *)
Lemma div_of_Z (a b : Z) :
  0 < a < 2 ^ 53 -> 0 < b < 2 ^ 53 ->
  exists g r M E,
    div (of_Z a) (of_Z b) = S754_finite false M E
    /\ bounded prec emax M E = true
    /\ 0 <= g /\ 2 ^ 52 <= r <= 2 ^ 53
    /\ 2 * Z.abs (a * 2 ^ g - r * b) <= b
    /\ (a / b) * 2 ^ g <= r < (a / b + 1) * 2 ^ g
    /\ ((Zpos M = r /\ E = - g) \/ (r = 2 ^ 53 /\ Zpos M = 2 ^ 52 /\ E = 1 - g)).
Proof.
  intros Ha Hb.
  destruct (of_Z_exact a Ha) as (Ma & Ea & -> & _ & HEa & HMa).
  destruct (of_Z_exact b Hb) as (Mb & Eb & -> & _ & HEb & HMb).
  destruct (of_Z_shape a Ma Ea Ha HEa HMa) as [La Ra].
  destruct (of_Z_shape b Mb Eb Hb HEb HMb) as [Lb Rb].
  destruct (div_near false false Ma Mb Ea Eb La Lb ltac:(lia))
    as (n & m1 & r & M & E & HE & HBd & Hn & Lm & Hfl & Hrd & HM).
  cbn [xorb] in HE.
  assert (Bm : 2 ^ 52 <= m1 < 2 ^ 53).
  { assert (0 < m1).
    { destruct (Z_lt_le_dec 0 m1) as [P|P]; [exact P|].
      rewrite Z.log2_nonpos in Lm by exact P. lia. }
    pose proof (Z.log2_spec m1 ltac:(lia)) as S1. rewrite Lm in S1.
    change (Z.succ 52) with 53 in S1. exact S1. }
  set (P := 2 ^ (n - Eb)).
  assert (HP : 0 < P) by (apply Z.pow_pos_nonneg; lia).
  assert (EB : Zpos Mb * 2 ^ n = b * P).
  { rewrite HMb. subst P. rewrite <- Z.mul_assoc, <- Z.pow_add_r by lia.
    f_equal. f_equal. lia. }
  rewrite EB in Hfl, Hrd.
  (* the exponent of the result is not positive *)
  assert (Hg : 0 <= - Ea + Eb + 53 - n).
  { destruct (Z_le_gt_dec 0 (- Ea + Eb + 53 - n)) as [G|G]; [exact G|]. exfalso.
    assert (EA : Zpos Ma * 2 ^ 53 * 2 ^ (- (- Ea + Eb + 53 - n)) = a * P).
    { rewrite HMa. subst P. rewrite <- !Z.mul_assoc, <- !Z.pow_add_r by lia.
      f_equal. f_equal. lia. }
    assert (2 <= 2 ^ (- (- Ea + Eb + 53 - n))).
    { change 2 with (2 ^ 1) at 1. apply Z.pow_le_mono_r; lia. }
    assert (m1 * (b * P) * 2 ^ (- (- Ea + Eb + 53 - n)) <= a * P).
    { rewrite <- EA. apply Z.mul_le_mono_nonneg_r; lia. }
    assert (2 ^ 53 * P <= a * P) by nia.
    assert (2 ^ 53 <= a) by (apply (Z.mul_le_mono_pos_r _ _ P); assumption).
    lia. }
  set (g := - Ea + Eb + 53 - n) in *.
  assert (EA : Zpos Ma * 2 ^ 53 = a * 2 ^ g * P).
  { rewrite HMa. subst P g. rewrite <- !Z.mul_assoc, <- !Z.pow_add_r by lia.
    f_equal. f_equal. lia. }
  rewrite EA in Hfl, Hrd.
  assert (Hg0 : 0 < 2 ^ g) by (apply Z.pow_pos_nonneg; lia).
  (* cancel the common power of two *)
  assert (F1 : m1 * b <= a * 2 ^ g).
  { apply (Z.mul_le_mono_pos_r _ _ P); [exact HP|]. lia. }
  assert (F2 : a * 2 ^ g < (m1 + 1) * b).
  { apply (Z.mul_lt_mono_pos_r P); [exact HP|]. lia. }
  assert (Hr : (r = m1 /\ 2 * (a * 2 ^ g - m1 * b) <= b)
               \/ (r = m1 + 1 /\ 2 * (a * 2 ^ g - m1 * b) >= b)).
  { destruct Hrd as [[-> H]|[-> H]]; [left | right]; (split; [reflexivity|]).
    - apply (Z.mul_le_mono_pos_r _ _ P); [exact HP|]. lia.
    - apply Z.le_ge. apply (Z.mul_le_mono_pos_r _ _ P); [exact HP|]. lia. }
  clear Hfl Hrd EA EB.
  pose proof (Z.div_mod a b ltac:(lia)) as Hdm.
  pose proof (Z.mod_pos_bound a b ltac:(lia)) as Hmb.
  set (k := a / b) in *. set (rho := a mod b) in *.
  assert (Hk1 : k * 2 ^ g <= m1).
  { assert (k * 2 ^ g * b < (m1 + 1) * b) by nia.
    assert (k * 2 ^ g < m1 + 1) by (apply (Z.mul_lt_mono_pos_r b); [lia | assumption]).
    lia. }
  assert (Hk2 : m1 < (k + 1) * 2 ^ g).
  { assert (m1 * b < (k + 1) * 2 ^ g * b) by nia.
    apply (Z.mul_lt_mono_pos_r b); [lia | assumption]. }
  assert (Hb2 : b < 2 * 2 ^ g).
  { assert (2 ^ 52 * b < 2 ^ 53 * 2 ^ g) by nia.
    change (2 ^ 53) with (2 ^ 52 * 2) in H. nia. }
  exists g, r, M, E. split; [exact HE|]. split; [exact HBd|]. split; [exact Hg|].
  split; [destruct Hr as [[-> _]|[-> _]]; lia|].
  split; [destruct Hr as [[-> H]|[-> H]]; lia|].
  split.
  - destruct Hr as [[-> H]|[-> H]]; [lia|]. split; [lia|].
    destruct (Z_lt_le_dec (m1 + 1) ((k + 1) * 2 ^ g)) as [G|G]; [exact G|]. exfalso.
    assert (m1 + 1 = (k + 1) * 2 ^ g) by lia.
    assert (2 * 2 ^ g * (b - rho) <= b) by nia.
    assert (2 * 2 ^ g * 1 <= 2 * 2 ^ g * (b - rho)) by (apply Z.mul_le_mono_nonneg_l; lia).
    lia.
  - destruct HM as [[HM1 HM2]|(HM1 & HM2 & HM3)]; [left | right]; subst g; repeat split; lia.
Qed.

Lemma finite_of_Z (M : positive) (k : Z) :
  bounded prec emax M 0 = true -> Zpos M = k -> S754_finite false M 0 = of_Z k.
Proof.
  intros HB <-. unfold bounded, canonical_mantissa in HB.
  apply andb_prop in HB. destruct HB as [HC _]. apply Z.eqb_eq in HC.
  rewrite digits2_pos_log2 in HC. unfold fexp, emin, prec, emax in HC.
  assert (L : Z.log2 (Zpos M) = 52) by lia.
  pose proof (Z.log2_spec (Zpos M) ltac:(lia)) as S. rewrite L in S.
  change (Z.succ 52) with 53 in S.
  destruct (of_Z_exact (Zpos M) ltac:(lia)) as (M' & E' & -> & _ & HE' & HM').
  rewrite L in HE'. assert (E' = 0) as -> by lia. cbn in HM'.
  f_equal. lia.
Qed.

(** [Math.floor(a / b)] is the integer quotient, for integers below
    [2^53]. *)
Lemma floor_div (a b : Z) :
  0 <= a < 2 ^ 53 -> 0 < b < 2 ^ 53 -> floor (div (of_Z a) (of_Z b)) = of_Z (a / b).
Proof.
  intros Ha Hb. destruct (Z.eq_dec a 0) as [->|Na].
  { destruct (of_Z_exact b Hb) as (Mb & Eb & -> & _). reflexivity. }
  destruct (div_of_Z a b ltac:(lia) Hb) as (g & r & M & E & -> & HBd & Hg & Br & _ & Hfl & HM).
  assert (Hg0 : 0 < 2 ^ g) by (apply Z.pow_pos_nonneg; lia).
  assert (Hk : 0 <= a / b) by (apply Z.div_pos; lia).
  assert (Hq : r / 2 ^ g = a / b).
  { symmetry. apply (Z.div_unique _ _ _ (r - a / b * 2 ^ g)); lia. }
  cbn [floor]. destruct HM as [[HM ->]|(Hr & HM & ->)].
  - destruct (0 <=? - g) eqn:E0.
    + apply Z.leb_le in E0. assert (g = 0) as -> by lia.
      apply finite_of_Z; [exact HBd|]. rewrite Z.pow_0_r in Hfl. lia.
    + replace (- - g) with g by lia. rewrite HM, Hq. reflexivity.
  - assert (Hle : a / b <= a).
    { apply Z.div_le_upper_bound; [lia|]. nia. }
    destruct (0 <=? 1 - g) eqn:E0.
    + apply Z.leb_le in E0.
      assert (g = 0 \/ g = 1) as [->| ->] by lia.
      * rewrite Z.pow_0_r in Hfl. lia.
      * change (2 ^ 1) with 2 in Hfl.
        change (2 ^ 53) with 9007199254740992 in *.
        assert (Ek : a / b = 4503599627370496) by lia.
        rewrite Ek. change (1 - 1) with 0. apply finite_of_Z; [exact HBd | exact HM].
    + apply Z.leb_gt in E0. rewrite HM, <- Hq, Hr.
      replace (- (1 - g)) with (g - 1) by lia.
      change (2 ^ 53) with (2 ^ 52 * 2 ^ 1).
      replace (2 ^ g) with (2 ^ (g - 1) * 2 ^ 1)
        by (rewrite <- Z.pow_add_r by lia; f_equal; lia).
      rewrite Z.div_mul_cancel_r by (try apply Z.pow_nonzero; lia). reflexivity.
Qed.

End QuotientFacts.


(** ** Numerals *)

Import StringFacts FormatFacts RoundingFacts.

Module NumeralFacts.

Lemma dec_value_append (a b : string) : forall acc,
  dec_value (a +:+ b) acc = dec_value b (dec_value a acc).
Proof. induction a as [|c a IH]; intros acc; cbn [dec_value String.append]; auto. Qed.

Lemma dec_value_zeros (j : nat) : forall acc,
  dec_value (zeros j) acc = acc * 10 ^ Z.of_nat j.
Proof.
  induction j as [|j IH]; intros acc; cbn [zeros dec_value].
  - rewrite Z.pow_0_r. lia.
  - rewrite IH, Nat2Z.inj_succ, Z.pow_succ_r by lia.
    change (digit_val "0") with 0. ring.
Qed.

Lemma digit_char_nonzero (d : Z) : 0 < d < 10 -> Ascii.eqb (digit_char d) "0" = false.
Proof.
  intros H.
  assert (d = 1 \/ d = 2 \/ d = 3 \/ d = 4 \/ d = 5 \/ d = 6 \/ d = 7
          \/ d = 8 \/ d = 9) as C by lia.
  repeat (destruct C as [-> | C]; [reflexivity|]). subst. reflexivity.
Qed.

(** The digits of a positive integer: a first digit that is not [0], then
    digits, and their value is the integer. *)
Lemma dec_digits_spec (fuel : nat) : forall n acc,
  0 < n < 2 ^ Z.of_nat fuel ->
  exists c r,
    dec_digits fuel n acc = String c (r +:+ acc)
    /\ is_digit c = true /\ Ascii.eqb c "0" = false
    /\ all_digits r = true /\ dec_value (String c r) 0 = n.
Proof.
  induction fuel as [|f IH]; intros n acc Hn.
  - change (2 ^ Z.of_nat 0) with 1 in Hn. lia.
  - cbn [dec_digits]. pose proof (Z.mod_pos_bound n 10 ltac:(lia)) as Hm.
    pose proof (Z.div_mod n 10 ltac:(lia)) as Hdm.
    destruct (n / 10 =? 0) eqn:E.
    + apply Z.eqb_eq in E. exists (digit_char (n mod 10)), EmptyString.
      assert (n mod 10 = n) as Hs by lia. rewrite Hs in *.
      split; [reflexivity|]. split; [apply digit_char_is_digit; lia|].
      split; [apply digit_char_nonzero; lia|]. split; [reflexivity|].
      cbn [dec_value]. rewrite digit_val_char by lia. lia.
    + apply Z.eqb_neq in E.
      assert (0 < n / 10) by (pose proof (Z.div_pos n 10); lia).
      assert (n / 10 < 2 ^ Z.of_nat f).
      { rewrite Nat2Z.inj_succ, Z.pow_succ_r in Hn by lia.
        apply Z.div_lt_upper_bound; lia. }
      destruct (IH (n / 10) (String (digit_char (n mod 10)) acc) ltac:(lia))
        as (c & r & -> & Hc & Hz & Hr & Hv).
      exists c, (r +:+ String (digit_char (n mod 10)) EmptyString).
      split; [rewrite append_assoc; reflexivity|]. split; [exact Hc|].
      split; [exact Hz|]. split.
      * rewrite all_digits_append, Hr. cbn [all_digits].
        rewrite digit_char_is_digit by lia. reflexivity.
      * change (String c (r +:+ String (digit_char (n mod 10)) EmptyString))
          with (String c r +:+ String (digit_char (n mod 10)) EmptyString).
        rewrite dec_value_append, Hv. cbn [dec_value].
        rewrite digit_val_char by lia. lia.
Qed.

Lemma Z_to_dec_spec (n : Z) :
  0 < n ->
  exists c r,
    Z_to_dec n = String c r
    /\ is_digit c = true /\ Ascii.eqb c "0" = false
    /\ all_digits r = true /\ dec_value (String c r) 0 = n.
Proof.
  intros Hn. unfold Z_to_dec.
  destruct (dec_digits_spec (S (Z.to_nat (Z.log2 n))) n EmptyString)
    as (c & r & E & H).
  - split; [exact Hn|]. pose proof (Z.log2_spec n Hn) as L.
    pose proof (Z.log2_nonneg n).
    rewrite Nat2Z.inj_succ, Z2Nat.id by lia. lia.
  - exists c, r. rewrite E, append_nil_r. auto.
Qed.

Lemma dec_value_Z_to_dec (n : Z) : 0 <= n -> dec_value (Z_to_dec n) 0 = n.
Proof.
  intros H. destruct (Z.eq_dec n 0) as [->|Hn]; [reflexivity|].
  destruct (Z_to_dec_spec n ltac:(lia)) as (c & r & -> & _ & _ & _ & Hv). exact Hv.
Qed.

Lemma span_digits_stop (ds rest : string) :
  all_digits ds = true -> no_digit_ahead rest = true ->
  span_digits (ds +:+ rest) = (ds, rest).
Proof.
  intros Hd Hr. induction ds as [|c ds IH]; cbn [String.append].
  - destruct rest as [|c r]; [reflexivity|]. cbn [span_digits].
    cbn [no_digit_ahead] in Hr. destruct (is_digit c); [discriminate | reflexivity].
  - cbn [all_digits] in Hd. apply andb_prop in Hd. destruct Hd as [Hc Hd].
    cbn [span_digits]. rewrite Hc, (IH Hd). reflexivity.
Qed.

Lemma delimited_no_digit (rest : string) :
  delimited rest = true -> no_digit_ahead rest = true.
Proof.
  destruct rest as [|c r]; [reflexivity|]. cbn [delimited no_digit_ahead]. intros H.
  apply orb_prop in H. destruct H as [H|H]; [apply orb_prop in H; destruct H as [H|H]|];
    apply Ascii.eqb_eq in H; subst c; reflexivity.
Qed.

Lemma delimited_span_frac (rest : string) :
  delimited rest = true -> span_frac rest = Some (EmptyString, rest).
Proof.
  destruct rest as [|c r]; [reflexivity|]. cbn [delimited]. intros H.
  apply orb_prop in H. destruct H as [H|H]; [apply orb_prop in H; destruct H as [H|H]|];
    apply Ascii.eqb_eq in H; subst c; reflexivity.
Qed.

Lemma delimited_span_exp (rest : string) :
  delimited rest = true -> span_exp rest = Some (0, rest).
Proof.
  destruct rest as [|c r]; [reflexivity|]. cbn [delimited]. intros H.
  apply orb_prop in H. destruct H as [H|H]; [apply orb_prop in H; destruct H as [H|H]|];
    apply Ascii.eqb_eq in H; subst c; reflexivity.
Qed.

(** The exponent part reads back as its exponent. *)
Lemma span_exp_exponent_part (e : Z) (rest : string) :
  delimited rest = true ->
  span_exp (exponent_part e +:+ rest) = Some (e, rest).
Proof.
  intros Hr. unfold exponent_part. cbn [String.append span_exp].
  change (Ascii.eqb "e" "e" || Ascii.eqb "e" "E") with true. cbn iota.
  pose proof (delimited_no_digit _ Hr) as Hn.
  destruct (e <? 0) eqn:E.
  - change (Ascii.eqb "-" "-") with true. cbn iota.
    rewrite span_digits_stop by (auto using all_digits_Z_to_dec).
    pose proof (Z_to_dec_nonempty (Z.abs e)) as L.
    destruct (Z_to_dec (Z.abs e)) as [|c r] eqn:Ed; [cbn in L; lia|].
    rewrite <- Ed, dec_value_Z_to_dec by lia. f_equal. f_equal. lia.
  - change (Ascii.eqb "+" "-") with false. change (Ascii.eqb "+" "+") with true. cbn iota.
    rewrite span_digits_stop by (auto using all_digits_Z_to_dec).
    pose proof (Z_to_dec_nonempty (Z.abs e)) as L.
    destruct (Z_to_dec (Z.abs e)) as [|c r] eqn:Ed; [cbn in L; lia|].
    rewrite <- Ed, dec_value_Z_to_dec by lia. f_equal. f_equal. lia.
Qed.

End NumeralFacts.

(** ** The text of a number reads back as the number *)

Import StringFacts FormatFacts RoundingFacts NumeralFacts.

Module NumberTextFacts.

Lemma parse_unsigned_parts (neg : bool) (ip fp s1 s2 s3 s4 : string) (ex : Z) :
  span_int s1 = (ip, s2) -> (1 <= String.length ip)%nat ->
  span_frac s2 = Some (fp, s3) -> span_exp s3 = Some (ex, s4) ->
  parse_unsigned neg s1 =
    Some (if dec_value (ip +:+ fp) 0 =? 0 then S754_zero neg
          else of_decimal neg (dec_value (ip +:+ fp) 0) (ex - Z.of_nat (String.length fp)),
          s4).
Proof.
  intros H1 Hl H2 H3. unfold parse_unsigned. rewrite H1.
  destruct ip as [|c ip]; [cbn in Hl; lia|]. rewrite H2, H3. reflexivity.
Qed.

Lemma span_int_digits (c : ascii) (r rest : string) :
  Ascii.eqb c "0" = false -> is_digit c = true -> all_digits r = true ->
  no_digit_ahead rest = true ->
  span_int (String c r +:+ rest) = (String c r, rest).
Proof.
  intros Hz Hc Hr Hn. cbn [String.append span_int]. rewrite Hz.
  apply (span_digits_stop (String c r) rest); [|exact Hn].
  cbn [all_digits]. rewrite Hc, Hr. reflexivity.
Qed.

Lemma span_frac_digits (fp rest : string) :
  all_digits fp = true -> (1 <= String.length fp)%nat -> no_digit_ahead rest = true ->
  span_frac (String "." (fp +:+ rest)) = Some (fp, rest).
Proof.
  intros Hd Hl Hn. cbn [span_frac]. change (Ascii.eqb "." ".") with true. cbn iota.
  rewrite span_digits_stop by assumption.
  destruct fp; [cbn in Hl; lia | reflexivity].
Qed.

Lemma exponent_part_head (e : Z) :
  exists t, exponent_part e = String "e" t.
Proof. eexists. reflexivity. Qed.

Lemma span_frac_exponent (e : Z) (rest : string) :
  span_frac (exponent_part e +:+ rest) = Some (EmptyString, exponent_part e +:+ rest).
Proof. reflexivity. Qed.

Lemma take_length_ge (k : nat) : forall s, (String.length s <= k)%nat -> take k s = s.
Proof.
  induction k as [|k IH]; intros [|c s] H; cbn [take]; try reflexivity.
  - cbn in H. lia.
  - cbn [String.length] in H. rewrite IH by lia. reflexivity.
Qed.

(** The text [layout] writes for the digits [n] and the point [pt] reads
    back as the numeral [n * 10^(pt - k)], [k] the number of digits. *)
Lemma parse_unsigned_layout (neg : bool) (n pt : Z) (rest : string) :
  0 < n -> delimited rest = true ->
  parse_unsigned neg (layout n pt +:+ rest) =
    Some (of_decimal neg n (pt - Z.of_nat (String.length (Z_to_dec n))), rest).
Proof.
  intros Hn Hr.
  destruct (Z_to_dec_spec n Hn) as (c & r & E & Hc & Hz & Hd & Hv).
  pose proof (delimited_no_digit _ Hr) as Hnd.
  assert (Hds : all_digits (String c r) = true) by (cbn [all_digits]; rewrite Hc, Hd; reflexivity).
  unfold layout. rewrite E. set (k := Z.of_nat (String.length (String c r))).
  assert (Hk : k = Z.of_nat (S (String.length r))) by reflexivity.
  assert (Hn0 : (n =? 0) = false) by (apply Z.eqb_neq; lia).
  destruct ((k <=? pt) && (pt <=? 21)) eqn:C1.
  { (* digits, then zeros *)
    apply andb_prop in C1. destruct C1 as [C1 _]. apply Z.leb_le in C1.
    rewrite append_assoc.
    rewrite (parse_unsigned_parts neg (String c r +:+ zeros (Z.to_nat (pt - k)))
               EmptyString _ rest rest rest 0).
    - rewrite append_nil_r, dec_value_append, Hv, dec_value_zeros, Z2Nat.id by lia.
      assert (0 < 10 ^ (pt - k)) by (apply Z.pow_pos_nonneg; lia).
      destruct (n * 10 ^ (pt - k) =? 0) eqn:E0; [apply Z.eqb_eq in E0; nia|].
      f_equal. f_equal. unfold of_decimal. cbn [String.length Z.of_nat Z.sub Z.leb Z.compare Z.opp Z.add].
      destruct (0 <=? pt - k) eqn:E1; [|apply Z.leb_gt in E1; lia].
      change (10 ^ 0) with 1. rewrite Z.mul_1_r. reflexivity.
    - rewrite <- append_assoc.
      change (String c r +:+ zeros (Z.to_nat (pt - k)))
        with (String c (r +:+ zeros (Z.to_nat (pt - k)))).
      apply span_int_digits; try assumption.
      rewrite all_digits_append, Hd, all_digits_zeros. reflexivity.
    - cbn [String.append String.length]. lia.
    - apply delimited_span_frac, Hr.
    - apply delimited_span_exp, Hr. }
  destruct ((0 <? pt) && (pt <=? 21)) eqn:C2.
  { (* digits around the point *)
    apply andb_prop in C2. destruct C2 as [C2 C2']. apply Z.ltb_lt in C2.
    apply Z.leb_le in C2'.
    assert (Hlt : pt < k).
    { apply andb_false_iff in C1. destruct C1 as [C1|C1];
        [apply Z.leb_gt in C1; lia | apply Z.leb_gt in C1; lia]. }
    destruct (Z.to_nat pt) as [|p] eqn:Ep; [lia|].
    cbn [take drop]. rewrite !append_assoc.
    cbn [String.append].
    assert (Hp : (p < String.length r)%nat) by lia.
    rewrite (parse_unsigned_parts neg (String c (take p r)) (drop p r)
               _ (String "." (drop p r +:+ rest)) rest rest 0).
    - change (String c (take p r) +:+ drop p r) with (String c (take p r +:+ drop p r)).
      rewrite take_drop, Hv, Hn0. f_equal. f_equal. f_equal.
      rewrite length_drop. lia.
    - change (String c (take p r +:+ String "." (drop p r +:+ rest)))
        with (String c (take p r) +:+ String "." (drop p r +:+ rest)).
      apply span_int_digits; try assumption; [apply all_digits_take, Hd | reflexivity].
    - cbn [String.length]. lia.
    - apply span_frac_digits; [apply all_digits_drop, Hd | rewrite length_drop; lia | exact Hnd].
    - apply delimited_span_exp, Hr. }
  destruct ((-6 <? pt) && (pt <=? 0)) eqn:C3.
  { (* zero, the point, zeros, digits *)
    apply andb_prop in C3. destruct C3 as [C3 C3']. apply Z.ltb_lt in C3.
    apply Z.leb_le in C3'.
    rewrite !append_assoc. cbn [String.append].
    rewrite (parse_unsigned_parts neg "0" (zeros (Z.to_nat (- pt)) +:+ String c r)
               _ (String "." ((zeros (Z.to_nat (- pt)) +:+ String c r) +:+ rest)) rest rest 0).
    - change ("0" +:+ zeros (Z.to_nat (- pt)) +:+ String c r)
        with (zeros (S (Z.to_nat (- pt))) +:+ String c r).
      rewrite dec_value_append, dec_value_zeros, Z.mul_0_l.
      rewrite Hv, Hn0. f_equal. f_equal. f_equal.
      rewrite length_append, length_zeros. cbn [String.length]. lia.
    - rewrite append_assoc. reflexivity.
    - cbn. lia.
    - apply span_frac_digits; [| |exact Hnd].
      + rewrite all_digits_append, all_digits_zeros, Hds. reflexivity.
      + rewrite length_append. cbn [String.length]. lia.
    - apply delimited_span_exp, Hr. }
  destruct (k =? 1) eqn:C4.
  { (* one digit and an exponent *)
    apply Z.eqb_eq in C4. assert (r = EmptyString) as -> by (destruct r; [reflexivity | cbn in Hk; lia]).
    rewrite append_assoc.
    rewrite (parse_unsigned_parts neg (String c EmptyString) EmptyString
               _ (exponent_part (pt - 1) +:+ rest) (exponent_part (pt - 1) +:+ rest)
               rest (pt - 1)).
    - cbn [String.append]. rewrite Hv, Hn0. do 2 f_equal. f_equal; cbn; lia.
    - apply span_int_digits; try assumption; try reflexivity.
    - cbn. lia.
    - apply span_frac_exponent.
    - apply span_exp_exponent_part, Hr. }
  (* a digit, the point, digits and an exponent *)
  apply Z.eqb_neq in C4.
  assert (Hr1 : (1 <= String.length r)%nat) by (cbn [String.length] in Hk; lia).
  cbn [take drop]. rewrite !append_assoc. cbn [String.append].
  rewrite (parse_unsigned_parts neg (String c EmptyString) r
             _ (String "." (r +:+ exponent_part (pt - 1) +:+ rest))
             (exponent_part (pt - 1) +:+ rest) rest (pt - 1)).
  - cbn [String.append]. rewrite Hv, Hn0. do 2 f_equal.
    cbn [String.length] in Hk. f_equal; lia.
  - change (String c (String "." (r +:+ exponent_part (pt - 1) +:+ rest)))
      with (String c EmptyString +:+ String "." (r +:+ exponent_part (pt - 1) +:+ rest)).
    apply span_int_digits; try assumption; try reflexivity.
  - cbn. lia.
  - apply span_frac_digits; [exact Hd | exact Hr1 | reflexivity].
  - apply span_exp_exponent_part, Hr.
Qed.


Lemma same_eq (x y : number) : same x y = true -> x = y.
Proof.
  destruct x as [a|a| |a m e], y as [b|b| |b m' e']; cbn [same]; try discriminate.
  - intros H. apply Bool.eqb_prop in H. congruence.
  - intros H. apply Bool.eqb_prop in H. congruence.
  - reflexivity.
  - intros H. apply andb_prop in H. destruct H as [H He].
    apply andb_prop in H. destruct H as [Hs Hm].
    apply Bool.eqb_prop in Hs. apply Pos.eqb_eq in Hm. apply Z.eqb_eq in He. congruence.
Qed.

Lemma round_aux_sign (s : bool) (q e : Z) (l : location) (M : positive) (E : Z) :
  binary_round_aux prec emax false q e l = S754_finite false M E ->
  binary_round_aux prec emax s q e l = S754_finite s M E.
Proof.
  unfold binary_round_aux. destruct (shr_fexp prec emax q e l) as [mrs' e'].
  destruct (shr_fexp prec emax _ e' loc_Exact) as [mrs'' e''].
  destruct (shr_m mrs''); try discriminate.
  destruct (e'' <=? emax - prec); [|discriminate]. intros H. congruence.
Qed.

Lemma of_decimal_sign (s : bool) (n e10 : Z) (M : positive) (E : Z) :
  of_decimal false n e10 = S754_finite false M E ->
  of_decimal s n e10 = S754_finite s M E.
Proof.
  unfold of_decimal, round_ratio.
  destruct (0 <=? e10);
    destruct (SFdiv_core_binary prec emax _ 0 _ 0) as [[q e] l]; apply round_aux_sign.
Qed.

Lemma shr_zero (n e : Z) :
  fst (shr (Build_shr_record 0 false false) e n) = Build_shr_record 0 false false.
Proof.
  unfold shr. destruct n as [|p|p]; try reflexivity. cbn [fst].
  rewrite iter_pos_nat. induction (Pos.to_nat p) as [|k IH]; [reflexivity|].
  rewrite Nat.iter_succ, IH. reflexivity.
Qed.

Lemma round_aux_zero (s : bool) (e : Z) :
  binary_round_aux prec emax s 0 e loc_Exact = S754_zero s.
Proof.
  unfold binary_round_aux, shr_fexp. cbn [shr_record_of_loc].
  pose proof (shr_zero (fexp prec emax (Zdigits2 0 + e) - e) e) as H1.
  destruct (shr (Build_shr_record 0 false false) e _) as [mrs' e'].
  cbn [fst] in H1. subst mrs'. cbn [shr_m loc_of_shr_record round_nearest_even].
  pose proof (shr_zero (fexp prec emax (Zdigits2 0 + e') - e') e') as H2.
  destruct (shr (Build_shr_record 0 false false) e' _) as [mrs'' e''].
  cbn [fst] in H2. subst mrs''. reflexivity.
Qed.

Lemma round_ratio_zero (s : bool) (b : Z) : 0 < b -> round_ratio s 0 b = S754_zero s.
Proof.
  intros Hb. unfold round_ratio, SFdiv_core_binary.
  cbn [Zdigits2].
  set (e' := Z.min _ _).
  assert (Hm : match 0 - 0 - e' with
               | Z0 => 0 | Zpos _ => Z.shiftl 0 (0 - 0 - e') | Zneg _ => 0 end = 0).
  { destruct (0 - 0 - e'); try reflexivity. apply Z.shiftl_0_l. }
  rewrite Hm. cbn [Z.div_eucl].
  replace (new_location b 0) with loc_Exact.
  - apply round_aux_zero.
  - unfold new_location, new_location_even, new_location_odd.
    destruct (Z.even b); reflexivity.
Qed.

Lemma of_decimal_zero (s : bool) (e10 : Z) : of_decimal s 0 e10 = S754_zero s.
Proof.
  unfold of_decimal. destruct (0 <=? e10) eqn:E.
  - rewrite Z.mul_0_l. apply round_ratio_zero. lia.
  - apply Z.leb_gt in E. apply round_ratio_zero. apply Z.pow_pos_nonneg; lia.
Qed.

Lemma denotes_positive (m : positive) (e n pt : Z) :
  0 <= n -> denotes (S754_finite false m e) n pt = true ->
  0 < n /\ of_decimal false n (pt - Z.of_nat (String.length (Z_to_dec n)))
           = S754_finite false m e.
Proof.
  intros Hn H. unfold denotes in H. apply same_eq in H. split; [|exact H].
  destruct (Z.eq_dec n 0) as [->|]; [|lia].
  rewrite of_decimal_zero in H. discriminate.
Qed.

Lemma candidate_denotes (x : number) (a b pt0 k n pt : Z) :
  0 < a -> 0 < b ->
  candidate x a b pt0 k = Some (n, pt) -> 0 <= n /\ denotes x n pt = true.
Proof.
  intros Ha Hb. unfold candidate.
  set (d := k - pt0).
  set (num := if 0 <=? d then a * 10 ^ d else a).
  set (den := if 0 <=? d then b else b * 10 ^ (- d)).
  assert (Hnum : 0 < num).
  { subst num. destruct (0 <=? d) eqn:E; [|exact Ha].
    apply Z.leb_le in E. apply Z.mul_pos_pos; [exact Ha | apply Z.pow_pos_nonneg; lia]. }
  assert (Hden : 0 < den).
  { subst den. destruct (0 <=? d) eqn:E; [exact Hb|].
    apply Z.leb_gt in E. apply Z.mul_pos_pos; [exact Hb | apply Z.pow_pos_nonneg; lia]. }
  assert (Hlo : 0 <= num / den) by (apply Z.div_pos; lia).
  assert (Hhi : 0 <= fst (if num / den + 1 =? 10 ^ k then (10 ^ (k - 1), pt0 + 1)
                          else (num / den + 1, pt0))).
  { destruct (num / den + 1 =? 10 ^ k); cbn [fst]; [|lia].
    apply Z.pow_nonneg. lia. }
  destruct (if num / den + 1 =? 10 ^ k then (10 ^ (k - 1), pt0 + 1)
            else (num / den + 1, pt0)) as [h1 h2].
  cbn [fst snd] in *.
  destruct (denotes x (num / den) pt0) eqn:Elo;
    destruct (denotes x h1 h2) eqn:Ehi;
    destruct (num mod den =? 0);
    try (destruct (2 * (num mod den) ?= den));
    try (destruct (Z.even (num / den)));
    intros H; try discriminate; injection H as <- <-;
      solve [split; [exact Hlo | exact Elo] | split; [exact Hhi | exact Ehi]].
Qed.

Lemma shortest_from_denotes (fuel : nat) (x : number) (a b pt0 : Z) : forall k n pt,
  0 < a -> 0 < b ->
  shortest_from fuel x a b pt0 k = Some (n, pt) -> 0 <= n /\ denotes x n pt = true.
Proof.
  induction fuel as [|f IH]; intros k n pt Ha Hb; cbn [shortest_from]; [discriminate|].
  destruct (candidate x a b pt0 k) as [[n' pt']|] eqn:E.
  - intros H. injection H as <- <-. apply (candidate_denotes x a b pt0 k); assumption.
  - apply IH; assumption.
Qed.

Lemma ratio_of_pos (m : positive) (e : Z) :
  0 < fst (ratio_of m e) /\ 0 < snd (ratio_of m e).
Proof.
  unfold ratio_of. destruct (0 <=? e) eqn:E; cbn [fst snd].
  - apply Z.leb_le in E. split; [|lia].
    apply Z.mul_pos_pos; [lia | apply Z.pow_pos_nonneg; lia].
  - apply Z.leb_gt in E. split; [lia | apply Z.pow_pos_nonneg; lia].
Qed.

Lemma round_ratio_exact_Z (s : bool) (a b : Z) (M : positive) (E : Z) :
  0 < a -> 0 < b -> bounded prec emax M E = true ->
  (if 0 <=? - E then a * 2 ^ (- E) = b * Zpos M else a = b * Zpos M * 2 ^ E) ->
  round_ratio s a b = S754_finite s M E.
Proof.
  intros Ha Hb. destruct a as [|a|a]; try lia. destruct b as [|b|b]; try lia.
  apply round_ratio_exact.
Qed.

(** The full expansion denotes the number. *)
Lemma exact_decimal_denotes (m : positive) (e : Z) :
  bounded prec emax m e = true ->
  0 < fst (exact_decimal m e)
  /\ of_decimal false (fst (exact_decimal m e))
       (snd (exact_decimal m e)
        - Z.of_nat (String.length (Z_to_dec (fst (exact_decimal m e)))))
     = S754_finite false m e.
Proof.
  intros HB. unfold exact_decimal. destruct (0 <=? e) eqn:E; cbn [fst snd].
  - apply Z.leb_le in E.
    assert (Hp : 0 < Zpos m * 2 ^ e)
      by (apply Z.mul_pos_pos; [lia | apply Z.pow_pos_nonneg; lia]).
    split; [exact Hp|]. rewrite Z.sub_diag. unfold of_decimal. cbn [Z.leb Z.compare].
    change (10 ^ 0) with 1. rewrite Z.mul_1_r.
    apply round_ratio_exact_Z; [exact Hp | lia | exact HB |].
    destruct (0 <=? - e) eqn:E'.
    + apply Z.leb_le in E'. assert (e = 0) as -> by lia.
      change (- 0) with 0. change (2 ^ 0) with 1. lia.
    + lia.
  - apply Z.leb_gt in E.
    assert (Hp : 0 < Zpos m * 5 ^ (- e))
      by (apply Z.mul_pos_pos; [lia | apply Z.pow_pos_nonneg; lia]).
    split; [exact Hp|].
    replace (Z.of_nat _ + e - Z.of_nat _) with e by lia.
    unfold of_decimal. destruct (0 <=? e) eqn:E'; [apply Z.leb_le in E'; lia|].
    apply round_ratio_exact_Z;
      [exact Hp | apply Z.pow_pos_nonneg; lia | exact HB |].
    destruct (0 <=? - e) eqn:E''; [|apply Z.leb_gt in E''; lia].
    change 10 with (5 * 2). rewrite Z.pow_mul_l. ring.
Qed.

(** The numeral [shortest] chooses denotes the number. *)
Lemma shortest_denotes (m : positive) (e : Z) :
  bounded prec emax m e = true ->
  0 < fst (JSNumber.shortest m e)
  /\ of_decimal false (fst (JSNumber.shortest m e))
       (snd (JSNumber.shortest m e)
        - Z.of_nat (String.length (Z_to_dec (fst (JSNumber.shortest m e)))))
     = S754_finite false m e.
Proof.
  intros HB. unfold JSNumber.shortest.
  pose proof (ratio_of_pos m e) as [Ha Hb].
  destruct (ratio_of m e) as [a b]. cbn [fst snd] in Ha, Hb.
  destruct (shortest_from 17 (S754_finite false m e) a b (point_of a b) 1)
    as [[n pt]|] eqn:Es.
  - cbn [fst snd]. apply shortest_from_denotes in Es; [|assumption..].
    destruct Es as [Hn Hd]. apply denotes_positive; assumption.
  - apply exact_decimal_denotes, HB.
Qed.

(** [JSON.parse] reads the text of a finite number other than [-0] back
    as that number. *)
Lemma parse_number_toString (x : number) (rest : string) :
  json_safe x = true -> delimited rest = true ->
  parse_number (toString x +:+ rest) = Some (x, rest).
Proof.
  intros Hx Hr. destruct x as [[]|s| |s m e]; try discriminate.
  - cbn [toString String.append parse_number].
    change (Ascii.eqb "0" "-") with false. cbn iota.
    rewrite (parse_unsigned_parts false "0" EmptyString _ rest rest rest 0);
      [reflexivity | reflexivity | cbn; lia | apply delimited_span_frac, Hr
       | apply delimited_span_exp, Hr].
  - cbn [json_safe is_number valid_binary] in Hx.
    destruct (shortest_denotes m e Hx) as [Hn Hd].
    cbn [toString]. destruct (JSNumber.shortest m e) as [n pt]. cbn [fst snd] in Hn, Hd.
    destruct s.
    + cbn [String.append parse_number]. change (Ascii.eqb "-" "-") with true. cbn iota.
      rewrite parse_unsigned_layout by assumption.
      rewrite (of_decimal_sign true _ _ _ _ Hd). reflexivity.
    + cbn [String.append].
      destruct (Z_to_dec_spec n Hn) as (c & r & E & Hc & Hz & _).
      assert (Hl : exists c' t, layout n pt = String c' t /\ Ascii.eqb c' "-" = false).
      { unfold layout. rewrite E.
        repeat match goal with
               | |- context [if ?b then _ else _] => destruct b
               end; cbn [String.append take drop].
        - exists c, (r +:+ zeros (Z.to_nat (pt - Z.of_nat (String.length (String c r))))).
          split; [reflexivity|]. destruct c as [[] [] [] [] [] [] [] []]; try discriminate; reflexivity.
        - destruct (Z.to_nat pt); cbn [take drop String.append].
          + eexists _, _. split; reflexivity.
          + eexists c, _. split; [reflexivity|].
            destruct c as [[] [] [] [] [] [] [] []]; try discriminate; reflexivity.
        - eexists _, _. split; reflexivity.
        - eexists c, _. split; [reflexivity|].
          destruct c as [[] [] [] [] [] [] [] []]; try discriminate; reflexivity.
        - eexists c, _. split; [reflexivity|].
          destruct c as [[] [] [] [] [] [] [] []]; try discriminate; reflexivity. }
      destruct Hl as (c' & t & El & Hm).
      pose proof (parse_unsigned_layout false n pt rest Hn Hr) as P.
      rewrite El in *. cbn [String.append parse_number] in *. rewrite Hm, P, Hd. reflexivity.
Qed.

End NumberTextFacts.

(** ** [JSON.parse] after [JSON.stringify] *)

Import StringFacts FormatFacts RoundingFacts NumeralFacts NumberTextFacts.

Module JSONFacts.

(** *** Strings *)

Lemma parse_body_escape (c : ascii) (out r : string) :
  parse_string_body Plain None out (escape_char c +:+ r)
  = parse_string_body Plain None (out +:+ String c EmptyString) r.
Proof. destruct c as [[] [] [] [] [] [] [] []]; reflexivity. Qed.

Lemma parse_body_quote_body (s : string) : forall out rest,
  parse_string_body Plain None out (quote_body s +:+ String quote_char rest)
  = Some (out +:+ s, rest).
Proof.
  induction s as [|c s IH]; intros out rest.
  - cbn [quote_body String.append parse_string_body]. rewrite Ascii.eqb_refl.
    reflexivity.
  - cbn [quote_body]. rewrite append_assoc, parse_body_escape, IH, append_assoc.
    reflexivity.
Qed.

(** A string literal reads back as its string. *)
Lemma parse_string_quote_json (s rest : string) :
  parse_string (quote_json s +:+ rest) = Some (s, rest).
Proof.
  unfold quote_json, quote. rewrite !append_assoc. cbn [String.append parse_string].
  rewrite Ascii.eqb_refl. apply (parse_body_quote_body s EmptyString rest).
Qed.


(** *** Values *)

Lemma value_induction (P : value -> Prop) :
  P JNull -> (forall b, P (JBool b)) -> (forall x, P (JNum x)) -> (forall s, P (JStr s)) ->
  (forall l, Forall P l -> P (JArr l)) ->
  (forall l, Forall (fun kv => P (snd kv)) l -> P (JObj l)) ->
  forall v, P v.
Proof.
  intros Hnull Hbool Hnum Hstr Harr Hobj. fix IH 1. intros [| b | x | s | l | l].
  - exact Hnull.
  - apply Hbool.
  - apply Hnum.
  - apply Hstr.
  - apply Harr. induction l as [|v l IHl]; constructor; [apply IH | exact IHl].
  - apply Hobj. induction l as [|kv l IHl]; constructor; [apply IH | exact IHl].
Qed.

Lemma list_sum_cons (x : nat) (l : list nat) : list_sum (x :: l) = (x + list_sum l)%nat.
Proof. reflexivity. Qed.

Lemma join_cons2 (sep x y : string) (l : list string) :
  join sep (x :: y :: l) = x +:+ sep +:+ join sep (y :: l).
Proof. reflexivity. Qed.

Lemma layout_head (n pt : Z) :
  0 < n -> exists c t, layout n pt = String c t /\ is_digit c = true.
Proof.
  intros Hn. destruct (Z_to_dec_spec n Hn) as (c & r & E & Hc & _).
  unfold layout. rewrite E.
  destruct ((_ <=? pt) && (pt <=? 21)); [eexists c, _; split; [reflexivity | exact Hc]|].
  destruct ((0 <? pt) && (pt <=? 21)) eqn:C2.
  { apply andb_prop in C2. destruct C2 as [C2 _]. apply Z.ltb_lt in C2.
    destruct (Z.to_nat pt) eqn:Ep; [lia|]. eexists c, _. split; [reflexivity | exact Hc]. }
  destruct ((-6 <? pt) && (pt <=? 0)); [eexists _, _; split; reflexivity|].
  destruct (_ =? 1); eexists c, _; (split; [reflexivity | exact Hc]).
Qed.

Lemma toString_head (x : number) :
  json_safe x = true -> exists c t, toString x = String c t /\ number_head c = true.
Proof.
  destruct x as [[]|s| |s m e]; try discriminate; intros H.
  - eexists _, _. split; reflexivity.
  - cbn [json_safe is_number valid_binary] in H.
    destruct (shortest_denotes m e H) as [Hn _]. cbn [toString].
    destruct (JSNumber.shortest m e) as [n pt]. cbn [fst] in Hn.
    destruct s; [eexists _, _; split; reflexivity|].
    destruct (layout_head n pt Hn) as (c & t & -> & Hc).
    exists c, t. split; [reflexivity|]. unfold number_head. rewrite Hc. reflexivity.
Qed.

Lemma stringify_head (v : value) :
  wf_value v = true -> exists c t, stringify v = String c t /\ value_head c = true.
Proof.
  destruct v as [| [] | x | s | l | l]; intros H; cbn [stringify];
    try (eexists _, _; split; reflexivity).
  cbn [wf_value] in H. destruct (toString_head x H) as (c & t & E & Hc).
  assert (is_finite x = true) as -> by (destruct x as [| | |]; try discriminate; reflexivity).
  exists c, t. split; [exact E|]. unfold value_head. rewrite Hc. reflexivity.
Qed.

Lemma value_head_plain (c : ascii) :
  value_head c = true ->
  is_ws c = false /\ Ascii.eqb c "]" = false /\ Ascii.eqb c "}" = false
  /\ Ascii.eqb c "," = false.
Proof. destruct c as [[] [] [] [] [] [] [] []]; vm_compute; auto; discriminate. Qed.

Lemma parse_value_number (f : nat) (c : ascii) (t : string) :
  number_head c = true ->
  parse_value (S f) (String c t) =
    match parse_number (String c t) with
    | Some (x, rest) => Some (JNum x, rest)
    | None => None
    end.
Proof.
  destruct c as [[] [] [] [] [] [] [] []]; intros H; try discriminate H; reflexivity.
Qed.

Lemma parse_value_quote (f : nat) (t : string) :
  parse_value (S f) (String quote_char t) =
    match parse_string (String quote_char t) with
    | Some (str, rest) => Some (JStr str, rest)
    | None => None
    end.
Proof. reflexivity. Qed.

Lemma parse_value_bracket (f : nat) (r : string) :
  parse_value (S f) (String "[" r) =
    match skip_ws r with
    | String d r' => if Ascii.eqb d "]" then Some (JArr [], r') else parse_elements f [] r
    | EmptyString => None
    end.
Proof. reflexivity. Qed.

Lemma parse_value_brace (f : nat) (r : string) :
  parse_value (S f) (String "{" r) =
    match skip_ws r with
    | String d r' => if Ascii.eqb d "}" then Some (JObj [], r') else parse_members f [] r
    | EmptyString => None
    end.
Proof. reflexivity. Qed.

Lemma delimited_skip_ws (rest : string) : delimited rest = true -> skip_ws rest = rest.
Proof.
  destruct rest as [|c r]; [reflexivity|]. cbn [delimited]. intros H.
  apply orb_prop in H. destruct H as [H|H]; [apply orb_prop in H; destruct H as [H|H]|];
    apply Ascii.eqb_eq in H; subst c; reflexivity.
Qed.

Lemma parse_elements_join (l : list value) : forall acc fuel rest,
  Forall reads_back l -> forallb wf_value l = true -> l <> [] ->
  (list_sum (map (fun v => S (vsize v)) l) <= fuel)%nat -> delimited rest = true ->
  parse_elements fuel acc (join "," (map stringify l) +:+ "]" +:+ rest)
  = Some (JArr (acc ++ l), rest).
Proof.
  induction l as [|v l IH]; intros acc fuel rest HP Hwf Hne Hfuel Hr; [contradiction|].
  inversion HP as [|? ? Hv Hl]; subst. cbn [forallb] in Hwf.
  apply andb_prop in Hwf. destruct Hwf as [Hwv Hwl].
  cbn [map] in Hfuel. rewrite list_sum_cons in Hfuel. destruct fuel as [|f]; [lia|].
  destruct l as [|w l'].
  - cbn [map join parse_elements].
    rewrite (Hv Hwv f ("]" +:+ rest)) by (try reflexivity; lia).
    reflexivity.
  - cbn [map]. rewrite join_cons2, !append_assoc. cbn [parse_elements].
    rewrite (Hv Hwv f _) by (try reflexivity; lia).
    cbn [String.append skip_ws]. change (is_ws ",") with false. cbn iota.
    change (Ascii.eqb "," ",") with true. cbn iota.
    change (join "," (stringify w :: map stringify l') +:+ String "]" rest)
      with (join "," (map stringify (w :: l')) +:+ "]" +:+ rest).
    rewrite IH; try assumption; [|discriminate|lia].
    rewrite <- app_assoc. reflexivity.
Qed.

Lemma obj_set_fresh (k : string) (v : value) (acc : list (string * value)) :
  existsb (String.eqb k) (map fst acc) = false -> obj_set k v acc = acc ++ [(k, v)].
Proof.
  induction acc as [|[k' v'] acc IH]; cbn [map existsb obj_set fst]; [reflexivity|].
  intros H. apply orb_false_elim in H. destruct H as [-> H]. rewrite (IH H). reflexivity.
Qed.

Lemma distinct_app_fresh (a b : list string) (k : string) :
  distinct (a ++ k :: b) = true -> existsb (String.eqb k) a = false.
Proof.
  induction a as [|x a IH]; cbn [app distinct existsb]; [reflexivity|].
  intros H. apply andb_prop in H. destruct H as [Hx Ha].
  rewrite (IH Ha), orb_false_r.
  apply negb_true_iff in Hx. rewrite existsb_app in Hx. cbn [existsb] in Hx.
  apply orb_false_elim in Hx. destruct Hx as [_ Hx].
  apply orb_false_elim in Hx. destruct Hx as [Hx _].
  rewrite String.eqb_sym. exact Hx.
Qed.

Lemma parse_members_join (l : list (string * value)) : forall acc fuel rest,
  Forall (fun kv => reads_back (snd kv)) l ->
  forallb (fun kv => wf_value (snd kv)) l = true ->
  distinct (map fst acc ++ map fst l) = true -> l <> [] ->
  (list_sum (map (fun kv => S (vsize (snd kv))) l) <= fuel)%nat ->
  delimited rest = true ->
  parse_members fuel acc (join "," (map member_text l) +:+ "}" +:+ rest)
  = Some (JObj (acc ++ l), rest).
Proof.
  induction l as [|[k v] l IH]; intros acc fuel rest HP Hwf Hd Hne Hfuel Hr; [contradiction|].
  inversion HP as [|? ? Hv Hl]; subst. cbn [forallb snd] in Hwf.
  apply andb_prop in Hwf. destruct Hwf as [Hwv Hwl]. cbn [snd] in Hv.
  cbn [map snd fst] in Hfuel, Hd. rewrite list_sum_cons in Hfuel.
  destruct fuel as [|f]; [lia|].
  pose proof (obj_set_fresh k v acc (distinct_app_fresh _ _ _ Hd)) as Hset.
  assert (Hq : forall t, skip_ws (quote_json k +:+ t) = quote_json k +:+ t) by reflexivity.
  destruct l as [|[k' v'] l'].
  - cbn [map join parse_members]. unfold member_text. cbn [fst snd].
    rewrite !append_assoc, Hq, parse_string_quote_json.
    cbn [String.append skip_ws]. change (is_ws ":") with false. cbn iota.
    change (Ascii.eqb ":" ":") with true. cbn iota.
    rewrite (Hv Hwv f (String "}" rest)) by (try reflexivity; lia).
    cbn [String.append skip_ws]. change (is_ws "}") with false. cbn iota.
    change (Ascii.eqb "}" ",") with false. change (Ascii.eqb "}" "}") with true. cbn iota.
    rewrite Hset. reflexivity.
  - cbn [map]. rewrite join_cons2. unfold member_text at 1. cbn [fst snd].
    cbn [parse_members]. rewrite !append_assoc, Hq, parse_string_quote_json.
    cbn [String.append skip_ws]. change (is_ws ":") with false. cbn iota.
    change (Ascii.eqb ":" ":") with true. cbn iota.
    rewrite (Hv Hwv f _) by (try reflexivity; lia).
    cbn [String.append skip_ws]. change (is_ws ",") with false. cbn iota.
    change (Ascii.eqb "," ",") with true. cbn iota. rewrite Hset.
    change (join "," (member_text (k', v') :: map member_text l') +:+ String "}" rest)
      with (join "," (map member_text ((k', v') :: l')) +:+ "}" +:+ rest).
    rewrite IH; try assumption.
    + rewrite <- app_assoc. reflexivity.
    + rewrite map_app, <- app_assoc. exact Hd.
    + discriminate.
    + lia.
Qed.

(** [JSON.parse] reads the text [JSON.stringify] writes for a value back
    as that value. *)
Lemma parse_value_stringify (v : value) : reads_back v.
Proof.
  induction v as [| b | x | s | l IH | l IH] using value_induction;
    intros Hwf fuel rest Hfuel Hr; (destruct fuel as [|f]; [cbn [vsize] in Hfuel; lia|]).
  - reflexivity.
  - destruct b; reflexivity.
  - cbn [wf_value] in Hwf. cbn [stringify].
    assert (is_finite x = true) as -> by (destruct x as [| | |]; try discriminate; reflexivity).
    destruct (toString_head x Hwf) as (c & t & E & Hc).
    pose proof (parse_number_toString x rest Hwf Hr) as P. rewrite E in *.
    cbn [String.append] in *. rewrite (parse_value_number f c _ Hc), P. reflexivity.
  - cbn [stringify].
    assert (E : exists t, quote_json s +:+ rest = String quote_char t)
      by (eexists; reflexivity).
    destruct E as [t E]. pose proof (parse_string_quote_json s rest) as P.
    rewrite E in *. rewrite parse_value_quote, P. reflexivity.
  - cbn [wf_value] in Hwf. cbn [vsize] in Hfuel. cbn [stringify].
    destruct l as [|v l]; [reflexivity|].
    rewrite !append_assoc. cbn [String.append]. rewrite parse_value_bracket.
    assert (Hv : wf_value v = true)
      by (cbn [forallb] in Hwf; apply andb_prop in Hwf; tauto).
    destruct (stringify_head v Hv) as (c & t & E & Hc).
    destruct (value_head_plain c Hc) as (Hws & Hb & _).
    assert (Es : exists t', join "," (map stringify (v :: l)) +:+ String "]" rest
                            = String c t').
    { destruct l; cbn [map join]; rewrite E; eexists; reflexivity. }
    destruct Es as [t' Es]. rewrite Es. cbn [skip_ws]. rewrite Hws, Hb. rewrite <- Es.
    apply (parse_elements_join (v :: l) [] f rest); try assumption; [discriminate | lia].
  - cbn [wf_value] in Hwf. apply andb_prop in Hwf. destruct Hwf as [Hd Hwf].
    cbn [vsize] in Hfuel. cbn [stringify].
    destruct l as [|kv l]; [reflexivity|].
    change (map (fun kv0 => quote_json (fst kv0) +:+ ":" +:+ stringify (snd kv0)) (kv :: l))
      with (map member_text (kv :: l)).
    rewrite !append_assoc. cbn [String.append]. rewrite parse_value_brace.
    assert (Es : exists t', join "," (map member_text (kv :: l)) +:+ String "}" rest
                            = String quote_char t').
    { destruct l; cbn [map join]; eexists; reflexivity. }
    destruct Es as [t' Es]. rewrite Es. cbn [skip_ws].
    change (is_ws quote_char) with false. change (Ascii.eqb quote_char "}") with false.
    cbn iota. rewrite <- Es.
    apply (parse_members_join (kv :: l) [] f rest); try assumption; [discriminate | lia].
Qed.

Lemma layout_nonempty (n pt : Z) : (1 <= String.length (layout n pt))%nat.
Proof.
  unfold layout. pose proof (Z_to_dec_nonempty n) as L.
  repeat match goal with
         | |- context [if ?b then _ else _] => destruct b
         end;
    rewrite ?length_append; cbn [String.length]; lia.
Qed.

Lemma toString_nonempty (x : number) : (1 <= String.length (toString x))%nat.
Proof.
  destruct x as [s|s| |s m e]; cbn [toString]; try (cbn; lia).
  - destruct s; cbn; lia.
  - destruct (JSNumber.shortest m e) as [n pt]. rewrite length_append.
    pose proof (layout_nonempty n pt). lia.
Qed.

Lemma length_join_sizes {A : Type} (text : A -> string) (size : A -> nat) (l : list A) :
  Forall (fun a => (size a <= String.length (text a))%nat) l ->
  (list_sum (map (fun a => S (size a)) l) <= S (String.length (join "," (map text l))))%nat.
Proof.
  induction 1 as [|a l Ha Hl IH]; [cbn; lia|].
  cbn [map]. rewrite list_sum_cons. destruct l as [|b l].
  - cbn [map join list_sum]. cbn. lia.
  - cbn [map] in *. rewrite join_cons2, !length_append. cbn [String.length]. lia.
Qed.

(** The text of a value has at least as many characters as the value has
    parts: reading it never runs out of fuel. *)
Lemma vsize_le_length (v : value) : (vsize v <= String.length (stringify v))%nat.
Proof.
  induction v as [| b | x | s | l IH | l IH] using value_induction; cbn [vsize stringify].
  - cbn. lia.
  - destruct b; cbn; lia.
  - destruct (is_finite x); [apply toString_nonempty | cbn; lia].
  - unfold quote_json. cbn. lia.
  - rewrite !length_append. cbn [String.length].
    pose proof (length_join_sizes stringify vsize l IH). lia.
  - rewrite !length_append. cbn [String.length].
    assert (H : Forall (fun kv => (vsize (snd kv) <= String.length (member_text kv))%nat) l).
    { revert IH. apply List.Forall_impl. intros [k v] H. unfold member_text.
      rewrite !length_append. cbn [fst snd] in *. lia. }
    pose proof (length_join_sizes member_text (fun kv => vsize (snd kv)) l H). 
    change (map (fun kv => quote_json (fst kv) +:+ ":" +:+ stringify (snd kv)) l)
      with (map member_text l). lia.
Qed.

(** [JSON.parse(JSON.stringify(v))] is [v]. *)
Lemma parse_stringify (v : value) : wf_value v = true -> parse (stringify v) = Some v.
Proof.
  intros Hwf. unfold parse.
  pose proof (parse_value_stringify v Hwf (S (String.length (stringify v))) EmptyString) as P.
  rewrite append_nil_r in P. rewrite P; [reflexivity | | reflexivity].
  pose proof (vsize_le_length v). lia.
Qed.

End JSONFacts.
(** ** [toFixed]: the digits and their value *)

Import StringFacts FormatFacts RoundingFacts NumeralFacts.

Module FixedFacts.

Lemma take_append (a b : string) : take (String.length a) (a +:+ b) = a.
Proof. induction a as [|c a IH]; cbn [String.length String.append take];
  [destruct b; reflexivity | rewrite IH; reflexivity]. Qed.

Lemma drop_append (a b : string) : drop (String.length a) (a +:+ b) = b.
Proof. induction a as [|c a IH]; cbn [String.length String.append drop];
  [destruct b; reflexivity | exact IH]. Qed.

(** The digits [fixed_digits] writes, and their value. *)
Lemma fixed_digits_value (n : Z) (f : nat) :
  0 <= n ->
  exists ip fp,
    fixed_digits n (S f) = ip +:+ "." +:+ fp
    /\ all_digits ip = true /\ all_digits fp = true
    /\ (1 <= String.length ip)%nat /\ String.length fp = S f
    /\ dec_value (ip +:+ fp) 0 = n.
Proof.
  intros Hn. unfold fixed_digits.
  set (m := if (String.length (Z_to_dec n) <=? S f)%nat
            then zeros (S f + 1 - String.length (Z_to_dec n)) +:+ Z_to_dec n
            else Z_to_dec n).
  assert (Hd : all_digits m = true).
  { subst m. destruct (_ <=? _)%nat;
      rewrite ?all_digits_append, ?all_digits_zeros, all_digits_Z_to_dec; reflexivity. }
  assert (Hl : (S f + 1 <= String.length m)%nat).
  { subst m. pose proof (Z_to_dec_nonempty n).
    destruct (String.length (Z_to_dec n) <=? S f)%nat eqn:E.
    - apply Nat.leb_le in E. rewrite length_append, length_zeros. lia.
    - apply Nat.leb_gt in E. lia. }
  assert (Hv : dec_value m 0 = n).
  { subst m. destruct (_ <=? _)%nat.
    - rewrite dec_value_append, dec_value_zeros. cbn [Z.mul].
      apply dec_value_Z_to_dec, Hn.
    - apply dec_value_Z_to_dec, Hn. }
  exists (take (String.length m - S f) m), (drop (String.length m - S f) m).
  split; [reflexivity|].
  split; [apply all_digits_take, Hd|]. split; [apply all_digits_drop, Hd|].
  rewrite length_take, length_drop, take_drop.
  split; [lia|]. split; [lia | exact Hv].
Qed.

Lemma nearest_scaled_nearest (m : positive) (e : Z) :
  0 <= nearest_scaled m e 2
  /\ - snd (ratio_of m e)
     <= 2 * (100 * fst (ratio_of m e) - nearest_scaled m e 2 * snd (ratio_of m e))
     < snd (ratio_of m e).
Proof.
  unfold nearest_scaled, ratio_of. change (10 ^ Z.of_nat 2) with 100.
  destruct (0 <=? e) eqn:E; cbn [fst snd].
  - apply Z.leb_le in E. pose proof (Z.pow_pos_nonneg 2 e ltac:(lia) E). split; nia.
  - apply Z.leb_gt in E. pose proof (Z.pow_pos_nonneg 2 (- e) ltac:(lia) ltac:(lia)) as Hb.
    replace (2 ^ (- e + 1)) with (2 * 2 ^ (- e)) by (rewrite Z.pow_add_r by lia; lia).
    set (b := 2 ^ (- e)) in *.
    pose proof (Z.div_mod (2 * (Z.pos m * 100) + b) (2 * b) ltac:(lia)) as Hdm.
    pose proof (Z.mod_pos_bound (2 * (Z.pos m * 100) + b) (2 * b) ltac:(lia)) as Hmb.
    set (q := (2 * (Z.pos m * 100) + b) / (2 * b)) in *.
    assert (0 <= q) by (apply Z.div_pos; lia).
    split; [assumption|]. nia.
Qed.

End FixedFacts.
Import FixedFacts.


(** ** The text of an integer *)

Import StringFacts FormatFacts RoundingFacts ArithFacts NumeralFacts NumberTextFacts.

Module IntegerTextFacts.

Lemma dec_digits_acc (fuel : nat) : forall n acc,
  dec_digits fuel n acc = dec_digits fuel n EmptyString +:+ acc.
Proof.
  induction fuel as [|f IH]; intros n acc; cbn [dec_digits]; [reflexivity|].
  destruct (n / 10 =? 0); [reflexivity|].
  rewrite (IH _ (String _ acc)), (IH _ (String _ EmptyString)), append_assoc. reflexivity.
Qed.

Lemma dec_digits_fuel (f : nat) : forall f' n acc,
  0 < n < 2 ^ Z.of_nat f -> n < 2 ^ Z.of_nat f' ->
  dec_digits f n acc = dec_digits f' n acc.
Proof.
  induction f as [|f IH]; intros f' n acc H H'.
  - change (2 ^ Z.of_nat 0) with 1 in H. lia.
  - destruct f' as [|f']; [change (2 ^ Z.of_nat 0) with 1 in H'; lia|].
    cbn [dec_digits]. destruct (n / 10 =? 0) eqn:E; [reflexivity|].
    apply Z.eqb_neq in E. rewrite Nat2Z.inj_succ, Z.pow_succ_r in H, H' by lia.
    assert (0 < n / 10) by (pose proof (Z.div_pos n 10); lia).
    apply IH; [split; [lia|] |]; apply Z.div_lt_upper_bound; lia.
Qed.

Lemma Z_to_dec_times_10 (n : Z) : 0 < n -> Z_to_dec (10 * n) = Z_to_dec n +:+ "0".
Proof.
  intros Hn. set (R := Z_to_dec n). unfold Z_to_dec. cbn [dec_digits].
  replace (10 * n / 10) with n by (rewrite Z.mul_comm, Z.div_mul; lia).
  replace ((10 * n) mod 10) with 0 by (rewrite Z.mul_comm, Z.mod_mul; lia).
  destruct (n =? 0) eqn:E; [lia|].
  rewrite dec_digits_acc. subst R. unfold Z_to_dec. f_equal.
  pose proof (Z.log2_spec n Hn) as L. pose proof (Z.log2_nonneg n) as L0.
  pose proof (Z.log2_nonneg (10 * n)) as L1.
  assert (Z.log2 (2 * n) <= Z.log2 (10 * n)) as L2 by (apply Z.log2_le_mono; lia).
  rewrite Z.log2_double in L2 by lia.
  apply dec_digits_fuel.
  - rewrite Z2Nat.id by lia. split; [lia|].
    apply Z.lt_le_trans with (2 ^ Z.succ (Z.log2 n)); [lia|].
    apply Z.pow_le_mono_r; lia.
  - rewrite Nat2Z.inj_succ, Z2Nat.id by lia. lia.
Qed.

Lemma zeros_snoc (j : nat) : zeros j +:+ "0" = zeros (S j).
Proof.
  induction j as [|j IH]; [reflexivity|].
  cbn [zeros String.append]. cbn [zeros] in IH. rewrite IH. reflexivity.
Qed.

(** The digits of [n * 10^j]: those of [n], then [j] zeros. *)
Lemma Z_to_dec_pow10 (n : Z) (j : nat) :
  0 < n -> Z_to_dec (n * 10 ^ Z.of_nat j) = Z_to_dec n +:+ zeros j.
Proof.
  intros Hn. induction j as [|j IH].
  - cbn [zeros]. rewrite Z.pow_0_r, Z.mul_1_r, append_nil_r. reflexivity.
  - rewrite Nat2Z.inj_succ, Z.pow_succ_r by lia.
    replace (n * (10 * 10 ^ Z.of_nat j)) with (10 * (n * 10 ^ Z.of_nat j)) by ring.
    rewrite Z_to_dec_times_10
      by (apply Z.mul_pos_pos; [lia | apply Z.pow_pos_nonneg; lia]).
    rewrite IH, append_assoc, zeros_snoc. reflexivity.
Qed.

Lemma dec_digits_bounds (fuel : nat) : forall n acc,
  0 < n < 2 ^ Z.of_nat fuel ->
  exists L : nat,
    String.length (dec_digits fuel n acc) = (L + String.length acc)%nat
    /\ (1 <= L)%nat /\ 10 ^ (Z.of_nat L - 1) <= n < 10 ^ Z.of_nat L.
Proof.
  induction fuel as [|f IH]; intros n acc Hn.
  - change (2 ^ Z.of_nat 0) with 1 in Hn. lia.
  - cbn [dec_digits]. pose proof (Z.div_mod n 10 ltac:(lia)) as Hdm.
    pose proof (Z.mod_pos_bound n 10 ltac:(lia)) as Hm.
    destruct (n / 10 =? 0) eqn:E.
    + apply Z.eqb_eq in E. exists 1%nat. cbn [String.length].
      split; [reflexivity|]. split; [lia|]. cbn. lia.
    + apply Z.eqb_neq in E.
      assert (0 < n / 10) by (pose proof (Z.div_pos n 10); lia).
      assert (n / 10 < 2 ^ Z.of_nat f).
      { rewrite Nat2Z.inj_succ, Z.pow_succ_r in Hn by lia.
        apply Z.div_lt_upper_bound; lia. }
      destruct (IH (n / 10) (String (digit_char (n mod 10)) acc) ltac:(lia))
        as (L & HL & H1 & Hb).
      exists (S L). rewrite HL. cbn [String.length]. split; [lia|]. split; [lia|].
      rewrite Nat2Z.inj_succ. replace (Z.succ (Z.of_nat L) - 1) with (Z.succ (Z.of_nat L - 1)) by lia.
      rewrite !Z.pow_succ_r by lia. lia.
Qed.

(** The number of digits of a positive integer. *)
Lemma Z_to_dec_bounds (n : Z) :
  0 < n ->
  10 ^ (Z.of_nat (String.length (Z_to_dec n)) - 1) <= n
  < 10 ^ Z.of_nat (String.length (Z_to_dec n)).
Proof.
  intros Hn. unfold Z_to_dec.
  destruct (dec_digits_bounds (S (Z.to_nat (Z.log2 n))) n EmptyString) as (L & HL & _ & Hb).
  - split; [exact Hn|]. pose proof (Z.log2_spec n Hn). pose proof (Z.log2_nonneg n).
    rewrite Nat2Z.inj_succ, Z2Nat.id by lia. lia.
  - rewrite HL. cbn [String.length]. rewrite Nat.add_0_r. exact Hb.
Qed.

Lemma Z_to_dec_length (n k : Z) :
  0 < n -> 10 ^ (k - 1) <= n < 10 ^ k -> 1 <= k ->
  Z.of_nat (String.length (Z_to_dec n)) = k.
Proof.
  intros Hn Hk H1. pose proof (Z_to_dec_bounds n Hn) as Hb.
  pose proof (Z_to_dec_nonempty n) as Hl.
  set (D := Z.of_nat (String.length (Z_to_dec n))) in *.
  destruct (Z.lt_trichotomy D k) as [C | [C | C]]; [|exact C|].
  - assert (10 ^ D <= 10 ^ (k - 1)) by (apply Z.pow_le_mono_r; lia). lia.
  - assert (10 ^ k <= 10 ^ (D - 1)) by (apply Z.pow_le_mono_r; lia). lia.
Qed.

Lemma same_refl (x : number) : same x x = true.
Proof.
  destruct x as [s|s| |s m e]; cbn [same]; rewrite ?Bool.eqb_reflx; try reflexivity.
  rewrite Pos.eqb_refl, Z.eqb_refl. reflexivity.
Qed.

(** The number nearest to an integer below [2^53] is the integer. *)
Lemma round_ratio_int (v : Z) : 0 < v < 2 ^ 53 -> round_ratio false v 1 = of_Z v.
Proof.
  intros Hv. destruct (of_Z_exact v Hv) as (M & E & -> & HB & HE & HM).
  destruct (of_Z_shape v M E Hv HE HM) as [_ HE'].
  apply round_ratio_exact_Z; [lia | lia | exact HB |].
  destruct (0 <=? - E) eqn:E0; [lia | apply Z.leb_gt in E0; lia].
Qed.

Lemma of_decimal_int (n e10 : Z) :
  0 <= e10 -> 0 < n * 10 ^ e10 < 2 ^ 53 -> of_decimal false n e10 = of_Z (n * 10 ^ e10).
Proof.
  intros He Hv. unfold of_decimal. destruct (0 <=? e10) eqn:E; [|apply Z.leb_gt in E; lia].
  apply round_ratio_int, Hv.
Qed.

(** A numeral without a fraction that denotes an integer below [2^53]
    has its value. *)
Lemma denotes_int (N n pt : Z) :
  0 < N < 2 ^ 53 ->
  0 <= pt - Z.of_nat (String.length (Z_to_dec n)) ->
  0 < n * 10 ^ (pt - Z.of_nat (String.length (Z_to_dec n))) < 2 ^ 53 ->
  denotes (of_Z N) n pt = true ->
  n * 10 ^ (pt - Z.of_nat (String.length (Z_to_dec n))) = N.
Proof.
  intros HN He Hv H. unfold denotes in H. rewrite of_decimal_int in H by assumption.
  apply same_eq in H. apply (f_equal to_Z) in H. rewrite !to_Z_of_Z in H by lia. exact H.
Qed.

Lemma candidate_cases (x : number) (a b pt0 k n pt : Z) :
  candidate x a b pt0 k = Some (n, pt) ->
  (n = (if 0 <=? k - pt0 then a * 10 ^ (k - pt0) else a)
       / (if 0 <=? k - pt0 then b else b * 10 ^ (- (k - pt0)))
   /\ pt = pt0 /\ denotes x n pt = true)
  \/ (n = 10 ^ (k - 1) /\ pt = pt0 + 1 /\ denotes x n pt = true
      /\ (if 0 <=? k - pt0 then a * 10 ^ (k - pt0) else a)
         / (if 0 <=? k - pt0 then b else b * 10 ^ (- (k - pt0))) + 1 = 10 ^ k)
  \/ (n = (if 0 <=? k - pt0 then a * 10 ^ (k - pt0) else a)
          / (if 0 <=? k - pt0 then b else b * 10 ^ (- (k - pt0))) + 1
      /\ pt = pt0 /\ denotes x n pt = true /\ n <> 10 ^ k).
Proof.
  unfold candidate.
  set (num := if 0 <=? k - pt0 then a * 10 ^ (k - pt0) else a).
  set (den := if 0 <=? k - pt0 then b else b * 10 ^ (- (k - pt0))).
  destruct (num / den + 1 =? 10 ^ k) eqn:Eh; cbn [fst snd].
  - apply Z.eqb_eq in Eh.
    destruct (denotes x (num / den) pt0) eqn:Elo;
      destruct (denotes x (10 ^ (k - 1)) (pt0 + 1)) eqn:Ehi;
      destruct (num mod den =? 0);
      try (destruct (2 * (num mod den) ?= den));
      try (destruct (Z.even (num / den)));
      intros H; try discriminate; injection H as <- <-; auto 10.
  - apply Z.eqb_neq in Eh.
    destruct (denotes x (num / den) pt0) eqn:Elo;
      destruct (denotes x (num / den + 1) pt0) eqn:Ehi;
      destruct (num mod den =? 0);
      try (destruct (2 * (num mod den) ?= den));
      try (destruct (Z.even (num / den)));
      intros H; try discriminate; injection H as <- <-; auto 10.
Qed.


(** The quotient of the candidates of [k] digits for the integer [N] of
    [D] digits. *)
Lemma candidate_quotient (N b k D : Z) :
  0 < N -> 0 < b -> k <= D ->
  (if 0 <=? k - D then N * b * 10 ^ (k - D) else N * b)
  / (if 0 <=? k - D then b else b * 10 ^ (- (k - D)))
  = N / 10 ^ (D - k).
Proof.
  intros HN Hb Hk. destruct (0 <=? k - D) eqn:E.
  - apply Z.leb_le in E. assert (k = D) as -> by lia.
    rewrite !Z.sub_diag, Z.pow_0_r, Z.mul_1_r, Z.div_1_r. apply Z.div_mul. lia.
  - apply Z.leb_gt in E. replace (- (k - D)) with (D - k) by lia.
    rewrite (Z.mul_comm N b). apply Z.div_mul_cancel_l; [|lia].
    assert (0 < 10 ^ (D - k)) by (apply Z.pow_pos_nonneg; lia). lia.
Qed.

(** A candidate of at most as many digits as [N] has is written as [N]. *)
Lemma candidate_int (N b k n pt : Z) :
  0 < N < 2 ^ 52 -> 0 < b ->
  1 <= k <= Z.of_nat (String.length (Z_to_dec N)) ->
  candidate (of_Z N) (N * b) b (Z.of_nat (String.length (Z_to_dec N))) k = Some (n, pt) ->
  layout n pt = Z_to_dec N.
Proof.
  intros HN Hb Hk Hc.
  pose proof (Z_to_dec_bounds N ltac:(lia)) as HD.
  set (D := Z.of_nat (String.length (Z_to_dec N))) in *.
  apply candidate_cases in Hc. rewrite candidate_quotient in Hc by lia.
  set (j := D - k) in *.
  assert (Hj : 0 <= j) by (subst j; lia).
  assert (P : 0 < 10 ^ j) by (apply Z.pow_pos_nonneg; lia).
  assert (PD : 10 ^ D = 10 ^ k * 10 ^ j)
    by (rewrite <- Z.pow_add_r by lia; f_equal; subst j; lia).
  assert (PD1 : 10 ^ (D - 1) = 10 ^ (k - 1) * 10 ^ j)
    by (rewrite <- Z.pow_add_r by lia; f_equal; subst j; lia).
  assert (Pk : 10 ^ k = 10 * 10 ^ (k - 1)).
  { replace k with (Z.succ (k - 1)) at 1 by lia. rewrite Z.pow_succ_r by lia. reflexivity. }
  assert (Pk1 : 0 < 10 ^ (k - 1)) by (apply Z.pow_pos_nonneg; lia).
  assert (Pj1 : 10 ^ (D + 1 - k) = 10 * 10 ^ j).
  { replace (D + 1 - k) with (Z.succ j) by (subst j; lia).
    rewrite Z.pow_succ_r by lia. reflexivity. }
  (* sixteen digits at most *)
  assert (HD16 : D <= 16).
  { destruct (Z_le_gt_dec D 16) as [C|C]; [exact C|]. exfalso.
    assert (10 ^ 16 <= 10 ^ (D - 1)) by (apply Z.pow_le_mono_r; lia).
    change (10 ^ 16) with 10000000000000000 in *.
    change (2 ^ 52) with 4503599627370496 in *. lia. }
  (* the quotient *)
  set (lo := N / 10 ^ j) in *.
  pose proof (Z.div_mod N (10 ^ j) ltac:(lia)) as Hdm.
  pose proof (Z.mod_pos_bound N (10 ^ j) P) as Hm.
  fold lo in Hdm.
  assert (Hlo : 10 ^ (k - 1) <= lo < 10 ^ k).
  { subst lo. split.
    - apply Z.div_le_lower_bound; lia.
    - apply Z.div_lt_upper_bound; lia. }
  assert (H10j : 10 ^ j <= N).
  { apply Z.le_trans with (10 ^ (k - 1) * 10 ^ j); [|lia].
    rewrite <- (Z.mul_1_l (10 ^ j)) at 1. apply Z.mul_le_mono_nonneg_r; lia. }
  assert (V0 : 0 < lo * 10 ^ j) by (apply Z.mul_pos_pos; lia).
  assert (V1 : (lo + 1) * 10 ^ j = lo * 10 ^ j + 10 ^ j) by ring.
  assert (V2 : 10 ^ j * lo = lo * 10 ^ j) by ring.
  change (2 ^ 52) with 4503599627370496 in HN.
  assert (B53 : 2 ^ 53 = 9007199254740992) by reflexivity.
  destruct Hc as [(-> & -> & Hd) | [(-> & -> & Hd & Hh) | (-> & -> & Hd & Hh)]].
  - (* the quotient itself *)
    assert (Ll : Z.of_nat (String.length (Z_to_dec lo)) = k)
      by (apply Z_to_dec_length; lia).
    apply denotes_int in Hd; rewrite ?Ll; fold j; rewrite ?B53; try lia.
    rewrite Ll in Hd. fold j in Hd.
    unfold layout. rewrite Ll.
    replace ((k <=? D) && (D <=? 21)) with true
      by (symmetry; apply andb_true_intro; split; apply Z.leb_le; lia).
    fold j. rewrite <- (Z_to_dec_pow10 lo (Z.to_nat j)) by lia.
    rewrite Z2Nat.id by lia. f_equal. exact Hd.
  - (* the next power of ten *)
    exfalso.
    assert (Ll : Z.of_nat (String.length (Z_to_dec (10 ^ (k - 1)))) = k)
      by (apply Z_to_dec_length; lia).
    assert (V3 : 10 ^ (k - 1) * (10 * 10 ^ j) = (lo + 1) * 10 ^ j)
      by (rewrite Hh, Pk; ring).
    apply denotes_int in Hd; rewrite ?Ll, ?Pj1, ?V3, ?B53; try lia.
    rewrite Ll, Pj1, V3 in Hd. lia.
  - (* the quotient and one *)
    exfalso.
    assert (Ll : Z.of_nat (String.length (Z_to_dec (lo + 1))) = k)
      by (apply Z_to_dec_length; lia).
    apply denotes_int in Hd; rewrite ?Ll; fold j; rewrite ?B53; try lia.
    rewrite Ll in Hd. fold j in Hd. lia.
Qed.

(** With as many digits as [N] has, the candidate is [N]. *)
Lemma candidate_last (N b : Z) :
  0 < N < 2 ^ 53 -> 0 < b ->
  candidate (of_Z N) (N * b) b (Z.of_nat (String.length (Z_to_dec N)))
            (Z.of_nat (String.length (Z_to_dec N)))
  = Some (N, Z.of_nat (String.length (Z_to_dec N))).
Proof.
  intros HN Hb. unfold candidate. rewrite Z.sub_diag. cbn [Z.leb Z.compare].
  rewrite Z.pow_0_r, Z.mul_1_r, Z.div_mul, Z.mod_mul by lia.
  cbn [Z.eqb].
  assert (Hd : denotes (of_Z N) N (Z.of_nat (String.length (Z_to_dec N))) = true).
  { unfold denotes. rewrite Z.sub_diag, of_decimal_int by (rewrite ?Z.pow_0_r; lia).
    rewrite Z.pow_0_r, Z.mul_1_r. apply same_refl. }
  rewrite Hd. reflexivity.
Qed.

Lemma shortest_from_int (N b : Z) (fuel : nat) : forall k,
  0 < N < 2 ^ 52 -> 0 < b ->
  1 <= k <= Z.of_nat (String.length (Z_to_dec N)) ->
  Z.of_nat (String.length (Z_to_dec N)) - k < Z.of_nat fuel ->
  exists n pt,
    shortest_from fuel (of_Z N) (N * b) b (Z.of_nat (String.length (Z_to_dec N))) k
    = Some (n, pt)
    /\ layout n pt = Z_to_dec N.
Proof.
  induction fuel as [|f IH]; intros k HN Hb Hk Hf; [lia|].
  cbn [shortest_from].
  destruct (candidate (of_Z N) (N * b) b (Z.of_nat (String.length (Z_to_dec N))) k)
    as [[n pt]|] eqn:Ec.
  - exists n, pt. split; [reflexivity|]. apply (candidate_int N b k); assumption.
  - destruct (Z.eq_dec k (Z.of_nat (String.length (Z_to_dec N)))) as [->|Hne].
    + rewrite candidate_last in Ec by lia. discriminate.
    + apply IH; try assumption; lia.
Qed.

(** [Number::toString] writes an integer below [2^52] as its decimal
    digits. *)
Lemma toString_of_Z (N : Z) : 0 <= N < 2 ^ 52 -> toString (of_Z N) = Z_to_dec N.
Proof.
  intros HN. destruct (Z.eq_dec N 0) as [->|Hz]; [reflexivity|].
  assert (HN' : 0 < N < 2 ^ 53).
  { change (2 ^ 52) with 4503599627370496 in *. change (2 ^ 53) with 9007199254740992. lia. }
  assert (Hx : of_Z N = of_Z N) by reflexivity.
  destruct (of_Z_exact N HN') as (M & E & EQ & HB & HE & HM).
  rewrite EQ at 1. cbn [toString]. unfold JSNumber.shortest, ratio_of.
  assert (L : Z.log2 N < 52) by (apply Z.log2_lt_pow2; lia).
  pose proof (Z.log2_nonneg N) as L0.
  destruct (0 <=? E) eqn:E0; [apply Z.leb_le in E0; lia|].
  assert (Hb : 0 < 2 ^ (- E)) by (apply Z.pow_pos_nonneg; lia).
  rewrite HM, <- EQ.
  assert (Hp : point_of (N * 2 ^ (- E)) (2 ^ (- E)) = Z.of_nat (String.length (Z_to_dec N))).
  { unfold point_of. rewrite Z.div_mul by lia.
    destruct (2 ^ (- E) <=? N * 2 ^ (- E)) eqn:C; [reflexivity|].
    apply Z.leb_gt in C. nia. }
  rewrite Hp.
  pose proof (Z_to_dec_bounds N ltac:(lia)) as HD.
  pose proof (Z_to_dec_nonempty N) as HL.
  assert (HD16 : Z.of_nat (String.length (Z_to_dec N)) <= 16).
  { destruct (Z_le_gt_dec (Z.of_nat (String.length (Z_to_dec N))) 16) as [C|C]; [exact C|].
    exfalso.
    assert (10 ^ 16 <= 10 ^ (Z.of_nat (String.length (Z_to_dec N)) - 1))
      by (apply Z.pow_le_mono_r; lia).
    change (10 ^ 16) with 10000000000000000 in *.
    change (2 ^ 52) with 4503599627370496 in *. lia. }
  destruct (shortest_from_int N (2 ^ (- E)) 17 1 ltac:(lia) Hb ltac:(lia) ltac:(lia))
    as (n & pt & -> & Hl).
  exact Hl.
Qed.

End IntegerTextFacts.
Import IntegerTextFacts.


(** ** The export *)

Import StringFacts FormatFacts.

Module ExportFacts.

Lemma or_empty_id (s : string) : or_empty s = s.
Proof. destruct s; reflexivity. Qed.

Lemma csvContent_lines (toLocaleString : string -> string) (l : list Session.t) :
  csvContent toLocaleString l =
    join newline ("Date,Time (minutes),Notes" :: map (csv_line toLocaleString) l).
Proof.
  unfold csvContent, rows. f_equal. f_equal. rewrite map_map. apply map_ext.
  intros s. cbn [map join]. rewrite or_empty_id. reflexivity.
Qed.

Lemma csv_line_chars (toLocaleString : string -> string) (s : Session.t) :
  csv_line toLocaleString s =
    String quote_char (toLocaleString (Session.date s) +:+
    String quote_char (String comma_char (String quote_char
      (toFixed 2 (Session.timeMinutes s) +:+
    String quote_char (String comma_char (String quote_char
      (Session.notes s +:+ String quote_char EmptyString))))))).
Proof.
  unfold csv_line, quoted, quote. rewrite !append_assoc. reflexivity.
Qed.

Lemma quoted_fields_three (a b c : string) :
  mem_char quote_char a = false -> mem_char quote_char b = false ->
  mem_char quote_char c = false ->
  quoted_fields (String quote_char (a +:+ String quote_char (String comma_char
                  (String quote_char (b +:+ String quote_char (String comma_char
                  (String quote_char (c +:+ String quote_char EmptyString))))))))
  = Some [a; b; c].
Proof.
  intros Ha Hb Hc. unfold quoted_fields.
  set (line := String quote_char _).
  assert (L : (3 <= String.length line)%nat).
  { subst line. cbn [String.length]. rewrite length_append. cbn [String.length].
    rewrite length_append. cbn [String.length]. lia. }
  destruct (String.length line) as [|[|[|f]]]; try lia. subst line.
  cbn [read_fields]. rewrite Ascii.eqb_refl.
  rewrite (read_quoted_field a _ EmptyString Ha). rewrite Ascii.eqb_refl.
  cbn [read_fields]. rewrite Ascii.eqb_refl.
  rewrite (read_quoted_field b _ EmptyString Hb). rewrite Ascii.eqb_refl.
  cbn [read_fields]. rewrite Ascii.eqb_refl.
  rewrite (read_quoted_field c _ EmptyString Hc). reflexivity.
Qed.

Lemma clean_csv_line (toLocaleString : string -> string) (s : Session.t) :
  clean (toLocaleString (Session.date s)) = true ->
  clean (Session.notes s) = true ->
  mem_char newline_char (csv_line toLocaleString s) = false.
Proof.
  intros Hd Hn. unfold csv_line, quoted.
  rewrite !mem_char_append, (clean_no_newline _ Hd), (clean_no_newline _ Hn),
    (clean_no_newline _ (clean_toFixed 2 _)). reflexivity.
Qed.

(** Where [toFixed(2)] writes plain decimals: zero and the finite numbers
    below [10^21] in magnitude. *)
Lemma toFixed_two_decimals (x : number) :
  fixed_range x = true ->
  exists ip fp,
    toFixed 2 x = (if is_negative x then "-" else EmptyString) +:+ ip +:+ "." +:+ fp
    /\ all_digits ip = true /\ all_digits fp = true
    /\ (1 <= String.length ip)%nat /\ String.length fp = 2%nat.
Proof.
  destruct x as [s|s| |s m e]; cbn [fixed_range]; try discriminate; intros H.
  - destruct (fixed_digits_shape 0 1) as (ip & fp & E & R). exists ip, fp.
    split; [|exact R]. cbn [toFixed is_negative]. exact E.
  - destruct (fixed_digits_shape (nearest_scaled m e 2) 1) as (ip & fp & E & R).
    exists ip, fp. split; [|exact R]. cbn [toFixed is_negative].
    destruct (mag_ge m e (10 ^ 21)); [discriminate|]. rewrite E. reflexivity.
Qed.

End ExportFacts.
Import ExportFacts.

(** C2 (as amended).  The export of the empty log is the header line
    [Date,Time (minutes),Notes], written without quotes; the export of
    any log is that line followed by one line per session, in the order
    of the log, with the three fields of a line each between double
    quotes and the minutes written by [toFixed(2)]. *)
Theorem exportToCSV_layout (toLocaleString : string -> string) (l : list Session.t) :
  csvContent toLocaleString [] = "Date,Time (minutes),Notes"
  /\ csvContent toLocaleString l =
       join newline ("Date,Time (minutes),Notes" :: map (csv_line toLocaleString) l)
  /\ Forall (fun s =>
       csv_line toLocaleString s =
         quote +:+ toLocaleString (Session.date s) +:+ quote +:+ "," +:+
         quote +:+ toFixed 2 (Session.timeMinutes s) +:+ quote +:+ "," +:+
         quote +:+ Session.notes s +:+ quote) l.
Proof.
  split; [reflexivity|]. split; [apply csvContent_lines|].
  apply List.Forall_forall; intros s _.
  unfold csv_line, quoted. rewrite !append_assoc. reflexivity.
Qed.

(** C2, as stated, fails on the header: the export of the empty log is
    not the line of three quoted names. *)
Lemma exportToCSV_header_not_quoted :
  csvContent (fun d => d) []
  <> quote +:+ "Date" +:+ quote +:+ "," +:+ quote +:+ "Time (minutes)" +:+ quote
     +:+ "," +:+ quote +:+ "Notes" +:+ quote.
Proof. vm_compute. discriminate. Qed.

Section ExportLines.

Variable toLocaleString : string -> string.

(** The host writes a date without double quotes and line breaks. *)
Hypothesis locale_clean : forall d, clean (toLocaleString d) = true.

(** C10.  When no notes hold a line break or a double quote, the export
    splits on line breaks into the header and one line per session, and
    each of these lines reads as exactly three quoted fields: the date,
    the minutes and the notes, commas of the notes included. *)
Theorem exportToCSV_lines (l : list Session.t)
    (Hnotes : Forall (fun s => clean (Session.notes s) = true) l) :
  split newline_char (csvContent toLocaleString l) =
    "Date,Time (minutes),Notes" :: map (csv_line toLocaleString) l
  /\ List.length (split newline_char (csvContent toLocaleString l)) = S (List.length l)
  /\ Forall (fun s =>
       quoted_fields (csv_line toLocaleString s) =
         Some [toLocaleString (Session.date s);
               toFixed 2 (Session.timeMinutes s);
               Session.notes s]) l.
Proof.
  assert (E : split newline_char (csvContent toLocaleString l) =
              "Date,Time (minutes),Notes" :: map (csv_line toLocaleString) l).
  { rewrite csvContent_lines. apply split_join; [discriminate|].
    constructor; [reflexivity|]. apply List.Forall_forall. intros line Hin.
    apply in_map_iff in Hin. destruct Hin as (s & <- & Hs).
    apply clean_csv_line; [apply locale_clean|].
    rewrite List.Forall_forall in Hnotes. apply Hnotes, Hs. }
  split; [exact E|]. split; [rewrite E; cbn [List.length]; rewrite length_map; reflexivity|].
  revert Hnotes. apply List.Forall_impl. intros s Hs.
  rewrite csv_line_chars. apply quoted_fields_three.
  - apply clean_no_quote, locale_clean.
  - apply clean_no_quote, clean_toFixed.
  - apply clean_no_quote, Hs.
Qed.

End ExportLines.

Lemma exportToCSV_lines_witness :
  split newline_char
    (csvContent (fun _ => "11/3/2026, 8:36:00 AM")
       [Session.mk (of_Z 1762158960000) (of_Z 65430) (div (of_Z 65430) (of_Z 60000))
          "2026-11-03T08:36:00.000Z" "Green tea, second steep"])
  = "Date,Time (minutes),Notes"
    :: map (csv_line (fun _ => "11/3/2026, 8:36:00 AM"))
         [Session.mk (of_Z 1762158960000) (of_Z 65430) (div (of_Z 65430) (of_Z 60000))
            "2026-11-03T08:36:00.000Z" "Green tea, second steep"]
  /\ List.length
       (split newline_char
          (csvContent (fun _ => "11/3/2026, 8:36:00 AM")
             [Session.mk (of_Z 1762158960000) (of_Z 65430) (div (of_Z 65430) (of_Z 60000))
                "2026-11-03T08:36:00.000Z" "Green tea, second steep"]))
     = S (List.length
            [Session.mk (of_Z 1762158960000) (of_Z 65430) (div (of_Z 65430) (of_Z 60000))
               "2026-11-03T08:36:00.000Z" "Green tea, second steep"])
  /\ Forall (fun s =>
       quoted_fields (csv_line (fun _ => "11/3/2026, 8:36:00 AM") s) =
         Some [(fun _ : string => "11/3/2026, 8:36:00 AM") (Session.date s);
               toFixed 2 (Session.timeMinutes s);
               Session.notes s])
       [Session.mk (of_Z 1762158960000) (of_Z 65430) (div (of_Z 65430) (of_Z 60000))
          "2026-11-03T08:36:00.000Z" "Green tea, second steep"].
Proof.
  apply (exportToCSV_lines (fun _ => "11/3/2026, 8:36:00 AM")).
  - intros d. reflexivity.
  - repeat constructor.
Defined.

(** ** The timer, the log and the storage *)

Import ArithFacts DivFacts QuotientFacts IntegerTextFacts.

Module TimerFacts.
Import ArithFacts DivFacts QuotientFacts IntegerTextFacts.

Lemma handleSave_zero (c : clock) (st : State) :
  time st <= 0 -> handleSave c st = [].
Proof.
  intros H. unfold handleSave. destruct (0 <? time st) eqn:E; [lia | reflexivity].
Qed.

Lemma handleSave_pos (c : clock) (st : State) :
  0 < time st ->
  handleSave c st =
    [setSessions (sessions st ++ [newSession c st]); setShowSaveDialog false;
     setTime 0; setIsRunning false; setNotes EmptyString].
Proof.
  intros H. unfold handleSave. destruct (0 <? time st) eqn:E; [reflexivity | lia].
Qed.

(** Below [2^53] the callback of the interval adds ten, exactly. *)
Lemma tick_exact (st : State) :
  0 <= time st -> time st + 10 < 2 ^ 53 -> tick st = [setTime (time st + 10)].
Proof.
  intros H0 H1. unfold tick. rewrite add_exact, to_Z_of_Z by lia. reflexivity.
Qed.

(** The log after an event: unchanged, or one session longer. *)
Lemma step_sessions (w : World) (e : event) :
  sessions (state (step w e)) = sessions (state w)
  \/ exists c, e = Save c /\ 0 < time (state w) /\
       sessions (state (step w e)) = sessions (state w) ++ [newSession c (state w)].
Proof.
  destruct e; try (left; reflexivity).
  unfold step. cbn [handler].
  destruct (Z_lt_le_dec 0 (time (state w))) as [Hp|Hz].
  - right. exists c. rewrite handleSave_pos by assumption. auto.
  - left. rewrite handleSave_zero by assumption. reflexivity.
Qed.

(** The storage after an event: unchanged, or the log was written. *)
Lemma step_storage (w : World) (e : event) :
  localStorage (step w e) = localStorage w
  \/ (sessions (state (step w e)) <> [] /\
      localStorage (step w e) =
        <[storage_key := stringify (sessions_value (sessions (state (step w e))))]>
          (localStorage w)).
Proof.
  destruct e; try (left; reflexivity).
  unfold step. cbn [handler].
  destruct (Z_lt_le_dec 0 (time (state w))) as [Hp|Hz].
  - right. rewrite handleSave_pos by assumption.
    cbn [sets_sessions existsb orb apply_updates fold_left apply_update
         time isRunning showSaveDialog notes sessions activeView state localStorage].
    unfold persist. rewrite length_app. cbn [List.length].
    destruct (0 <? List.length (sessions (state w)) + 1)%nat eqn:E.
    + split; [|reflexivity]. intros H. apply app_eq_nil in H. destruct H; discriminate.
    + apply Nat.ltb_ge in E. lia.
  - left. rewrite handleSave_zero by assumption. reflexivity.
Qed.

Lemma step_time (w : World) (e : event) :
  time (state (step w e)) =
    match e with
    | Tick => to_Z (add (of_Z (time (state w))) (of_Z 10))
    | Reset => 0
    | Save _ => if 0 <? time (state w) then 0 else time (state w)
    | _ => time (state w)
    end.
Proof.
  destruct e; try reflexivity.
  unfold step. cbn [handler state]. unfold handleSave.
  destruct (0 <? time (state w)); reflexivity.
Qed.

(** Below [2^53], an event adds ten milliseconds when it is a tick and
    none otherwise. *)
Lemma step_time_bound (w : World) (e : event) :
  0 <= time (state w) -> time (state w) + 10 < 2 ^ 53 ->
  0 <= time (state (step w e)) <= time (state w) + 10
  /\ (e = Tick -> time (state (step w e)) = time (state w) + 10).
Proof.
  intros H0 H1. rewrite step_time. destruct e; try (split; [lia | discriminate]).
  - rewrite add_exact, to_Z_of_Z by lia. split; [lia | reflexivity].
  - destruct (0 <? time (state w)); (split; [lia | discriminate]).
Qed.

Lemma step_isRunning (w : World) (e : event) :
  isRunning (state (step w e)) =
    match e with
    | StartStop => negb (isRunning (state w))
    | Reset => false
    | Save _ => if 0 <? time (state w) then false else isRunning (state w)
    | _ => isRunning (state w)
    end.
Proof.
  destruct e; try reflexivity.
  unfold step. cbn [handler state]. unfold handleSave.
  destruct (0 <? time (state w)); reflexivity.
Qed.

Lemma run_cons (w : World) (e : event) (es : list event) :
  run w (e :: es) = run (step w e) es.
Proof. reflexivity. Qed.

(** The log only grows. *)
Lemma run_sessions (es : list event) : forall w,
  exists added, sessions (state (run w es)) = sessions (state w) ++ added.
Proof.
  induction es as [|e es IH]; intros w.
  - exists []. symmetry. apply app_nil_r.
  - rewrite run_cons. destruct (IH (step w e)) as (added & ->).
    destruct (step_sessions w e) as [-> | (c & _ & _ & ->)].
    + exists added. reflexivity.
    + exists (newSession c (state w) :: added). rewrite <- app_assoc. reflexivity.
Qed.

(** The minutes of a session saved below [2^53] milliseconds. *)
Lemma newSession_derived (c : clock) (st : State) :
  0 < time st < 2 ^ 53 -> minutes_derived (newSession c st).
Proof.
  intros Ht. unfold minutes_derived, newSession.
  cbn [Session.time Session.timeMinutes].
  rewrite to_Z_of_Z by lia. split; [exact Ht|]. split; [reflexivity|].
  set (t := time st) in *.
  destruct (div_of_Z t 60000 Ht ltac:(cbn; lia))
    as (g & r & M & E & -> & HBd & Hg & Br & Hnear & _ & HM).
  assert (Hg0 : 0 < 2 ^ g) by (apply Z.pow_pos_nonneg; lia).
  change (2 ^ 52) with 4503599627370496 in *.
  change (2 ^ 53) with 9007199254740992 in *.
  (* the unit in the last place is small *)
  assert (Hg15 : 15 <= g).
  { destruct (Z_le_gt_dec 15 g) as [G|G]; [exact G|]. exfalso.
    assert (2 ^ g <= 2 ^ 14) by (apply Z.pow_le_mono_r; lia).
    change (2 ^ 14) with 16384 in *.
    assert (t * 2 ^ g <= t * 16384) by (apply Z.mul_le_mono_nonneg_l; lia). lia. }
  assert (Hb : 32768 <= 2 ^ g).
  { change 32768 with (2 ^ 15). apply Z.pow_le_mono_r; lia. }
  assert (HE : E <= 0 /\ Zpos M * 2 ^ (g + E) = r /\ 0 <= g + E <= 1).
  { destruct HM as [[HM ->]|(Hr & HM & ->)].
    - replace (g + - g) with 0 by lia. cbn. lia.
    - replace (g + (1 - g)) with 1 by lia. rewrite HM, Hr. cbn. lia. }
  destruct HE as (HE0 & HMr & Hge).
  assert (Hpow : 2 ^ g = 2 ^ (- E) * 2 ^ (g + E))
    by (rewrite <- Z.pow_add_r by lia; f_equal; lia).
  assert (Hc : 2 ^ (g + E) = 1 \/ 2 ^ (g + E) = 2).
  { assert (g + E = 0 \/ g + E = 1) as [->| ->] by lia; cbn; auto. }
  assert (Hn : 2 * Z.abs (60000 * Zpos M - t * 2 ^ (- E)) <= 60000).
  { rewrite Hpow, <- HMr in Hnear. destruct Hc as [Hc|Hc]; rewrite Hc in Hnear; lia. }
  split.
  { exists M, E. auto. }
  (* the hundredths *)
  unfold shown_minutes. cbn [toFixed]. change (EmptyString +:+ ?x) with x.
  assert (Hb' : 16384 <= 2 ^ (- E)) by lia.
  assert (G : mag_ge M E (10 ^ 21) = false).
  { unfold mag_ge. destruct (0 <=? E) eqn:E0.
    - apply Z.leb_le in E0. assert (E = 0) as -> by lia. cbn in Hb'. lia.
    - apply Z.leb_gt. change (10 ^ 21) with 1000000000000000000000. nia. }
  rewrite G.
  destruct (nearest_scaled_nearest M E) as [Hns Hnn].
  destruct (fixed_digits_value (nearest_scaled M E 2) 1 Hns)
    as (ip & fp & Efd & Hi & Hf & Li & Lf & Hv).
  exists ip, fp. rewrite Efd, Hv. split; [reflexivity|]. repeat (split; [assumption|]).
  unfold ratio_of in Hnn. destruct (0 <=? E) eqn:E0.
  { apply Z.leb_le in E0. assert (E = 0) as -> by lia. cbn in Hb'. lia. }
  cbn [fst snd] in Hnn.
  set (n := nearest_scaled M E 2) in *. set (b := 2 ^ (- E)) in *.
  (* [b] is a power of two above 30000 *)
  assert (Hb3 : 32768 <= b).
  { subst b. destruct (Z_le_gt_dec 15 (- E)) as [G15|G15].
    - change 32768 with (2 ^ 15). apply Z.pow_le_mono_r; lia.
    - exfalso. assert (E = -14) by lia. subst E. cbn in *. lia. }
  assert (Hd : Z.abs (600 * n - t) * b <= 300 * b + 30000) by nia.
  assert (Z.abs (600 * n - t) < 301) by nia.
  lia.
Qed.

Lemma run_storage_empty (es : list event) : forall w,
  sessions (state (run w es)) = [] -> localStorage (run w es) = localStorage w.
Proof.
  induction es as [|e es IH]; intros w H; [reflexivity|].
  rewrite run_cons in *. rewrite (IH _ H).
  destruct (run_sessions es (step w e)) as (added & E).
  rewrite H in E. symmetry in E. apply app_eq_nil in E. destruct E as [E _].
  destruct (step_storage w e) as [-> | [Hne _]]; [reflexivity | contradiction].
Qed.

Lemma persist_other (l : list Session.t) (ls : gmap string string) (k : string) :
  k <> storage_key -> persist l ls !! k = ls !! k.
Proof.
  intros H. unfold persist. destruct (0 <? List.length l)%nat; [|reflexivity].
  apply lookup_insert_ne. congruence.
Qed.

Lemma run_storage_other (es : list event) : forall w k,
  k <> storage_key -> localStorage (run w es) !! k = localStorage w !! k.
Proof.
  induction es as [|e es IH]; intros w k H; [reflexivity|].
  rewrite run_cons, (IH _ _ H).
  destruct (step_storage w e) as [-> | [_ ->]]; [reflexivity|].
  apply lookup_insert_ne. congruence.
Qed.

Lemma slice_negative {A : Type} (n : nat) (l : list A) :
  (1 <= n)%nat -> slice (- Z.of_nat n) l = last_n n l.
Proof.
  intros H. unfold slice, last_n.
  destruct (- Z.of_nat n <? 0) eqn:E; [|lia]. f_equal. lia.
Qed.

Lemma last_n_length {A : Type} (n : nat) (l : list A) :
  List.length (last_n n l) = Nat.min n (List.length l).
Proof. unfold last_n. rewrite length_skipn. lia. Qed.


(** The sessions a run appends, while elapsed time stays below [2^53]. *)
Lemma run_derived (es : list event) : forall w,
  0 <= time (state w) -> time (state w) + 10 * Z.of_nat (List.length es) < 2 ^ 53 ->
  exists added, sessions (state (run w es)) = sessions (state w) ++ added
                /\ Forall minutes_derived added.
Proof.
  induction es as [|e es IH]; intros w H0 H1.
  - exists []. split; [symmetry; apply app_nil_r | constructor].
  - cbn [List.length] in H1. rewrite Nat2Z.inj_succ in H1. rewrite run_cons.
    destruct (step_time_bound w e H0 ltac:(lia)) as [Hb _].
    destruct (IH (step w e) ltac:(lia) ltac:(lia)) as (added & -> & Hd).
    destruct (step_sessions w e) as [-> | (c & _ & Hp & ->)].
    + exists added. auto.
    + exists (newSession c (state w) :: added). rewrite <- app_assoc.
      split; [reflexivity|]. constructor; [|exact Hd].
      apply newSession_derived. lia.
Qed.

(** [formatTime] on an integer below [2^53]: the integer quotients and
    remainders, the seconds and the hundredths with two digits. *)
Lemma formatTime_parts (ms : Z) :
  0 <= ms < 2 ^ 53 ->
  formatTime (of_Z ms) =
    padStart 2 "0" (Z_to_dec (ms / 60000))
    +:+ ":" +:+ two_digits ((ms / 1000) mod 60)
    +:+ "." +:+ two_digits ((ms mod 1000) / 10).
Proof.
  intros Hms.
  assert (Hs : 0 <= ms / 1000 <= ms).
  { split; [apply Z.div_pos; lia|]. apply Z.div_le_upper_bound; lia. }
  assert (Hm : ms / 1000 / 60 = ms / 60000) by (rewrite Z.div_div by lia; reflexivity).
  pose proof (Z.mod_pos_bound (ms / 1000) 60 ltac:(lia)) as Hsec.
  pose proof (Z.mod_pos_bound ms 1000 ltac:(lia)) as Hr.
  assert (Hcc : 0 <= (ms mod 1000) / 10 < 100).
  { split; [apply Z.div_pos; lia | apply Z.div_lt_upper_bound; lia]. }
  change (2 ^ 53) with 9007199254740992 in *.
  assert (Hmin : 0 <= ms / 60000 < 2 ^ 52).
  { change (2 ^ 52) with 4503599627370496.
    split; [apply Z.div_pos; lia | apply Z.div_lt_upper_bound; lia]. }
  unfold formatTime.
  rewrite (floor_div ms 1000) by (cbn; lia).
  rewrite (floor_div (ms / 1000) 60) by (cbn; lia).
  rewrite (rem_exact (ms / 1000) 60) by (cbn; lia).
  rewrite (rem_exact ms 1000) by (cbn; lia).
  rewrite (floor_div (ms mod 1000) 10) by (cbn; lia).
  rewrite Hm.
  rewrite (toString_of_Z (ms / 60000)) by exact Hmin.
  rewrite (toString_of_Z ((ms / 1000) mod 60))
    by (change (2 ^ 52) with 4503599627370496; lia).
  rewrite (toString_of_Z ((ms mod 1000) / 10))
    by (change (2 ^ 52) with 4503599627370496; lia).
  rewrite (pad2_small ((ms / 1000) mod 60)) by lia.
  rewrite (pad2_small ((ms mod 1000) / 10)) by lia.
  reflexivity.
Qed.

(** Below one hundred minutes the minutes have two digits too. *)
Lemma formatTime_two_digits (ms : Z) :
  0 <= ms < 6000000 ->
  formatTime (of_Z ms) =
    two_digits (ms / 60000)
    +:+ ":" +:+ two_digits ((ms / 1000) mod 60)
    +:+ "." +:+ two_digits ((ms mod 1000) / 10).
Proof.
  intros Hms. rewrite formatTime_parts by (change (2 ^ 53) with 9007199254740992; lia).
  assert (0 <= ms / 60000 < 100).
  { split; [apply Z.div_pos; lia | apply Z.div_lt_upper_bound; lia]. }
  rewrite pad2_small by lia. reflexivity.
Qed.

(** From one hundred minutes on the minutes have three digits or more. *)
Lemma formatTime_more_digits (ms : Z) :
  6000000 <= ms < 2 ^ 53 ->
  formatTime (of_Z ms) =
    Z_to_dec (ms / 60000)
    +:+ ":" +:+ two_digits ((ms / 1000) mod 60)
    +:+ "." +:+ two_digits ((ms mod 1000) / 10)
  /\ (3 <= String.length (Z_to_dec (ms / 60000)))%nat.
Proof.
  intros Hms. rewrite formatTime_parts by lia.
  assert (H : 100 <= ms / 60000) by (apply Z.div_le_lower_bound; lia).
  rewrite pad2_large by lia. split; [reflexivity|].
  pose proof (Z_to_dec_bounds (ms / 60000) ltac:(lia)) as [_ Hb].
  destruct (le_lt_dec 3 (String.length (Z_to_dec (ms / 60000)))) as [C|C]; [exact C|].
  exfalso.
  assert (10 ^ Z.of_nat (String.length (Z_to_dec (ms / 60000))) <= 10 ^ 2)
    by (apply Z.pow_le_mono_r; lia).
  change (10 ^ 2) with 100 in *. lia.
Qed.

End TimerFacts.
Import TimerFacts.

(** C4.  With no elapsed time, saving does nothing: [handleSave] calls no
    setter, so the log and every other cell of the state are unchanged,
    no render follows and the storage is not written. *)
Theorem save_without_elapsed_time (w : World) (c : clock) (H : time (state w) = 0) :
  handleSave c (state w) = [] /\ step w (Save c) = w.
Proof.
  assert (E : handleSave c (state w) = []) by (apply handleSave_zero; lia).
  split; [exact E|]. unfold step. simpl. rewrite E. destruct w; reflexivity.
Qed.

Lemma save_without_elapsed_time_witness :
  handleSave (mkClock (of_Z 1762158960000) "2026-11-03T08:36:00.000Z") initial = []
  /\ step (mkWorld initial ∅)
          (Save (mkClock (of_Z 1762158960000) "2026-11-03T08:36:00.000Z"))
     = mkWorld initial ∅.
Proof.
  apply (save_without_elapsed_time (mkWorld initial ∅)). reflexivity.
Defined.

(** C5.  For an elapsed time below [2^53] milliseconds, the session
    [handleSave] builds holds the milliseconds exactly and, as its
    minutes, their quotient by [60000] as numbers divide: a number nearest
    to the exact quotient, which [toFixed(2)] writes as hundredths at most
    half a hundredth from it; and so does every session a run of events
    appends to the log while elapsed time stays below [2^53]. *)
Theorem saved_minutes_derived :
  (forall c st, 0 < time st < 2 ^ 53 ->
     handleSave c st =
       [setSessions (sessions st ++ [newSession c st]); setShowSaveDialog false;
        setTime 0; setIsRunning false; setNotes EmptyString]
     /\ Session.time (newSession c st) = of_Z (time st)
     /\ Session.timeMinutes (newSession c st) = div (of_Z (time st)) (of_Z 60000)
     /\ nearest_minutes (time st) (Session.timeMinutes (newSession c st))
     /\ shown_minutes (time st) (Session.timeMinutes (newSession c st))
     /\ minutes_derived (newSession c st))
  /\ (forall w es,
        0 <= time (state w) ->
        time (state w) + 10 * Z.of_nat (List.length es) < 2 ^ 53 ->
        exists added,
          sessions (state (run w es)) = sessions (state w) ++ added
          /\ Forall minutes_derived added).
Proof.
  split.
  - intros c st H. split; [apply handleSave_pos; lia|].
    split; [reflexivity|]. split; [reflexivity|].
    pose proof (newSession_derived c st H) as D.
    destruct D as (_ & _ & Hn & Hs).
    cbn [newSession Session.time] in Hn, Hs.
    rewrite ArithFacts.to_Z_of_Z in Hn, Hs by lia.
    split; [exact Hn|]. split; [exact Hs|]. apply newSession_derived, H.
  - intros w es H0 H1. apply run_derived; assumption.
Qed.

Lemma saved_minutes_derived_witness :
  (handleSave (mkClock (of_Z 1762158960000) "2026-11-03T08:36:00.000Z")
     (mkState 65430 false true "Green tea" [] TimerView)
   = [setSessions
        (sessions (mkState 65430 false true "Green tea" [] TimerView)
         ++ [newSession (mkClock (of_Z 1762158960000) "2026-11-03T08:36:00.000Z")
               (mkState 65430 false true "Green tea" [] TimerView)]);
      setShowSaveDialog false; setTime 0; setIsRunning false; setNotes EmptyString]
   /\ Session.time
        (newSession (mkClock (of_Z 1762158960000) "2026-11-03T08:36:00.000Z")
           (mkState 65430 false true "Green tea" [] TimerView))
      = of_Z (time (mkState 65430 false true "Green tea" [] TimerView))
   /\ Session.timeMinutes
        (newSession (mkClock (of_Z 1762158960000) "2026-11-03T08:36:00.000Z")
           (mkState 65430 false true "Green tea" [] TimerView))
      = div (of_Z (time (mkState 65430 false true "Green tea" [] TimerView))) (of_Z 60000)
   /\ nearest_minutes (time (mkState 65430 false true "Green tea" [] TimerView))
        (Session.timeMinutes
           (newSession (mkClock (of_Z 1762158960000) "2026-11-03T08:36:00.000Z")
              (mkState 65430 false true "Green tea" [] TimerView)))
   /\ shown_minutes (time (mkState 65430 false true "Green tea" [] TimerView))
        (Session.timeMinutes
           (newSession (mkClock (of_Z 1762158960000) "2026-11-03T08:36:00.000Z")
              (mkState 65430 false true "Green tea" [] TimerView)))
   /\ minutes_derived
        (newSession (mkClock (of_Z 1762158960000) "2026-11-03T08:36:00.000Z")
           (mkState 65430 false true "Green tea" [] TimerView)))
  /\ (exists added,
        sessions (state (run (mkWorld initial ∅)
          [StartStop; Tick; Tick; StartStop;
           Save (mkClock (of_Z 1762158960000) "2026-11-03T08:36:00.000Z")]))
        = sessions (state (mkWorld initial ∅)) ++ added
        /\ Forall minutes_derived added).
Proof.
  split.
  - apply (proj1 saved_minutes_derived). cbn. split; reflexivity.
  - apply (proj2 saved_minutes_derived (mkWorld initial ∅)); [cbn; lia | reflexivity].
Defined.

(** C6.  The effect that persists writes nothing for the empty log; an
    event either leaves the storage as it is or writes the whole log,
    which is then not empty; a save with elapsed time appends and writes
    the log with the new session; a run that ends with the empty log has
    not written at all; and no key other than [teaSessions] is touched. *)
Theorem persist_only_when_nonempty :
  (forall ls, persist [] ls = ls)
  /\ (forall w e,
        localStorage (step w e) = localStorage w
        \/ (sessions (state (step w e)) <> [] /\
            localStorage (step w e) =
              <[storage_key := stringify (sessions_value (sessions (state (step w e))))]>
                (localStorage w)))
  /\ (forall w c, 0 < time (state w) ->
        sessions (state (step w (Save c))) = sessions (state w) ++ [newSession c (state w)]
        /\ localStorage (step w (Save c)) !! storage_key =
             Some (stringify (sessions_value (sessions (state w) ++ [newSession c (state w)]))))
  /\ (forall w es, sessions (state (run w es)) = [] ->
        localStorage (run w es) = localStorage w)
  /\ (forall w es k, k <> storage_key ->
        localStorage (run w es) !! k = localStorage w !! k).
Proof.
  split; [reflexivity|]. split; [exact step_storage|]. split.
  - intros w c H. unfold step. simpl. rewrite handleSave_pos by assumption. simpl.
    split; [reflexivity|]. unfold persist. rewrite length_app. simpl.
    destruct (0 <? List.length (sessions (state w)) + 1)%nat eqn:E0;
      [|apply Nat.ltb_ge in E0; lia].
    apply lookup_insert_eq.
  - split; [intros w es; apply run_storage_empty | intros w es; apply run_storage_other].
Qed.

Lemma persist_only_when_nonempty_witness :
  localStorage (run (mkWorld initial {[ storage_key := "[]" ]})
                    [StartStop; Tick; StartStop; Reset; Save (mkClock (of_Z 5) "d")])
  = {[ storage_key := "[]" ]}.
Proof.
  apply (proj1 (proj2 (proj2 (proj2 persist_only_when_nonempty)))). reflexivity.
Defined.

(** C7.  For a log of [k] sessions, [sessions.slice(-3).reverse()] is a
    new array of [min 3 k] sessions, the last ones of the log with the
    most recent first, and the array of the log and every other array are
    as before. *)
Theorem recent_sessions (r : nat) (h : gmap nat (list Session.t))
    (l : list Session.t) (Hr : h !! r = Some l) :
  exists r' h',
    recent r h = Some (r', h')
    /\ h' !! r' = Some (rev (last_n 3 l))
    /\ List.length (rev (last_n 3 l)) = Nat.min 3 (List.length l)
    /\ (forall i, (i < Nat.min 3 (List.length l))%nat ->
          nth_error (rev (last_n 3 l)) i = nth_error l (List.length l - 1 - i))
    /\ r' <> r
    /\ h' !! r = Some l
    /\ (forall k, k <> r' -> h' !! k = h !! k).
Proof.
  set (r' := fresh (dom h)).
  assert (Hfresh : r' ∉ dom h) by apply is_fresh.
  assert (Hne : r' <> r).
  { intros ->. apply Hfresh. apply elem_of_dom. eauto. }
  exists r', (<[r' := rev (last_n 3 l)]> (<[r' := last_n 3 l]> h)).
  split.
  { unfold recent, array_slice. rewrite Hr. fold r'. unfold array_reverse.
    rewrite lookup_insert_eq. rewrite (slice_negative 3) by lia. reflexivity. }
  split; [apply lookup_insert_eq|].
  split; [rewrite length_rev; apply last_n_length|].
  split.
  { intros i Hi. pose proof (last_n_length 3 l) as Hlen.
    rewrite nth_error_rev. rewrite Hlen. unfold last_n in *.
    destruct (i <? Nat.min 3 (List.length l))%nat eqn:E;
      [|apply Nat.ltb_ge in E; lia].
    rewrite nth_error_skipn. f_equal. lia. }
  split; [exact Hne|].
  split; [rewrite !lookup_insert_ne by congruence; exact Hr|].
  intros k Hk. rewrite !lookup_insert_ne by congruence. reflexivity.
Qed.

Lemma recent_sessions_witness :
  exists r' h',
    recent 0%nat
      {[ 0%nat := [Session.mk (of_Z 1) (of_Z 10) (of_Z 1) "a" "p";
                   Session.mk (of_Z 2) (of_Z 20) (of_Z 2) "b" "q";
                   Session.mk (of_Z 3) (of_Z 30) (of_Z 3) "c" "r";
                   Session.mk (of_Z 4) (of_Z 40) (of_Z 4) "d" "s"] ]}
      = Some (r', h')
    /\ h' !! r'
       = Some (rev (last_n 3
           [Session.mk (of_Z 1) (of_Z 10) (of_Z 1) "a" "p";
            Session.mk (of_Z 2) (of_Z 20) (of_Z 2) "b" "q";
            Session.mk (of_Z 3) (of_Z 30) (of_Z 3) "c" "r";
            Session.mk (of_Z 4) (of_Z 40) (of_Z 4) "d" "s"]))
    /\ List.length (rev (last_n 3
           [Session.mk (of_Z 1) (of_Z 10) (of_Z 1) "a" "p";
            Session.mk (of_Z 2) (of_Z 20) (of_Z 2) "b" "q";
            Session.mk (of_Z 3) (of_Z 30) (of_Z 3) "c" "r";
            Session.mk (of_Z 4) (of_Z 40) (of_Z 4) "d" "s"]))
       = Nat.min 3 (List.length
           [Session.mk (of_Z 1) (of_Z 10) (of_Z 1) "a" "p";
            Session.mk (of_Z 2) (of_Z 20) (of_Z 2) "b" "q";
            Session.mk (of_Z 3) (of_Z 30) (of_Z 3) "c" "r";
            Session.mk (of_Z 4) (of_Z 40) (of_Z 4) "d" "s"])
    /\ (forall i, (i < Nat.min 3 (List.length
           [Session.mk (of_Z 1) (of_Z 10) (of_Z 1) "a" "p";
            Session.mk (of_Z 2) (of_Z 20) (of_Z 2) "b" "q";
            Session.mk (of_Z 3) (of_Z 30) (of_Z 3) "c" "r";
            Session.mk (of_Z 4) (of_Z 40) (of_Z 4) "d" "s"]))%nat ->
          nth_error (rev (last_n 3
           [Session.mk (of_Z 1) (of_Z 10) (of_Z 1) "a" "p";
            Session.mk (of_Z 2) (of_Z 20) (of_Z 2) "b" "q";
            Session.mk (of_Z 3) (of_Z 30) (of_Z 3) "c" "r";
            Session.mk (of_Z 4) (of_Z 40) (of_Z 4) "d" "s"])) i
          = nth_error
              [Session.mk (of_Z 1) (of_Z 10) (of_Z 1) "a" "p";
               Session.mk (of_Z 2) (of_Z 20) (of_Z 2) "b" "q";
               Session.mk (of_Z 3) (of_Z 30) (of_Z 3) "c" "r";
               Session.mk (of_Z 4) (of_Z 40) (of_Z 4) "d" "s"]
              (List.length
                 [Session.mk (of_Z 1) (of_Z 10) (of_Z 1) "a" "p";
                  Session.mk (of_Z 2) (of_Z 20) (of_Z 2) "b" "q";
                  Session.mk (of_Z 3) (of_Z 30) (of_Z 3) "c" "r";
                  Session.mk (of_Z 4) (of_Z 40) (of_Z 4) "d" "s"] - 1 - i))
    /\ r' <> 0%nat
    /\ h' !! 0%nat
       = Some [Session.mk (of_Z 1) (of_Z 10) (of_Z 1) "a" "p";
               Session.mk (of_Z 2) (of_Z 20) (of_Z 2) "b" "q";
               Session.mk (of_Z 3) (of_Z 30) (of_Z 3) "c" "r";
               Session.mk (of_Z 4) (of_Z 40) (of_Z 4) "d" "s"]
    /\ (forall k, k <> r' ->
          h' !! k
          = ({[ 0%nat := [Session.mk (of_Z 1) (of_Z 10) (of_Z 1) "a" "p";
                          Session.mk (of_Z 2) (of_Z 20) (of_Z 2) "b" "q";
                          Session.mk (of_Z 3) (of_Z 30) (of_Z 3) "c" "r";
                          Session.mk (of_Z 4) (of_Z 40) (of_Z 4) "d" "s"] ]}
               : gmap nat (list Session.t)) !! k).
Proof.
  apply (recent_sessions 0%nat). apply lookup_singleton_eq.
Defined.

(** C8 (as amended).  For an integer number of milliseconds from zero to
    below [2^53], [formatTime] writes the minutes, a colon, the seconds, a
    period and the hundredths of a second: the seconds and the hundredths
    with two digits, and the minutes with two digits below 6,000,000
    milliseconds, which are one hundred minutes, and with all their
    digits, three or more, from there on; [65430] gives [01:05.43]. *)
Theorem formatTime_layout (ms : Z) (Hms : 0 <= ms < 2 ^ 53) :
  formatTime (of_Z ms) =
    padStart 2 "0" (Z_to_dec (ms / 60000))
    +:+ ":" +:+ two_digits ((ms / 1000) mod 60)
    +:+ "." +:+ two_digits ((ms mod 1000) / 10)
  /\ (ms < 6000000 ->
      formatTime (of_Z ms) =
        two_digits (ms / 60000)
        +:+ ":" +:+ two_digits ((ms / 1000) mod 60)
        +:+ "." +:+ two_digits ((ms mod 1000) / 10)
      /\ String.length (formatTime (of_Z ms)) = 8%nat)
  /\ (6000000 <= ms ->
      formatTime (of_Z ms) =
        Z_to_dec (ms / 60000)
        +:+ ":" +:+ two_digits ((ms / 1000) mod 60)
        +:+ "." +:+ two_digits ((ms mod 1000) / 10)
      /\ (3 <= String.length (Z_to_dec (ms / 60000)))%nat
      /\ (9 <= String.length (formatTime (of_Z ms)))%nat)
  /\ formatTime (of_Z 65430) = "01:05.43".
Proof.
  split; [apply formatTime_parts, Hms|]. split; [|split; [|vm_compute; reflexivity]].
  - intros Hlt.
    assert (E : formatTime (of_Z ms) =
                  two_digits (ms / 60000)
                  +:+ ":" +:+ two_digits ((ms / 1000) mod 60)
                  +:+ "." +:+ two_digits ((ms mod 1000) / 10))
      by (apply formatTime_two_digits; lia).
    split; [exact E|]. rewrite E. reflexivity.
  - intros Hge. destruct (formatTime_more_digits ms ltac:(lia)) as [E L].
    split; [exact E|]. split; [exact L|]. rewrite E, length_append.
    cbn [String.length String.append two_digits]. lia.
Qed.

Lemma formatTime_layout_witness :
  (formatTime (of_Z 65430) =
     two_digits (65430 / 60000)
     +:+ ":" +:+ two_digits ((65430 / 1000) mod 60)
     +:+ "." +:+ two_digits ((65430 mod 1000) / 10)
   /\ String.length (formatTime (of_Z 65430)) = 8%nat)
  /\ (formatTime (of_Z 7265430) =
        Z_to_dec (7265430 / 60000)
        +:+ ":" +:+ two_digits ((7265430 / 1000) mod 60)
        +:+ "." +:+ two_digits ((7265430 mod 1000) / 10)
      /\ (3 <= String.length (Z_to_dec (7265430 / 60000)))%nat
      /\ (9 <= String.length (formatTime (of_Z 7265430)))%nat).
Proof.
  split.
  - apply (formatTime_layout 65430); [split; [lia | reflexivity] | lia].
  - apply (formatTime_layout 7265430); [split; [lia | reflexivity] | lia].
Defined.

(** C8, as stated, fails from one hundred minutes on: the minutes then
    have three digits; and far beyond [2^53] milliseconds the minutes
    are written with an exponent. *)
Lemma formatTime_hundred_minutes :
  formatTime (of_Z 6000000) = "100:00.00"
  /\ String.length (formatTime (of_Z 6000000)) = 9%nat
  /\ formatTime (of_Z (6 * 10 ^ 25)) = "1e+21:00.68".
Proof. repeat split; vm_compute; reflexivity. Qed.

(** ** Loading and persisting *)

Import StringFacts FormatFacts RoundingFacts NumeralFacts NumberTextFacts JSONFacts.

Module StoreFacts.

Lemma session_of_value_session_value (s : Session.t) :
  session_of_value (session_value s) = Some s.
Proof. destruct s. reflexivity. Qed.

(** A value that is a session is the object of that session. *)
Lemma session_of_value_exact (v : value) (s : Session.t) :
  session_of_value v = Some s -> v = session_value s.
Proof.
  unfold session_of_value. intros H.
  destruct v as [| | | |?|m]; try discriminate.
  destruct m as [|[k1 [| |i| | |]] m]; try discriminate.
  destruct m as [|[k2 [| |t| | |]] m]; try discriminate.
  destruct m as [|[k3 [| |tm| | |]] m]; try discriminate.
  destruct m as [|[k4 [| | |d| |]] m]; try discriminate.
  destruct m as [|[k5 [| | |n| |]] m]; try discriminate.
  destruct m; try discriminate.
  destruct (String.eqb k1 "id") eqn:E1; [|discriminate].
  destruct (String.eqb k2 "time") eqn:E2; [|discriminate].
  destruct (String.eqb k3 "timeMinutes") eqn:E3; [|discriminate].
  destruct (String.eqb k4 "date") eqn:E4; [|discriminate].
  destruct (String.eqb k5 "notes") eqn:E5; [|discriminate].
  apply String.eqb_eq in E1, E2, E3, E4, E5. subst.
  cbn [andb] in H. injection H as <-. reflexivity.
Qed.

Lemma sessions_of_value_exact (v : value) (l : list Session.t) :
  sessions_of_value v = Some l -> v = sessions_value l.
Proof.
  unfold sessions_of_value, sessions_value. destruct v as [| | | |vs|]; try discriminate.
  revert l. induction vs as [|v vs IH]; intros l H; cbn [sessions_of_list] in H.
  - injection H as <-. reflexivity.
  - destruct (session_of_value v) as [s|] eqn:Es; [|discriminate].
    destruct (sessions_of_list vs) as [ss|] eqn:Ess; [|discriminate].
    injection H as <-. cbn [map].
    rewrite (session_of_value_exact v s Es). specialize (IH ss eq_refl).
    injection IH as ->. reflexivity.
Qed.

Lemma sessions_of_value_sessions_value (l : list Session.t) :
  sessions_of_value (sessions_value l) = Some l.
Proof.
  unfold sessions_value, sessions_of_value.
  induction l as [|s l IH]; [reflexivity|].
  cbn [map sessions_of_list]. rewrite session_of_value_session_value, IH. reflexivity.
Qed.

Lemma wf_sessions_value (l : list Session.t) :
  forallb session_safe l = true -> wf_value (sessions_value l) = true.
Proof.
  unfold sessions_value. cbn [wf_value]. induction l as [|s l IH]; [reflexivity|].
  cbn [forallb map]. intros H. apply andb_prop in H. destruct H as [Hs Hl].
  rewrite (IH Hl), andb_true_r. unfold session_safe in Hs.
  apply andb_prop in Hs. destruct Hs as [Hs H3]. apply andb_prop in Hs.
  destruct Hs as [H1 H2]. unfold session_value. cbn [wf_value map fst snd forallb].
  rewrite H1, H2, H3. reflexivity.
Qed.

Lemma persist_nonempty (l : list Session.t) (ls : gmap string string) :
  l <> [] -> persist l ls = <[storage_key := stringify (sessions_value l)]> ls.
Proof. destruct l; [contradiction | reflexivity]. Qed.

Lemma persist_persist (l : list Session.t) (ls : gmap string string) :
  persist l (persist l ls) = persist l ls.
Proof.
  unfold persist. destruct (0 <? List.length l)%nat; [|reflexivity].
  apply insert_insert_eq.
Qed.

Lemma load_stored (ls : gmap string string) (c : ascii) (t : string) :
  ls !! storage_key = Some (String c t) ->
  load ls = match parse (String c t) with Some v => Loaded v | None => Throws end.
Proof. intros H. unfold load. rewrite H. reflexivity. Qed.

Lemma load_absent (ls : gmap string string) :
  ls !! storage_key = None \/ ls !! storage_key = Some EmptyString -> load ls = NoData.
Proof. intros [H|H]; unfold load; rewrite H; reflexivity. Qed.

End StoreFacts.
Import StoreFacts.

(** C1 (as amended).  When the text stored under [teaSessions] is not
    empty and is not JSON, [JSON.parse] throws, nothing catches it, and
    the mount does not reach a state; with nothing stored under the key,
    or with the empty string stored there, the component mounts in its
    initial state and leaves the storage as it is. *)
Theorem mount_malformed (ls : gmap string string) (savedSessions : string)
    (Hstored : ls !! storage_key = Some savedSessions)
    (Hnonempty : savedSessions <> EmptyString)
    (Hmalformed : parse savedSessions = None) :
  load ls = Throws
  /\ mount ls = Crashed
  /\ mount (delete storage_key ls) = Ready (mkWorld initial (delete storage_key ls))
  /\ mount (<[storage_key := EmptyString]> ls)
     = Ready (mkWorld initial (<[storage_key := EmptyString]> ls)).
Proof.
  assert (E : load ls = Throws).
  { destruct savedSessions as [|c t]; [contradiction|].
    rewrite (load_stored ls c t Hstored), Hmalformed. reflexivity. }
  split; [exact E|]. split; [|split].
  - unfold mount. rewrite E. reflexivity.
  - unfold mount. rewrite load_absent; [reflexivity|]. left. apply lookup_delete_eq.
  - unfold mount. rewrite load_absent; [reflexivity|]. right. apply lookup_insert_eq.
Qed.

Lemma mount_malformed_witness :
  load {[ storage_key := "[{" ]} = Throws
  /\ mount {[ storage_key := "[{" ]} = Crashed
  /\ mount (delete storage_key {[ storage_key := "[{" ]})
     = Ready (mkWorld initial (delete storage_key {[ storage_key := "[{" ]}))
  /\ mount (<[storage_key := EmptyString]> {[ storage_key := "[{" ]})
     = Ready (mkWorld initial (<[storage_key := EmptyString]> {[ storage_key := "[{" ]})).
Proof.
  apply (mount_malformed {[ storage_key := "[{" ]} "[{").
  - apply lookup_singleton_eq.
  - discriminate.
  - reflexivity.
Defined.

(** C1, as stated, fails: with the malformed text [[{] in the storage the
    mount ends in an uncaught error, not in the initial state. *)
Lemma mount_malformed_not_initial :
  parse "[{" = None
  /\ mount {[ storage_key := "[{" ]} = Crashed
  /\ mount {[ storage_key := "[{" ]} <> Ready (mkWorld initial {[ storage_key := "[{" ]}).
Proof. split; [reflexivity|]. split; [reflexivity | discriminate]. Qed.



(** C9 (as amended).  For a log that is not empty and whose numbers are
    finite and not [-0], what the effect that persists writes is read back by the
    effect that loads as the same log: the value passed to [setSessions]
    is the array of the sessions, field by field, the component mounts
    with that log, and the storage stays as written. *)
Theorem load_persist (L : list Session.t) (ls : gmap string string)
    (Hnonempty : L <> []) (Hsafe : forallb session_safe L = true) :
  load (persist L ls) = Loaded (sessions_value L)
  /\ sessions_of_value (sessions_value L) = Some L
  /\ mount (persist L ls)
     = Ready (mkWorld (apply_update initial (setSessions L)) (persist L ls)).
Proof.
  assert (E : load (persist L ls) = Loaded (sessions_value L)).
  { rewrite persist_nonempty by exact Hnonempty.
    assert (Et : exists c t, stringify (sessions_value L) = String c t)
      by (eexists _, _; reflexivity).
    destruct Et as (c & t & Et).
    rewrite (load_stored _ c t) by (rewrite <- Et; apply lookup_insert_eq).
    rewrite <- Et, parse_stringify by (apply wf_sessions_value, Hsafe). reflexivity. }
  split; [exact E|]. split; [apply sessions_of_value_sessions_value|].
  unfold mount. rewrite E, sessions_of_value_sessions_value.
  change (persist (sessions initial) (persist L ls)) with (persist L ls).
  rewrite persist_persist. reflexivity.
Qed.

Lemma load_persist_witness :
  load (persist [Session.mk (of_Z 1762158960000) (of_Z 65430)
                   (div (of_Z 65430) (of_Z 60000)) "2026-11-03T08:36:00.000Z" "Green tea"] ∅)
  = Loaded (sessions_value
              [Session.mk (of_Z 1762158960000) (of_Z 65430)
                 (div (of_Z 65430) (of_Z 60000)) "2026-11-03T08:36:00.000Z" "Green tea"])
  /\ sessions_of_value
       (sessions_value
          [Session.mk (of_Z 1762158960000) (of_Z 65430)
             (div (of_Z 65430) (of_Z 60000)) "2026-11-03T08:36:00.000Z" "Green tea"])
     = Some [Session.mk (of_Z 1762158960000) (of_Z 65430)
               (div (of_Z 65430) (of_Z 60000)) "2026-11-03T08:36:00.000Z" "Green tea"]
  /\ mount (persist [Session.mk (of_Z 1762158960000) (of_Z 65430)
                       (div (of_Z 65430) (of_Z 60000)) "2026-11-03T08:36:00.000Z" "Green tea"] ∅)
     = Ready (mkWorld
                (apply_update initial
                   (setSessions
                      [Session.mk (of_Z 1762158960000) (of_Z 65430)
                         (div (of_Z 65430) (of_Z 60000)) "2026-11-03T08:36:00.000Z"
                         "Green tea"]))
                (persist [Session.mk (of_Z 1762158960000) (of_Z 65430)
                            (div (of_Z 65430) (of_Z 60000)) "2026-11-03T08:36:00.000Z"
                            "Green tea"] ∅)).
Proof.
  apply load_persist; [discriminate | reflexivity].
Defined.

(** C9, as stated, fails on a log with a number that JSON has no numeral
    for.  The component holds such a log after it has loaded the numeral
    [1e999], which is valid JSON and reads as [Infinity]; it writes
    [null] for it, and what it wrote reads back as another value, with
    which the component does not hold the log it wrote. *)
Lemma load_persist_infinite :
  mount {[ storage_key :=
             "[{" +:+ quote +:+ "id" +:+ quote +:+ ":1e999,"
             +:+ quote +:+ "time" +:+ quote +:+ ":30000,"
             +:+ quote +:+ "timeMinutes" +:+ quote +:+ ":0.5,"
             +:+ quote +:+ "date" +:+ quote +:+ ":" +:+ quote +:+ "d" +:+ quote +:+ ","
             +:+ quote +:+ "notes" +:+ quote +:+ ":" +:+ quote +:+ "n" +:+ quote +:+ "}]" ]}
  = Ready (mkWorld
      (apply_update initial
         (setSessions [Session.mk (S754_infinity false) (of_Z 30000)
                         (div (of_Z 30000) (of_Z 60000)) "d" "n"]))
      (persist [Session.mk (S754_infinity false) (of_Z 30000)
                  (div (of_Z 30000) (of_Z 60000)) "d" "n"] ∅))
  /\ [Session.mk (S754_infinity false) (of_Z 30000)
        (div (of_Z 30000) (of_Z 60000)) "d" "n"] <> []
  /\ load (persist [Session.mk (S754_infinity false) (of_Z 30000)
                      (div (of_Z 30000) (of_Z 60000)) "d" "n"] ∅)
     <> Loaded (sessions_value
                  [Session.mk (S754_infinity false) (of_Z 30000)
                     (div (of_Z 30000) (of_Z 60000)) "d" "n"])
  /\ mount (persist [Session.mk (S754_infinity false) (of_Z 30000)
                       (div (of_Z 30000) (of_Z 60000)) "d" "n"] ∅)
     <> Ready (mkWorld
          (apply_update initial
             (setSessions [Session.mk (S754_infinity false) (of_Z 30000)
                             (div (of_Z 30000) (of_Z 60000)) "d" "n"]))
          (persist [Session.mk (S754_infinity false) (of_Z 30000)
                      (div (of_Z 30000) (of_Z 60000)) "d" "n"] ∅)).
Proof.
  split; [vm_compute; reflexivity|]. split; [discriminate|].
  split; vm_compute; discriminate.
Qed.

(** ** Further properties of the timer controls *)

Import StringFacts FormatFacts RoundingFacts NumeralFacts NumberTextFacts JSONFacts.
Import ArithFacts TimerFacts StoreFacts.

Module ControlFacts.

Lemma count_if_cons {A : Type} (f : A -> bool) (x : A) (l : list A) :
  count_if f (x :: l) = ((if f x then 1 else 0) + count_if f l)%nat.
Proof. unfold count_if. cbn [List.filter]. destruct (f x); reflexivity. Qed.

(** Elapsed time after an event, while it stays below [2^53]. *)
Lemma step_time_exact (w : World) (e : event) :
  0 <= time (state w) ->
  time (state w) + 10 * Z.of_nat (if is_tick e then 1 else 0) < 2 ^ 53 ->
  time (state (step w e)) =
    match e with
    | Tick => time (state w) + 10
    | Reset => 0
    | Save _ => if 0 <? time (state w) then 0 else time (state w)
    | _ => time (state w)
    end.
Proof.
  intros H0 H1. rewrite step_time. destruct e; try reflexivity.
  cbn [is_tick] in H1. rewrite add_exact, to_Z_of_Z by lia. reflexivity.
Qed.

End ControlFacts.
Import ControlFacts.

(** X1.  While it stays below [2^53] milliseconds, elapsed time is always
    a non-negative multiple of ten milliseconds, and a run adds at most
    ten milliseconds per tick. *)
Theorem elapsed_time_quantum (w : World) (es : list event)
    (Hpos : 0 <= time (state w)) (Hten : time (state w) mod 10 = 0)
    (Hbound : time (state w) + 10 * Z.of_nat (count_if is_tick es) < 2 ^ 53) :
  0 <= time (state (run w es))
  /\ time (state (run w es)) mod 10 = 0
  /\ time (state (run w es)) <= time (state w) + 10 * Z.of_nat (count_if is_tick es).
Proof.
  revert w Hpos Hten Hbound. induction es as [|e es IH]; intros w Hpos Hten Hbound.
  - cbn [run fold_left]. unfold count_if. cbn [List.filter List.length Z.of_nat]. lia.
  - rewrite run_cons. rewrite count_if_cons in *. rewrite Nat2Z.inj_add in *.
    assert (H : 0 <= time (state (step w e))
                /\ time (state (step w e)) mod 10 = 0
                /\ time (state (step w e))
                   <= time (state w) + 10 * Z.of_nat (if is_tick e then 1 else 0)).
    { rewrite step_time_exact by lia. destruct e; cbn [is_tick];
        change (Z.of_nat 1) with 1; change (Z.of_nat 0) with 0;
        try (destruct (0 <? time (state w)));
        repeat split; try lia; try reflexivity; try exact Hten.
      all: replace (time (state w) + 10) with (time (state w) + 1 * 10) by lia.
      all: rewrite Z_mod_plus_full; exact Hten. }
    destruct H as (H1 & H2 & H3).
    destruct (IH (step w e) H1 H2 ltac:(lia)) as (I1 & I2 & I3).
    split; [exact I1|]. split; [exact I2 | lia].
Qed.

Lemma elapsed_time_quantum_witness :
  0 <= time (state (run (mkWorld initial ∅) [StartStop; Tick; Tick; StartStop; Reset]))
  /\ time (state (run (mkWorld initial ∅) [StartStop; Tick; Tick; StartStop; Reset])) mod 10 = 0
  /\ time (state (run (mkWorld initial ∅) [StartStop; Tick; Tick; StartStop; Reset]))
     <= time (state (mkWorld initial ∅))
        + 10 * Z.of_nat (count_if is_tick [StartStop; Tick; Tick; StartStop; Reset]).
Proof.
  apply (elapsed_time_quantum (mkWorld initial ∅));
    [cbn; lia | reflexivity | vm_compute; reflexivity].
Defined.

(** X3.  The controls compose: starting and stopping twice in a row
    changes nothing; a reset gives time zero, a stopped timer and empty
    notes, leaves the log, the dialog, the view and the storage as they
    are, and a second reset changes nothing more. *)
Theorem controls_compose (w : World) :
  step (step w StartStop) StartStop = w
  /\ state (step w Reset)
     = mkState 0 false (showSaveDialog (state w)) EmptyString (sessions (state w))
               (activeView (state w))
  /\ localStorage (step w Reset) = localStorage w
  /\ step (step w Reset) Reset = step w Reset.
Proof.
  destruct w as [[t [] d n l v] ls]; cbn; auto.
Qed.

(** X4.  A save with elapsed time appends exactly one session, with the
    notes as typed, the elapsed time and the clock's values; it closes
    the dialog, clears the notes and stops and zeroes the timer; and a
    second save right after it does nothing. *)
Theorem save_then_save (w : World) (c c' : clock) (Hpos : 0 < time (state w)) :
  state (step w (Save c))
  = mkState 0 false false EmptyString
      (sessions (state w)
       ++ [Session.mk (now c) (of_Z (time (state w)))
             (div (of_Z (time (state w))) (of_Z 60000)) (isoString c) (notes (state w))])
      (activeView (state w))
  /\ step (step w (Save c)) (Save c') = step w (Save c).
Proof.
  assert (E : state (step w (Save c))
    = mkState 0 false false EmptyString
        (sessions (state w)
         ++ [Session.mk (now c) (of_Z (time (state w)))
               (div (of_Z (time (state w))) (of_Z 60000)) (isoString c) (notes (state w))])
        (activeView (state w))).
  { unfold step. cbn [handler state]. rewrite handleSave_pos by exact Hpos. reflexivity. }
  split; [exact E|].
  assert (Hz : handleSave c' (state (step w (Save c))) = [])
    by (apply handleSave_zero; rewrite E; cbn; lia).
  unfold step at 1. cbn [handler]. rewrite Hz. cbn [sets_sessions existsb apply_updates fold_left].
  destruct (step w (Save c)); reflexivity.
Qed.

Lemma save_then_save_witness :
  state (step (mkWorld (mkState 65430 false true "Green tea" [] TimerView) ∅)
              (Save (mkClock (of_Z 1762158960000) "2026-11-03T08:36:00.000Z")))
  = mkState 0 false false EmptyString
      (sessions (state (mkWorld (mkState 65430 false true "Green tea" [] TimerView) ∅))
       ++ [Session.mk (now (mkClock (of_Z 1762158960000) "2026-11-03T08:36:00.000Z"))
             (of_Z (time (state (mkWorld (mkState 65430 false true "Green tea" [] TimerView) ∅))))
             (div (of_Z (time (state (mkWorld (mkState 65430 false true "Green tea" [] TimerView) ∅))))
                  (of_Z 60000))
             (isoString (mkClock (of_Z 1762158960000) "2026-11-03T08:36:00.000Z"))
             (notes (state (mkWorld (mkState 65430 false true "Green tea" [] TimerView) ∅)))])
      (activeView (state (mkWorld (mkState 65430 false true "Green tea" [] TimerView) ∅)))
  /\ step (step (mkWorld (mkState 65430 false true "Green tea" [] TimerView) ∅)
                (Save (mkClock (of_Z 1762158960000) "2026-11-03T08:36:00.000Z")))
          (Save (mkClock (of_Z 1762158960999) "2026-11-03T08:36:00.999Z"))
     = step (mkWorld (mkState 65430 false true "Green tea" [] TimerView) ∅)
            (Save (mkClock (of_Z 1762158960000) "2026-11-03T08:36:00.000Z")).
Proof.
  apply (save_then_save (mkWorld (mkState 65430 false true "Green tea" [] TimerView) ∅)).
  cbn. lia.
Defined.

(** ** Further properties of loading and persisting *)

Import StringFacts FormatFacts RoundingFacts NumeralFacts NumberTextFacts JSONFacts.
Import TimerFacts StoreFacts.

Module SyncFacts.

Lemma step_save_pos (w : World) (c : clock) :
  0 < time (state w) ->
  step w (Save c)
  = mkWorld
      (mkState 0 false false EmptyString (sessions (state w) ++ [newSession c (state w)])
               (activeView (state w)))
      (<[storage_key := stringify (sessions_value (sessions (state w) ++ [newSession c (state w)]))]>
         (localStorage w)).
Proof.
  intros Hpos. unfold step. cbn [handler]. rewrite handleSave_pos by exact Hpos.
  cbn [sets_sessions existsb orb apply_updates fold_left apply_update
       time isRunning showSaveDialog notes sessions activeView].
  f_equal. unfold persist. rewrite length_app. cbn [List.length].
  replace (0 <? List.length (sessions (state w)) + 1)%nat with true
    by (symmetry; apply Nat.ltb_lt; lia).
  reflexivity.
Qed.

Lemma step_in_sync (w : World) (e : event) : in_sync w -> in_sync (step w e).
Proof.
  intros H.
  destruct (step_sessions w e) as [Es | (c & -> & Hpos & Es)].
  - destruct (step_storage w e) as [El | [_ El]].
    + unfold in_sync. rewrite Es, El. exact H.
    + right. rewrite El. apply lookup_insert_eq.
  - right. rewrite step_save_pos by exact Hpos. cbn [state localStorage sessions].
    apply lookup_insert_eq.
Qed.

Lemma run_in_sync (es : list event) : forall w, in_sync w -> in_sync (run w es).
Proof.
  induction es as [|e es IH]; intros w H; [exact H|].
  rewrite run_cons. apply IH, step_in_sync, H.
Qed.

(** A mount that is followed holds the log that was stored, as it was
    parsed, or the empty log when no data was stored. *)
Lemma mount_ready (ls : gmap string string) (w : World) :
  mount ls = Ready w ->
  exists l, w = mkWorld (apply_update initial (setSessions l)) (persist l ls)
            /\ (load ls = NoData /\ l = [] \/ load ls = Loaded (sessions_value l)).
Proof.
  unfold mount. destruct (load ls) as [|v|]; try discriminate.
  - intros H. injection H as <-. exists []. auto.
  - destruct (sessions_of_value v) as [l|] eqn:E; [|discriminate].
    intros H. injection H as <-. exists l. split; [reflexivity|]. right.
    rewrite (sessions_of_value_exact v l E). reflexivity.
Qed.

Lemma mount_in_sync (ls : gmap string string) (w : World) :
  mount ls = Ready w -> in_sync w.
Proof.
  intros H. destruct (mount_ready ls w H) as (l & -> & _). unfold in_sync.
  destruct l as [|s l]; [left; reflexivity|]. right.
  cbn [state localStorage apply_update sessions]. apply lookup_insert_eq.
Qed.

Lemma mount_stored_log (L : list Session.t) (ls : gmap string string) :
  L <> [] -> forallb session_safe L = true ->
  ls !! storage_key = Some (stringify (sessions_value L)) ->
  mount ls = Ready (mkWorld (apply_update initial (setSessions L)) ls).
Proof.
  intros Hne Hsafe Hs.
  assert (Et : exists c t, stringify (sessions_value L) = String c t)
    by (eexists _, _; reflexivity).
  destruct Et as (c & t & Et).
  assert (E : load ls = Loaded (sessions_value L)).
  { rewrite (load_stored ls c t) by (rewrite <- Et; exact Hs).
    rewrite <- Et, parse_stringify by (apply wf_sessions_value, Hsafe). reflexivity. }
  unfold mount. rewrite E, sessions_of_value_sessions_value.
  change (persist (sessions initial) ls) with ls.
  rewrite persist_nonempty by exact Hne. rewrite insert_id by exact Hs. reflexivity.
Qed.

End SyncFacts.
Import SyncFacts.

(** X5.  With nothing stored under [teaSessions], or with the empty
    string stored there, the component mounts in its initial state and
    writes nothing. *)
Theorem mount_without_data (ls : gmap string string)
    (Hnone : ls !! storage_key = None \/ ls !! storage_key = Some EmptyString) :
  load ls = NoData /\ mount ls = Ready (mkWorld initial ls).
Proof.
  assert (E : load ls = NoData) by (apply load_absent, Hnone).
  split; [exact E|]. unfold mount. rewrite E. reflexivity.
Qed.

Lemma mount_without_data_witness :
  load {[ "theme" := "dark" ]} = NoData
  /\ mount {[ "theme" := "dark" ]} = Ready (mkWorld initial {[ "theme" := "dark" ]}).
Proof. apply mount_without_data. left. reflexivity. Defined.

(** X6.  When the component mounts with no stored data or with a stored
    log of sessions as [handleSave] builds them, the timer is at zero and
    stopped, the dialog is closed and the notes are empty; the log is the
    stored one as [JSON.parse] returns it, or empty without stored data;
    every key of the storage other than [teaSessions] is as before; when
    the log is empty the storage is not written at all, and otherwise the
    text under [teaSessions] is the log as [JSON.stringify] writes it. *)
Theorem mount_frame (ls : gmap string string) (w : World) (Hready : mount ls = Ready w) :
  state w = mkState 0 false false EmptyString (sessions (state w)) TimerView
  /\ (load ls = NoData /\ sessions (state w) = []
      \/ load ls = Loaded (sessions_value (sessions (state w))))
  /\ (forall k, k <> storage_key -> localStorage w !! k = ls !! k)
  /\ (sessions (state w) = [] -> localStorage w = ls)
  /\ in_sync w.
Proof.
  pose proof (mount_in_sync ls w Hready) as Hs.
  destruct (mount_ready ls w Hready) as (l & -> & Hl).
  cbn [state localStorage apply_update sessions].
  split; [reflexivity|]. split; [exact Hl|].
  split; [intros k Hk; apply persist_other, Hk|].
  split; [intros ->; reflexivity | exact Hs].
Qed.

Lemma mount_frame_witness :
  state (mkWorld (apply_update initial (setSessions [Session.mk (of_Z 1762158960000) (of_Z 65430) (div (of_Z 65430) (of_Z 60000))
     "2026-11-03T08:36:00.000Z" "Green tea"])) (<[storage_key :=
        stringify (sessions_value
          [Session.mk (of_Z 1762158960000) (of_Z 65430) (div (of_Z 65430) (of_Z 60000))
             "2026-11-03T08:36:00.000Z" "Green tea"])]>
      ({[ "theme" := "dark" ]} : gmap string string)))
  = mkState 0 false false EmptyString
      (sessions (state (mkWorld (apply_update initial (setSessions [Session.mk (of_Z 1762158960000) (of_Z 65430) (div (of_Z 65430) (of_Z 60000))
     "2026-11-03T08:36:00.000Z" "Green tea"])) (<[storage_key :=
        stringify (sessions_value
          [Session.mk (of_Z 1762158960000) (of_Z 65430) (div (of_Z 65430) (of_Z 60000))
             "2026-11-03T08:36:00.000Z" "Green tea"])]>
      ({[ "theme" := "dark" ]} : gmap string string)))))
      TimerView
  /\ (load (<[storage_key :=
        stringify (sessions_value
          [Session.mk (of_Z 1762158960000) (of_Z 65430) (div (of_Z 65430) (of_Z 60000))
             "2026-11-03T08:36:00.000Z" "Green tea"])]>
      ({[ "theme" := "dark" ]} : gmap string string)) = NoData
      /\ sessions (state (mkWorld (apply_update initial (setSessions [Session.mk (of_Z 1762158960000) (of_Z 65430) (div (of_Z 65430) (of_Z 60000))
     "2026-11-03T08:36:00.000Z" "Green tea"])) (<[storage_key :=
        stringify (sessions_value
          [Session.mk (of_Z 1762158960000) (of_Z 65430) (div (of_Z 65430) (of_Z 60000))
             "2026-11-03T08:36:00.000Z" "Green tea"])]>
      ({[ "theme" := "dark" ]} : gmap string string)))) = []
      \/ load (<[storage_key :=
        stringify (sessions_value
          [Session.mk (of_Z 1762158960000) (of_Z 65430) (div (of_Z 65430) (of_Z 60000))
             "2026-11-03T08:36:00.000Z" "Green tea"])]>
      ({[ "theme" := "dark" ]} : gmap string string))
         = Loaded (sessions_value
             (sessions (state (mkWorld (apply_update initial (setSessions [Session.mk (of_Z 1762158960000) (of_Z 65430) (div (of_Z 65430) (of_Z 60000))
     "2026-11-03T08:36:00.000Z" "Green tea"])) (<[storage_key :=
        stringify (sessions_value
          [Session.mk (of_Z 1762158960000) (of_Z 65430) (div (of_Z 65430) (of_Z 60000))
             "2026-11-03T08:36:00.000Z" "Green tea"])]>
      ({[ "theme" := "dark" ]} : gmap string string)))))))
  /\ (forall k, k <> storage_key ->
        localStorage (mkWorld (apply_update initial (setSessions [Session.mk (of_Z 1762158960000) (of_Z 65430) (div (of_Z 65430) (of_Z 60000))
     "2026-11-03T08:36:00.000Z" "Green tea"])) (<[storage_key :=
        stringify (sessions_value
          [Session.mk (of_Z 1762158960000) (of_Z 65430) (div (of_Z 65430) (of_Z 60000))
             "2026-11-03T08:36:00.000Z" "Green tea"])]>
      ({[ "theme" := "dark" ]} : gmap string string))) !! k
        = (<[storage_key :=
        stringify (sessions_value
          [Session.mk (of_Z 1762158960000) (of_Z 65430) (div (of_Z 65430) (of_Z 60000))
             "2026-11-03T08:36:00.000Z" "Green tea"])]>
      ({[ "theme" := "dark" ]} : gmap string string)) !! k)
  /\ (sessions (state (mkWorld (apply_update initial (setSessions [Session.mk (of_Z 1762158960000) (of_Z 65430) (div (of_Z 65430) (of_Z 60000))
     "2026-11-03T08:36:00.000Z" "Green tea"])) (<[storage_key :=
        stringify (sessions_value
          [Session.mk (of_Z 1762158960000) (of_Z 65430) (div (of_Z 65430) (of_Z 60000))
             "2026-11-03T08:36:00.000Z" "Green tea"])]>
      ({[ "theme" := "dark" ]} : gmap string string)))) = [] ->
        localStorage (mkWorld (apply_update initial (setSessions [Session.mk (of_Z 1762158960000) (of_Z 65430) (div (of_Z 65430) (of_Z 60000))
     "2026-11-03T08:36:00.000Z" "Green tea"])) (<[storage_key :=
        stringify (sessions_value
          [Session.mk (of_Z 1762158960000) (of_Z 65430) (div (of_Z 65430) (of_Z 60000))
             "2026-11-03T08:36:00.000Z" "Green tea"])]>
      ({[ "theme" := "dark" ]} : gmap string string)))
        = (<[storage_key :=
        stringify (sessions_value
          [Session.mk (of_Z 1762158960000) (of_Z 65430) (div (of_Z 65430) (of_Z 60000))
             "2026-11-03T08:36:00.000Z" "Green tea"])]>
      ({[ "theme" := "dark" ]} : gmap string string)))
  /\ in_sync (mkWorld (apply_update initial (setSessions [Session.mk (of_Z 1762158960000) (of_Z 65430) (div (of_Z 65430) (of_Z 60000))
     "2026-11-03T08:36:00.000Z" "Green tea"])) (<[storage_key :=
        stringify (sessions_value
          [Session.mk (of_Z 1762158960000) (of_Z 65430) (div (of_Z 65430) (of_Z 60000))
             "2026-11-03T08:36:00.000Z" "Green tea"])]>
      ({[ "theme" := "dark" ]} : gmap string string))).
Proof.
  apply (mount_frame (<[storage_key :=
        stringify (sessions_value
          [Session.mk (of_Z 1762158960000) (of_Z 65430) (div (of_Z 65430) (of_Z 60000))
             "2026-11-03T08:36:00.000Z" "Green tea"])]>
      ({[ "theme" := "dark" ]} : gmap string string))). vm_compute. reflexivity.
Defined.

(** X7.  After a mount and any events, the text under [teaSessions] is
    the log as [JSON.stringify] writes it whenever the log is not empty;
    and when the numbers of the log are finite and not [-0], mounting
    again from that storage gives the same log, a timer at zero, and
    leaves the storage as it is. *)
Theorem reload_after_run (ls : gmap string string) (w : World) (es : list event)
    (Hready : mount ls = Ready w)
    (Hnonempty : sessions (state (run w es)) <> []) :
  localStorage (run w es) !! storage_key
  = Some (stringify (sessions_value (sessions (state (run w es)))))
  /\ (forallb session_safe (sessions (state (run w es))) = true ->
      mount (localStorage (run w es))
      = Ready (mkWorld (apply_update initial (setSessions (sessions (state (run w es)))))
                       (localStorage (run w es)))).
Proof.
  pose proof (run_in_sync es w (mount_in_sync ls w Hready)) as [Hs | Hs];
    [contradiction|].
  split; [exact Hs|]. intros Hsafe. apply mount_stored_log; assumption.
Qed.

Lemma reload_after_run_witness :
  localStorage (run (mkWorld initial ∅) [StartStop; Tick; Tick; StartStop; OpenSaveDialog; EditNotes "Green tea";
        Save (mkClock (of_Z 1762158960000) "2026-11-03T08:36:00.000Z")]) !! storage_key
  = Some (stringify (sessions_value (sessions (state (run (mkWorld initial ∅) [StartStop; Tick; Tick; StartStop; OpenSaveDialog; EditNotes "Green tea";
        Save (mkClock (of_Z 1762158960000) "2026-11-03T08:36:00.000Z")])))))
  /\ mount (localStorage (run (mkWorld initial ∅) [StartStop; Tick; Tick; StartStop; OpenSaveDialog; EditNotes "Green tea";
        Save (mkClock (of_Z 1762158960000) "2026-11-03T08:36:00.000Z")]))
     = Ready (mkWorld
         (apply_update initial
            (setSessions (sessions (state (run (mkWorld initial ∅) [StartStop; Tick; Tick; StartStop; OpenSaveDialog; EditNotes "Green tea";
        Save (mkClock (of_Z 1762158960000) "2026-11-03T08:36:00.000Z")])))))
         (localStorage (run (mkWorld initial ∅) [StartStop; Tick; Tick; StartStop; OpenSaveDialog; EditNotes "Green tea";
        Save (mkClock (of_Z 1762158960000) "2026-11-03T08:36:00.000Z")]))).
Proof.
  destruct (reload_after_run ∅ (mkWorld initial ∅) [StartStop; Tick; Tick; StartStop; OpenSaveDialog; EditNotes "Green tea";
        Save (mkClock (of_Z 1762158960000) "2026-11-03T08:36:00.000Z")])
    as [H1 H2]; [reflexivity | discriminate |].
  split; [exact H1 | apply H2; reflexivity].
Defined.
(** ** Further properties of the export *)

Import StringFacts FormatFacts RoundingFacts NumeralFacts NumberTextFacts JSONFacts.
Import ExportFacts.

Module CountFacts.

Lemma count_char_append (c : ascii) (a b : string) :
  count_char c (a +:+ b) = (count_char c a + count_char c b)%nat.
Proof.
  induction a as [|d a IH]; cbn [count_char String.append]; [reflexivity|].
  rewrite IH. lia.
Qed.

Lemma count_char_absent (c : ascii) (s : string) :
  mem_char c s = false -> count_char c s = 0%nat.
Proof.
  induction s as [|d s IH]; cbn [mem_char count_char]; [reflexivity|].
  intros H. apply orb_false_elim in H. destruct H as [Hd Hs].
  rewrite Ascii.eqb_sym, Hd, (IH Hs). reflexivity.
Qed.

Lemma split_go_length (sep : ascii) (s : string) : forall cur,
  List.length (split_go sep s cur) = S (count_char sep s).
Proof.
  induction s as [|d s IH]; intros cur; cbn [split_go count_char]; [reflexivity|].
  destruct (Ascii.eqb d sep); cbn [List.length]; rewrite IH; reflexivity.
Qed.

(** [split] gives one piece more than there are separators. *)
Lemma split_length (sep : ascii) (s : string) :
  List.length (split sep s) = S (count_char sep s).
Proof. apply split_go_length. Qed.

Lemma count_char_join_newline (x : string) (l : list string) :
  count_char newline_char (join newline (x :: l))
  = (count_char newline_char x
     + list_sum (map (fun y => S (count_char newline_char y)) l))%nat.
Proof.
  revert x. induction l as [|y l IH]; intros x.
  - cbn [join map]. change (list_sum []) with 0%nat. lia.
  - rewrite join_cons2, !count_char_append, IH. cbn [map]. rewrite list_sum_cons.
    change (count_char newline_char newline) with 1%nat. lia.
Qed.

Lemma csv_line_breaks (toLocaleString : string -> string) (s : Session.t) :
  count_char newline_char (csv_line toLocaleString s) = line_breaks toLocaleString s.
Proof.
  unfold csv_line, quoted, line_breaks. rewrite !count_char_append.
  rewrite (count_char_absent _ (toFixed 2 _))
    by (apply clean_no_newline, clean_toFixed).
  change (count_char newline_char quote) with 0%nat.
  change (count_char newline_char ",") with 0%nat. lia.
Qed.

End CountFacts.
Import CountFacts.

Module RecordFacts.

Lemma count_char_present (c : ascii) (s : string) :
  count_char c s = 0%nat -> mem_char c s = false.
Proof.
  induction s as [|d s IH]; cbn [mem_char count_char]; [reflexivity|].
  intros H. rewrite (Ascii.eqb_sym c d). destruct (Ascii.eqb d c); [discriminate|].
  apply IH. exact H.
Qed.

Lemma count_char_snoc (c : ascii) (s : string) :
  count_char c (s +:+ String c EmptyString) = S (count_char c s).
Proof.
  induction s as [|d s IH]; cbn [String.append count_char].
  - rewrite Ascii.eqb_refl. reflexivity.
  - rewrite IH. lia.
Qed.

Lemma length_snoc (c : ascii) (s : string) :
  String.length (s +:+ String c EmptyString) = S (String.length s).
Proof. rewrite length_append. cbn [String.length]. lia. Qed.

(** The reader returns a field at least. *)
Lemma rfc_go_nonempty (s : string) : forall st cur, rfc_go st cur s <> Some [].
Proof.
  induction s as [|c r IH]; intros st cur; cbn [rfc_go].
  - destruct st; discriminate.
  - destruct st; destruct (Ascii.eqb c quote_char); try apply IH; try discriminate;
      destruct (Ascii.eqb c comma_char); try apply IH; try discriminate;
      destruct (rfc_go FieldStart EmptyString r); discriminate.
Qed.

(** A quoted field without a double quote, up to its closing quote. *)
Lemma rfc_go_quoted_plain (f rest : string) : forall cur,
  mem_char quote_char f = false ->
  rfc_go Quoted cur (f +:+ String quote_char rest) = rfc_go QuoteSeen (cur +:+ f) rest.
Proof.
  induction f as [|c f IH]; intros cur H; cbn [String.append rfc_go].
  - rewrite Ascii.eqb_refl, append_nil_r. reflexivity.
  - cbn [mem_char] in H. apply orb_false_elim in H. destruct H as [Hc Hf].
    rewrite Ascii.eqb_sym, Hc, (IH _ Hf), append_assoc. reflexivity.
Qed.

(** A quoted field with its double quotes written twice, up to its
    closing quote. *)
Lemma rfc_go_quoted_doubled (f rest : string) : forall cur,
  rfc_go Quoted cur (double_quotes f +:+ String quote_char rest)
  = rfc_go QuoteSeen (cur +:+ f) rest.
Proof.
  induction f as [|c f IH]; intros cur; cbn [double_quotes String.append rfc_go].
  - rewrite Ascii.eqb_refl, append_nil_r. reflexivity.
  - destruct (Ascii.eqb c quote_char) eqn:E.
    + apply Ascii.eqb_eq in E. subst c. cbn [String.append rfc_go].
      rewrite !Ascii.eqb_refl, IH. unfold quote. rewrite append_assoc. reflexivity.
    + cbn [String.append rfc_go]. rewrite E, IH, append_assoc. reflexivity.
Qed.

(** Inside a quoted field that is the last of its record, every double
    quote of the field takes two of the text, and one more closes it. *)
Lemma rfc_go_quoted_length (s : string) : forall st cur f,
  st = Quoted \/ st = QuoteSeen ->
  rfc_go st cur s = Some [f] ->
  (2 * String.length f + count_char quote_char s
   + (match st with Quoted => 1 | _ => 0 end)
   = 2 * String.length cur + 2 * String.length s)%nat.
Proof.
  induction s as [|c r IH]; intros st cur f Hst H.
  - destruct Hst as [-> | ->]; cbn [rfc_go] in H; [discriminate|].
    injection H as <-. cbn [String.length count_char]. lia.
  - destruct Hst as [-> | ->]; cbn [rfc_go] in H; cbn [String.length count_char].
    + destruct (Ascii.eqb c quote_char).
      * apply IH in H; [|auto]. lia.
      * apply IH in H; [|auto]. rewrite length_snoc in H. lia.
    + destruct (Ascii.eqb c quote_char).
      * apply IH in H; [|auto]. unfold quote in H. rewrite length_snoc in H. lia.
      * destruct (Ascii.eqb c comma_char); [|discriminate].
        destruct (rfc_go FieldStart EmptyString r) as [fs|] eqn:E; [|discriminate].
        cbn [option_map] in H. injection H as _ Hfs. subst fs.
        exfalso. exact (rfc_go_nonempty _ _ _ E).
Qed.

(** The first of the fields of a record, in double quotes and without a
    double quote in it. *)
Lemma rfc_fields_plain (f rest : string) :
  mem_char quote_char f = false ->
  rfc_go FieldStart EmptyString
    (String quote_char (f +:+ String quote_char (String comma_char rest)))
  = option_map (cons f) (rfc_go FieldStart EmptyString rest).
Proof.
  intros H. cbn [rfc_go]. rewrite Ascii.eqb_refl, (rfc_go_quoted_plain _ _ _ H).
  cbn [rfc_go String.append]. change (Ascii.eqb comma_char quote_char) with false.
  cbn iota. rewrite Ascii.eqb_refl. reflexivity.
Qed.

Lemma rfc_fields_doubled (f rest : string) :
  rfc_go FieldStart EmptyString
    (String quote_char (double_quotes f +:+ String quote_char (String comma_char rest)))
  = option_map (cons f) (rfc_go FieldStart EmptyString rest).
Proof.
  cbn [rfc_go]. rewrite Ascii.eqb_refl, rfc_go_quoted_doubled.
  cbn [rfc_go String.append]. change (Ascii.eqb comma_char quote_char) with false.
  cbn iota. rewrite Ascii.eqb_refl. reflexivity.
Qed.

(** What is written as RFC 4180 describes it reads back. *)
Lemma rfc_fields_record (a b c : string) :
  rfc_fields (rfc_record [a; b; c]) = Some [a; b; c].
Proof.
  unfold rfc_fields, rfc_record. cbn [map join]. unfold quote.
  rewrite !append_assoc. cbn [String.append].
  rewrite rfc_fields_doubled, rfc_fields_doubled.
  cbn [rfc_go]. rewrite Ascii.eqb_refl, rfc_go_quoted_doubled. reflexivity.
Qed.

(** The line of a session, read as RFC 4180 describes it, after its date
    and its minutes. *)
Lemma rfc_fields_csv_line (toLocaleString : string -> string) (s : Session.t) :
  mem_char quote_char (toLocaleString (Session.date s)) = false ->
  rfc_fields (csv_line toLocaleString s)
  = option_map (fun fs => toLocaleString (Session.date s)
                          :: toFixed 2 (Session.timeMinutes s) :: fs)
      (rfc_go Quoted EmptyString (Session.notes s +:+ String quote_char EmptyString)).
Proof.
  intros Hd. unfold rfc_fields. rewrite csv_line_chars.
  rewrite (rfc_fields_plain _ _ Hd).
  rewrite (rfc_fields_plain _ _ (clean_no_quote _ (clean_toFixed 2 _))).
  cbn [rfc_go]. rewrite Ascii.eqb_refl.
  destruct (rfc_go Quoted EmptyString (Session.notes s +:+ String quote_char EmptyString));
    reflexivity.
Qed.

End RecordFacts.
Import RecordFacts.

(** X8.  The export has one line for the header, one per session, and
    one more for every line break in the date or the notes of a session:
    a line break in a field stays as it is. *)
Theorem exportToCSV_line_count (toLocaleString : string -> string) (l : list Session.t) :
  List.length (split newline_char (csvContent toLocaleString l))
  = (1 + List.length l + list_sum (map (line_breaks toLocaleString) l))%nat.
Proof.
  rewrite split_length, csvContent_lines, count_char_join_newline.
  change (count_char newline_char "Date,Time (minutes),Notes") with 0%nat.
  rewrite map_map. cbn [Nat.add]. f_equal.
  induction l as [|s l IH]; [reflexivity|].
  cbn [map List.length]. rewrite !list_sum_cons, IH, csv_line_breaks. lia.
Qed.

(** X9.  Read as RFC 4180 describes it, with a double quote inside a
    quoted field written twice, the line the export writes for a session
    whose date text holds no double quote reads back as its three fields
    exactly when the notes hold no double quote: the export writes a
    double quote of the notes once, as it is, where the line that reads
    back writes it twice. *)
Theorem exportToCSV_quote_in_notes (toLocaleString : string -> string) (s : Session.t)
    (Hdate : mem_char quote_char (toLocaleString (Session.date s)) = false) :
  rfc_fields (rfc_record [toLocaleString (Session.date s);
                          toFixed 2 (Session.timeMinutes s);
                          Session.notes s])
  = Some [toLocaleString (Session.date s);
          toFixed 2 (Session.timeMinutes s);
          Session.notes s]
  /\ (rfc_fields (csv_line toLocaleString s)
      = Some [toLocaleString (Session.date s);
              toFixed 2 (Session.timeMinutes s);
              Session.notes s]
      <-> mem_char quote_char (Session.notes s) = false)
  /\ (csv_line toLocaleString s
      = rfc_record [toLocaleString (Session.date s);
                    toFixed 2 (Session.timeMinutes s);
                    Session.notes s]
      <-> mem_char quote_char (Session.notes s) = false).
Proof.
  split; [apply rfc_fields_record|].
  assert (R : rfc_fields (csv_line toLocaleString s)
      = Some [toLocaleString (Session.date s);
              toFixed 2 (Session.timeMinutes s);
              Session.notes s]
      <-> mem_char quote_char (Session.notes s) = false).
  { rewrite (rfc_fields_csv_line _ _ Hdate). split.
    - intros H.
      destruct (rfc_go Quoted EmptyString (Session.notes s +:+ String quote_char EmptyString))
        as [fs|] eqn:E; [|discriminate].
      cbn [option_map] in H. injection H as ->.
      apply rfc_go_quoted_length in E; [|auto].
      rewrite count_char_snoc, length_snoc in E. cbn [String.length] in E.
      apply count_char_present. lia.
    - intros H. rewrite (rfc_go_quoted_plain _ _ _ H). reflexivity. }
  split; [exact R|]. split.
  - intros E. apply R. rewrite E. apply rfc_fields_record.
  - intros H. unfold csv_line, rfc_record, quoted. cbn [map join].
    assert (D : forall x, mem_char quote_char x = false -> double_quotes x = x).
    { induction x as [|c x IH]; cbn [mem_char double_quotes]; [reflexivity|].
      intros Hx. apply orb_false_elim in Hx. destruct Hx as [Hc Hx].
      rewrite Ascii.eqb_sym, Hc, (IH Hx). reflexivity. }
    rewrite (D _ Hdate), (D _ H), (D _ (clean_no_quote _ (clean_toFixed 2 _))).
    rewrite !append_assoc. reflexivity.
Qed.

Lemma exportToCSV_quote_in_notes_witness :
  rfc_fields (rfc_record [(fun _ : string => "11/3/2026, 8:36:00 AM") (Session.date (Session.mk (of_Z 1762158960000) (of_Z 65430) (div (of_Z 65430) (of_Z 60000))
        "2026-11-03T08:36:00.000Z" (String quote_char "Oolong")));
                          toFixed 2 (Session.timeMinutes (Session.mk (of_Z 1762158960000) (of_Z 65430) (div (of_Z 65430) (of_Z 60000))
        "2026-11-03T08:36:00.000Z" (String quote_char "Oolong")));
                          Session.notes (Session.mk (of_Z 1762158960000) (of_Z 65430) (div (of_Z 65430) (of_Z 60000))
        "2026-11-03T08:36:00.000Z" (String quote_char "Oolong"))])
  = Some [(fun _ : string => "11/3/2026, 8:36:00 AM") (Session.date (Session.mk (of_Z 1762158960000) (of_Z 65430) (div (of_Z 65430) (of_Z 60000))
        "2026-11-03T08:36:00.000Z" (String quote_char "Oolong")));
          toFixed 2 (Session.timeMinutes (Session.mk (of_Z 1762158960000) (of_Z 65430) (div (of_Z 65430) (of_Z 60000))
        "2026-11-03T08:36:00.000Z" (String quote_char "Oolong")));
          Session.notes (Session.mk (of_Z 1762158960000) (of_Z 65430) (div (of_Z 65430) (of_Z 60000))
        "2026-11-03T08:36:00.000Z" (String quote_char "Oolong"))]
  /\ (rfc_fields (csv_line (fun _ : string => "11/3/2026, 8:36:00 AM") (Session.mk (of_Z 1762158960000) (of_Z 65430) (div (of_Z 65430) (of_Z 60000))
        "2026-11-03T08:36:00.000Z" (String quote_char "Oolong")))
      = Some [(fun _ : string => "11/3/2026, 8:36:00 AM") (Session.date (Session.mk (of_Z 1762158960000) (of_Z 65430) (div (of_Z 65430) (of_Z 60000))
        "2026-11-03T08:36:00.000Z" (String quote_char "Oolong")));
              toFixed 2 (Session.timeMinutes (Session.mk (of_Z 1762158960000) (of_Z 65430) (div (of_Z 65430) (of_Z 60000))
        "2026-11-03T08:36:00.000Z" (String quote_char "Oolong")));
              Session.notes (Session.mk (of_Z 1762158960000) (of_Z 65430) (div (of_Z 65430) (of_Z 60000))
        "2026-11-03T08:36:00.000Z" (String quote_char "Oolong"))]
      <-> mem_char quote_char (Session.notes (Session.mk (of_Z 1762158960000) (of_Z 65430) (div (of_Z 65430) (of_Z 60000))
        "2026-11-03T08:36:00.000Z" (String quote_char "Oolong"))) = false)
  /\ (csv_line (fun _ : string => "11/3/2026, 8:36:00 AM") (Session.mk (of_Z 1762158960000) (of_Z 65430) (div (of_Z 65430) (of_Z 60000))
        "2026-11-03T08:36:00.000Z" (String quote_char "Oolong"))
      = rfc_record [(fun _ : string => "11/3/2026, 8:36:00 AM") (Session.date (Session.mk (of_Z 1762158960000) (of_Z 65430) (div (of_Z 65430) (of_Z 60000))
        "2026-11-03T08:36:00.000Z" (String quote_char "Oolong")));
                    toFixed 2 (Session.timeMinutes (Session.mk (of_Z 1762158960000) (of_Z 65430) (div (of_Z 65430) (of_Z 60000))
        "2026-11-03T08:36:00.000Z" (String quote_char "Oolong")));
                    Session.notes (Session.mk (of_Z 1762158960000) (of_Z 65430) (div (of_Z 65430) (of_Z 60000))
        "2026-11-03T08:36:00.000Z" (String quote_char "Oolong"))]
      <-> mem_char quote_char (Session.notes (Session.mk (of_Z 1762158960000) (of_Z 65430) (div (of_Z 65430) (of_Z 60000))
        "2026-11-03T08:36:00.000Z" (String quote_char "Oolong"))) = false).
Proof.
  apply (exportToCSV_quote_in_notes (fun _ : string => "11/3/2026, 8:36:00 AM")). reflexivity.
Defined.

(** X10.  The name of the exported file is [tea-sessions-], the text of
    the date up to its first [T], and [.csv]. *)
Theorem downloadName_date (day rest : string) (Hday : mem_char "T" day = false) :
  downloadName (day +:+ String "T" rest) = "tea-sessions-" +:+ day +:+ ".csv".
Proof.
  unfold downloadName, split. rewrite split_go_sep by exact Hday. reflexivity.
Qed.

Lemma downloadName_date_witness :
  downloadName ("2026-11-03" +:+ String "T" "08:36:00.000Z")
  = "tea-sessions-" +:+ "2026-11-03" +:+ ".csv".
Proof. apply downloadName_date. reflexivity. Defined.

(** ** Further properties of the display *)

Import ArithFacts TimerFacts IntegerTextFacts.

Module DisplayFacts.

Lemma two_digits_value (n : Z) :
  0 <= n < 100 -> all_digits (two_digits n) = true /\ dec_value (two_digits n) 0 = n.
Proof.
  intros H. pose proof (Z.mod_pos_bound n 10 ltac:(lia)) as Hm.
  assert (Hq : 0 <= n / 10 < 10).
  { split; [apply Z.div_pos; lia | apply Z.div_lt_upper_bound; lia]. }
  pose proof (Z.div_mod n 10 ltac:(lia)) as Hdm.
  unfold two_digits. cbn [all_digits dec_value].
  rewrite !digit_char_is_digit, !digit_val_char by lia. split; [reflexivity | lia].
Qed.

(** What [n.toString().padStart(2, '0')] writes for [n >= 0]: digits whose
    value is [n]. *)
Lemma pad2_value (n : Z) :
  0 <= n ->
  all_digits (padStart 2 "0" (Z_to_dec n)) = true
  /\ dec_value (padStart 2 "0" (Z_to_dec n)) 0 = n.
Proof.
  intros H. destruct (Z_lt_le_dec n 100) as [Hs|Hl].
  - rewrite pad2_small by lia. apply two_digits_value. lia.
  - rewrite pad2_large by lia. split; [apply all_digits_Z_to_dec|].
    apply dec_value_Z_to_dec. lia.
Qed.

Lemma span_digits_all (ds : string) :
  all_digits ds = true -> span_digits ds = (ds, EmptyString).
Proof.
  intros H. rewrite <- (append_nil_r ds) at 1. apply span_digits_stop; [exact H | reflexivity].
Qed.

Lemma read_display_parts (a b c : string) :
  all_digits a = true -> all_digits b = true -> all_digits c = true ->
  read_display (a +:+ ":" +:+ b +:+ "." +:+ c)
  = Some (dec_value a 0 * 60000 + dec_value b 0 * 1000 + dec_value c 0 * 10).
Proof.
  intros Ha Hb Hc. unfold read_display.
  rewrite (span_digits_stop a _ Ha) by reflexivity.
  cbn [String.append]. rewrite Ascii.eqb_refl.
  rewrite (span_digits_stop b _ Hb) by reflexivity.
  rewrite Ascii.eqb_refl. change ("" +:+ c) with c.
  rewrite (span_digits_all c Hc). reflexivity.
Qed.

Lemma formatTime_value (ms : Z) :
  0 <= ms < 2 ^ 53 -> read_display (formatTime (of_Z ms)) = Some (ms - ms mod 10).
Proof.
  intros Hms. rewrite formatTime_parts by exact Hms.
  assert (Hs : 0 <= ms / 1000) by (apply Z.div_pos; lia).
  pose proof (Z.mod_pos_bound (ms / 1000) 60 ltac:(lia)) as Hsec.
  pose proof (Z.mod_pos_bound ms 1000 ltac:(lia)) as Hr.
  assert (Hm : 0 <= ms / 60000) by (apply Z.div_pos; lia).
  assert (Hc : 0 <= ms mod 1000 / 10 < 100).
  { split; [apply Z.div_pos; lia | apply Z.div_lt_upper_bound; lia]. }
  destruct (pad2_value _ Hm) as [A1 A2].
  destruct (two_digits_value ((ms / 1000) mod 60) ltac:(lia)) as [B1 B2].
  destruct (two_digits_value (ms mod 1000 / 10) Hc) as [C1 C2].
  rewrite read_display_parts by assumption. rewrite A2, B2, C2. f_equal.
  pose proof (Z.div_mod ms 1000 ltac:(lia)).
  pose proof (Z.div_mod (ms / 1000) 60 ltac:(lia)).
  pose proof (Z.div_mod (ms mod 1000) 10 ltac:(lia)).
  pose proof (Z.mod_pos_bound (ms mod 1000) 10 ltac:(lia)).
  assert (ms / 1000 / 60 = ms / 60000) by (rewrite Z.div_div by lia; reflexivity).
  assert ((ms mod 1000) mod 10 = ms mod 10).
  { apply (Z.mod_unique ms 10 (100 * (ms / 1000) + ms mod 1000 / 10)); lia. }
  lia.
Qed.

End DisplayFacts.
Import DisplayFacts.

(** X11.  For an integer number of milliseconds below [2^53], also past
    99 minutes, the display of [formatTime] shows the elapsed time to the
    hundredth of a second and nothing is lost beyond that: its minutes,
    seconds and hundredths read back as the time without what is below
    ten milliseconds; so two times with the same display are in the same
    hundredth. *)
Theorem formatTime_read_back (ms ms' : Z)
    (Hms : 0 <= ms < 2 ^ 53) (Hms' : 0 <= ms' < 2 ^ 53) :
  read_display (formatTime (of_Z ms)) = Some (ms - ms mod 10)
  /\ (formatTime (of_Z ms) = formatTime (of_Z ms') -> ms / 10 = ms' / 10).
Proof.
  split; [apply formatTime_value, Hms|]. intros E.
  pose proof (formatTime_value ms Hms) as H1.
  pose proof (formatTime_value ms' Hms') as H2.
  rewrite E, H2 in H1. injection H1 as H1.
  pose proof (Z.div_mod ms 10 ltac:(lia)). pose proof (Z.div_mod ms' 10 ltac:(lia)). lia.
Qed.

Lemma formatTime_read_back_witness :
  read_display (formatTime (of_Z 7265437)) = Some (7265437 - 7265437 mod 10)
  /\ 7265437 / 10 = 7265430 / 10.
Proof.
  destruct (formatTime_read_back 7265437 7265430) as [H1 H2];
    [split; [lia | reflexivity] | split; [lia | reflexivity] |].
  split; [exact H1 | apply H2; vm_compute; reflexivity].
Defined.


(** X12.  Where the minutes of a session are zero or a finite number
    below [10^21] in magnitude, [toFixed(2)] writes them as a sign,
    digits, a period and two digits, and these digits are the hundredths
    nearest to the number. *)
Theorem toFixed_nearest_hundredth (x : number) (Hrange : fixed_range x = true) :
  exists ip fp,
    toFixed 2 x = (if is_negative x then "-" else EmptyString) +:+ ip +:+ "." +:+ fp
    /\ all_digits ip = true /\ all_digits fp = true
    /\ (1 <= String.length ip)%nat /\ String.length fp = 2%nat
    /\ nearest_hundredth x (dec_value (ip +:+ fp) 0).
Proof.
  destruct x as [s|s| |s m e]; cbn [fixed_range] in Hrange; try discriminate.
  - destruct (fixed_digits_value 0 1 ltac:(lia)) as (ip & fp & E & Hi & Hf & Li & Lf & Hv).
    exists ip, fp. cbn [toFixed is_negative nearest_hundredth]. rewrite E. auto 10.
  - destruct (nearest_scaled_nearest m e) as [Hn Hnear].
    destruct (fixed_digits_value (nearest_scaled m e 2) 1 Hn)
      as (ip & fp & E & Hi & Hf & Li & Lf & Hv).
    exists ip, fp. cbn [toFixed is_negative nearest_hundredth].
    destruct (mag_ge m e (10 ^ 21)); [discriminate|]. rewrite E, Hv.
    destruct (ratio_of m e) as [a b]. cbn [fst snd] in Hnear. auto 10.
Qed.

Lemma toFixed_nearest_hundredth_witness :
  exists ip fp,
    toFixed 2 (div (of_Z 65430) (of_Z 60000))
    = (if is_negative (div (of_Z 65430) (of_Z 60000)) then "-" else EmptyString)
      +:+ ip +:+ "." +:+ fp
    /\ all_digits ip = true /\ all_digits fp = true
    /\ (1 <= String.length ip)%nat /\ String.length fp = 2%nat
    /\ nearest_hundredth (div (of_Z 65430) (of_Z 60000)) (dec_value (ip +:+ fp) 0).
Proof. apply toFixed_nearest_hundredth. vm_compute. reflexivity. Defined.

(** ** Whole minutes *)

Import ArithFacts IntegerTextFacts.

Module WholeFacts.
Import FixedFacts.

Lemma fixed_digits_hundred (k : Z) :
  0 < k -> fixed_digits (100 * k) 2 = Z_to_dec k +:+ ".00".
Proof.
  intros Hk. unfold fixed_digits.
  replace (100 * k) with (10 * (10 * k)) by lia.
  rewrite !Z_to_dec_times_10 by lia. rewrite append_assoc.
  change ("0" +:+ "0") with "00".
  pose proof (Z_to_dec_nonempty k) as L.
  replace (String.length (Z_to_dec k +:+ "00") <=? 2)%nat with false
    by (symmetry; apply Nat.leb_gt; rewrite length_append; cbn [String.length]; lia).
  rewrite length_append. cbn [String.length].
  replace (String.length (Z_to_dec k) + 2 - 2)%nat with (String.length (Z_to_dec k)) by lia.
  rewrite take_append, drop_append. reflexivity.
Qed.

Lemma toFixed_of_Z (k : Z) :
  0 < k < 2 ^ 53 -> toFixed 2 (of_Z k) = Z_to_dec k +:+ ".00".
Proof.
  intros Hk. destruct (of_Z_exact k Hk) as (M & E & -> & _ & HE & HM).
  pose proof (Z.log2_nonneg k) as L0.
  assert (L1 : Z.log2 k < 53) by (apply Z.log2_lt_pow2; lia).
  assert (Hb : 0 < 2 ^ (- E)) by (apply Z.pow_pos_nonneg; lia).
  cbn [toFixed]. change (EmptyString +:+ ?x) with x.
  assert (G : mag_ge M E (10 ^ 21) = false).
  { unfold mag_ge. destruct (0 <=? E) eqn:E0.
    - apply Z.leb_le in E0. assert (E = 0) as -> by lia.
      apply Z.leb_gt. rewrite HM. cbn. lia.
    - apply Z.leb_gt. rewrite HM. apply Z.mul_lt_mono_pos_r; [exact Hb|].
      change (2 ^ 53) with 9007199254740992 in Hk. lia. }
  rewrite G.
  assert (N : nearest_scaled M E 2 = 100 * k).
  { unfold nearest_scaled. change (10 ^ Z.of_nat 2) with 100. rewrite HM.
    destruct (0 <=? E) eqn:E0.
    - apply Z.leb_le in E0. assert (E = 0) as -> by lia. cbn. lia.
    - replace (2 ^ (- E + 1)) with (2 * 2 ^ (- E)) by (rewrite Z.pow_add_r by lia; lia).
      replace (2 * (k * 2 ^ (- E) * 100) + 2 ^ (- E))
        with ((200 * k + 1) * 2 ^ (- E)) by ring.
      rewrite Z.div_mul_cancel_r by lia.
      symmetry. apply (Z.div_unique _ 2 _ 1); lia. }
  rewrite N. apply fixed_digits_hundred. lia.
Qed.

Lemma div_whole (k : Z) :
  0 < k -> 60000 * k < 2 ^ 53 -> div (of_Z (60000 * k)) (of_Z 60000) = of_Z k.
Proof.
  intros Hk Hb.
  destruct (of_Z_exact (60000 * k) ltac:(lia)) as (M1 & E1 & -> & _ & HE1 & HM1).
  destruct (of_Z_exact k ltac:(lia)) as (M & E & -> & HB & HE & HM).
  change (of_Z 60000) with (S754_finite false 8246337208320000 (-37)).
  pose proof (Z.log2_nonneg k) as L0.
  assert (L1 : Z.log2 (60000 * k) < 53) by (apply Z.log2_lt_pow2; lia).
  assert (L2 : Z.log2 k <= Z.log2 (60000 * k)) by (apply Z.log2_le_mono; lia).
  unfold div. cbn [SFdiv xorb]. apply div_exact; [exact HB|].
  replace (0 <=? E1 - -37 - E) with true by (symmetry; apply Z.leb_le; lia).
  rewrite HM1, HM.
  replace (60000 * k * 2 ^ (- E1) * 2 ^ (E1 - -37 - E))
    with (60000 * k * (2 ^ (- E1) * 2 ^ (E1 - -37 - E))) by ring.
  rewrite <- Z.pow_add_r by lia.
  replace (- E1 + (E1 - -37 - E)) with (37 + - E) by lia.
  rewrite Z.pow_add_r by lia. change (2 ^ 37) with 137438953472. lia.
Qed.

End WholeFacts.
Import WholeFacts.

(** X13.  A session of whole minutes is saved with exactly that number
    as its minutes, and the list of recent sessions and the export show
    it with [.00]: for up to [2^53] milliseconds nothing is rounded. *)
Theorem whole_minutes (c : clock) (st : State) (k : Z)
    (Htime : time st = 60000 * k) (Hpos : 0 < k) (Hbound : 60000 * k < 2 ^ 53) :
  Session.timeMinutes (newSession c st) = of_Z k
  /\ toFixed 2 (Session.timeMinutes (newSession c st)) = Z_to_dec k +:+ ".00".
Proof.
  unfold newSession. cbn [Session.timeMinutes]. rewrite Htime.
  rewrite div_whole by assumption. split; [reflexivity|].
  apply toFixed_of_Z. lia.
Qed.

Lemma whole_minutes_witness :
  Session.timeMinutes
    (newSession (mkClock (of_Z 1762158960000) "2026-11-03T08:36:00.000Z")
       (mkState 180000 false true "Sencha" [] TimerView)) = of_Z 3
  /\ toFixed 2 (Session.timeMinutes
       (newSession (mkClock (of_Z 1762158960000) "2026-11-03T08:36:00.000Z")
          (mkState 180000 false true "Sencha" [] TimerView)))
     = Z_to_dec 3 +:+ ".00".
Proof.
  apply (whole_minutes _ _ 3); [reflexivity | lia | reflexivity].
Defined.

(** ** The numbers of a saved session, and reloading *)

Import ArithFacts DivFacts TimerFacts StoreFacts SyncFacts.


Module ReloadFacts.
Import WholeFacts.

(** The session of a save has numbers that [JSON.stringify] writes
    without loss. *)
Lemma newSession_safe (c : clock) (st : State) :
  json_safe (now c) = true -> 0 < time st < 2 ^ 53 ->
  session_safe (newSession c st) = true.
Proof.
  intros Hnow Ht. unfold session_safe, newSession.
  cbn [Session.id Session.time Session.timeMinutes]. rewrite Hnow.
  destruct (of_Z_exact (time st) Ht) as (M & E & -> & HB & HE & HM).
  pose proof (Z.log2_nonneg (time st)) as L0.
  assert (L1 : Z.log2 (time st) < 53) by (apply Z.log2_lt_pow2; lia).
  assert (LM : Z.log2 (Zpos M) = 52).
  { rewrite HM, Z.log2_mul_pow2 by lia. lia. }
  change (of_Z 60000) with (S754_finite false 8246337208320000 (-37)).
  destruct (div_normal false false M 8246337208320000 E (-37) LM eq_refl ltac:(lia))
    as (M' & E' & -> & HB').
  cbn [json_safe is_number valid_binary andb]. rewrite HB, HB'. reflexivity.
Qed.

Lemma run_safe (es : list event) : forall (w : World) (T : Z),
  0 <= time (state w) <= T -> T + 10 * Z.of_nat (List.length es) < 2 ^ 53 ->
  forallb clock_ok es = true ->
  forallb session_safe (sessions (state w)) = true ->
  forallb session_safe (sessions (state (run w es))) = true.
Proof.
  induction es as [|e es IH]; intros w T Ht Hlen Hc Hs; [exact Hs|].
  cbn [forallb] in Hc. apply andb_prop in Hc. destruct Hc as [He Hes].
  cbn [List.length] in Hlen. rewrite Nat2Z.inj_succ in Hlen.
  rewrite run_cons. apply (IH (step w e) (T + 10)); [| lia | exact Hes |].
  - pose proof (step_time_bound w e ltac:(lia) ltac:(lia)) as [Hb _]. lia.
  - destruct (step_sessions w e) as [-> | (c & -> & Hpos & ->)]; [exact Hs|].
    rewrite forallb_app, Hs. cbn [forallb andb]. rewrite andb_true_r.
    apply newSession_safe; [exact He | lia].
Qed.

End ReloadFacts.
Import ReloadFacts.

(** X14.  A reload loses nothing of the log.  After a mount whose log has
    numbers that are finite and not [-0], and any events whose saves read
    such a number from the clock, every session of the log has such
    numbers, and mounting again from the storage as it then is gives the
    same log, a timer at zero, and leaves the storage as it is.  (The
    events are fewer than [2^53 / 10], so that elapsed time stays an
    exact number.) *)
Theorem log_survives_reload (ls : gmap string string) (w : World) (es : list event)
    (Hready : mount ls = Ready w)
    (Hsafe : forallb session_safe (sessions (state w)) = true)
    (Hclock : forallb clock_ok es = true)
    (Hlen : 10 * Z.of_nat (List.length es) < 2 ^ 53) :
  forallb session_safe (sessions (state (run w es))) = true
  /\ mount (localStorage (run w es))
     = Ready (mkWorld (apply_update initial (setSessions (sessions (state (run w es)))))
                      (localStorage (run w es))).
Proof.
  assert (S : forallb session_safe (sessions (state (run w es))) = true).
  { destruct (mount_ready ls w Hready) as (l & -> & _).
    apply (run_safe es _ 0); [cbn; lia | lia | exact Hclock | exact Hsafe]. }
  split; [exact S|].
  destruct (sessions (state (run w es))) as [|s l] eqn:E.
  - rewrite (run_storage_empty es w E).
    destruct (run_sessions es w) as (added & Ea). rewrite E in Ea.
    symmetry in Ea. apply app_eq_nil in Ea. destruct Ea as [Ew _].
    destruct (mount_ready ls w Hready) as (l0 & -> & _).
    cbn [state apply_update sessions] in Ew. subst l0.
    cbn [localStorage]. change (persist [] ls) with ls in *. exact Hready.
  - rewrite <- E in *.
    pose proof (run_in_sync es w (mount_in_sync ls w Hready)) as [Hs | Hs];
      [rewrite E in Hs; discriminate|].
    apply mount_stored_log; [rewrite E; discriminate | exact S | exact Hs].
Qed.

Lemma log_survives_reload_witness :
  forallb session_safe (sessions (state
    (run (mkWorld initial ∅)
       [StartStop; Tick; Tick; Tick; StartStop; OpenSaveDialog; EditNotes "Sencha";
        Save (mkClock (of_Z 1762158960000) "2026-11-03T08:36:00.000Z")]))) = true
  /\ mount (localStorage
       (run (mkWorld initial ∅)
          [StartStop; Tick; Tick; Tick; StartStop; OpenSaveDialog; EditNotes "Sencha";
           Save (mkClock (of_Z 1762158960000) "2026-11-03T08:36:00.000Z")]))
     = Ready (mkWorld
         (apply_update initial (setSessions (sessions (state
            (run (mkWorld initial ∅)
               [StartStop; Tick; Tick; Tick; StartStop; OpenSaveDialog; EditNotes "Sencha";
                Save (mkClock (of_Z 1762158960000) "2026-11-03T08:36:00.000Z")])))))
         (localStorage
            (run (mkWorld initial ∅)
               [StartStop; Tick; Tick; Tick; StartStop; OpenSaveDialog; EditNotes "Sencha";
                Save (mkClock (of_Z 1762158960000) "2026-11-03T08:36:00.000Z")]))).
Proof.
  apply (log_survives_reload ∅ (mkWorld initial ∅)); reflexivity.
Defined.

(** ** The intervals of the timer effect *)

Import ArithFacts TimerFacts.

Module EffectFacts.

Lemma clear_current_ok (running : bool) (others : gset nat) (t : Timers) :
  timers_ok running others t -> timers_ok false others (clear_current t).
Proof.
  intros (H1 & H2 & H3 & H4 & H5). unfold clear_current.
  destruct (intervalRef t) as [id|] eqn:E.
  - destruct (H4 id eq_refl) as [Hid Hno].
    destruct (id =? 0)%nat eqn:E0; [apply Nat.eqb_eq in E0; lia|].
    unfold timers_ok, clearInterval. cbn [intervalRef live next]. rewrite E.
    split; [exact H1|].
    split; [intros i Hi; apply H2; apply elem_of_difference in Hi; tauto|].
    split; [exact H3|]. split; [exact H4|].
    assert (D : forall X : gset nat, X = others \/ X = {[id]} ∪ others ->
                X ∖ {[id]} = others).
    { intros X HX. apply set_eq. intros x.
      rewrite elem_of_difference, elem_of_singleton. split.
      - intros [Hx Hne]. destruct HX as [-> | ->]; [exact Hx|].
        apply elem_of_union in Hx. destruct Hx as [Hx|Hx]; [|exact Hx].
        apply elem_of_singleton in Hx. contradiction.
      - intros Hx. split; [|intros ->; contradiction].
        destruct HX as [-> | ->]; [exact Hx | apply elem_of_union; auto]. }
    apply D. destruct running; [|auto].
    destruct H5 as (id' & E' & ->). assert (id' = id) as -> by congruence. auto.
  - unfold timers_ok. rewrite E. split; [exact H1|]. split; [exact H2|].
    split; [exact H3|]. split; [intros id Hid; discriminate|].
    destruct running; [|exact H5]. destruct H5 as (id' & E' & _). discriminate.
Qed.

Lemma timer_effect_ok (running : bool) (others : gset nat) (t : Timers) :
  timers_ok false others t -> timers_ok running others (timer_effect running t).
Proof.
  intros H. destruct running; [|apply (clear_current_ok false), H].
  destruct H as (H1 & H2 & H3 & H4 & H5).
  unfold timers_ok, timer_effect, setInterval. cbn [intervalRef live next].
  split; [lia|]. split.
  { intros i Hi. apply elem_of_union in Hi. destruct Hi as [Hi|Hi].
    - apply elem_of_singleton in Hi. lia.
    - specialize (H2 i Hi). lia. }
  split; [intros i Hi; specialize (H3 i Hi); lia|].
  split.
  { intros i Hi. injection Hi as <-. split; [lia|].
    intros Hin. specialize (H3 _ Hin). lia. }
  exists (next t). rewrite H5. auto.
Qed.

Lemma rerender_ok (before after : bool) (others : gset nat) (t : Timers) :
  timers_ok before others t -> timers_ok after others (rerender before after t).
Proof.
  intros H. unfold rerender. destruct (Bool.eqb before after) eqn:E.
  - apply Bool.eqb_prop in E. subst after. exact H.
  - apply timer_effect_ok. unfold timer_cleanup. apply (clear_current_ok before), H.
Qed.

Lemma run_timers_ok (es : list event) : forall (w : World) (others : gset nat) (t : Timers),
  timers_ok (isRunning (state w)) others t ->
  timers_ok (isRunning (state (run w es))) others (run_timers w es t).
Proof.
  induction es as [|e es IH]; intros w others t H; [exact H|].
  rewrite run_cons. cbn [run_timers]. apply IH. unfold step_timers.
  apply rerender_ok, H.
Qed.

(** An interval of the component is set exactly while the timer runs. *)
Lemma ticking_running (running : bool) (others : gset nat) (t : Timers) :
  timers_ok running others t -> ticking others t = running.
Proof.
  intros (_ & _ & _ & H4 & H5). unfold ticking. destruct running.
  - destruct H5 as (id & E & L). destruct (H4 id E) as [_ Hno].
    apply negb_true_iff, bool_decide_eq_false. intros Heq.
    assert (Hin : id ∈ live t ∖ others).
    { apply elem_of_difference. split; [|exact Hno].
      rewrite L. apply elem_of_union. left. apply elem_of_singleton. reflexivity. }
    rewrite Heq in Hin. apply elem_of_empty in Hin. exact Hin.
  - apply negb_false_iff, bool_decide_eq_true. rewrite H5. apply set_eq. intros x.
    rewrite elem_of_difference. split; [tauto|].
    intros Hx. apply elem_of_empty in Hx. destruct Hx.
Qed.

(** While the timer is stopped and is not started, no tick occurs. *)
Lemma occurs_stopped (es : list event) : forall (w : World) (others : gset nat) (t : Timers),
  timers_ok (isRunning (state w)) others t ->
  occurs others w t es = true ->
  isRunning (state w) = false ->
  forallb (fun e => negb (is_start_stop e)) es = true ->
  count_if is_tick es = 0%nat /\ isRunning (state (run w es)) = false.
Proof.
  induction es as [|e es IH]; intros w others t Hok Hocc Hstop Hno; [auto|].
  cbn [occurs] in Hocc. apply andb_prop in Hocc. destruct Hocc as [He Hes].
  cbn [forallb] in Hno. apply andb_prop in Hno. destruct Hno as [Hn Hns].
  rewrite (ticking_running _ _ _ Hok), Hstop in He.
  assert (Hr : isRunning (state (step w e)) = false).
  { rewrite step_isRunning. destruct e; try exact Hstop; try discriminate Hn;
      try reflexivity.
    destruct (0 <? time (state w)); [reflexivity | exact Hstop]. }
  assert (Hok' : timers_ok (isRunning (state (step w e))) others (step_timers w e t))
    by (apply rerender_ok, Hok).
  destruct (IH (step w e) others _ Hok' Hes Hr Hns) as [I1 I2].
  rewrite run_cons. split; [|exact I2].
  unfold count_if in *. cbn [List.filter]. destruct (is_tick e); [discriminate He | exact I1].
Qed.

(** Without a reset and without a save, and below [2^53], each tick adds
    ten milliseconds and no other event changes elapsed time. *)
Lemma run_keeps_time (es : list event) : forall w,
  forallb keeps_time es = true ->
  0 <= time (state w) ->
  time (state w) + 10 * Z.of_nat (count_if is_tick es) < 2 ^ 53 ->
  time (state (run w es)) = time (state w) + 10 * Z.of_nat (count_if is_tick es).
Proof.
  induction es as [|e es IH]; intros w Hkeep H0 H1.
  - unfold count_if. cbn [run fold_left List.filter List.length Z.of_nat]. lia.
  - cbn [forallb] in Hkeep. apply andb_prop in Hkeep. destruct Hkeep as [He Hes].
    assert (Hc : count_if is_tick (e :: es)
                 = ((if is_tick e then 1 else 0) + count_if is_tick es)%nat).
    { unfold count_if. cbn [List.filter]. destruct (is_tick e); reflexivity. }
    rewrite Hc, Nat2Z.inj_add in *. rewrite run_cons.
    assert (Ht : time (state (step w e))
                 = time (state w) + 10 * Z.of_nat (if is_tick e then 1 else 0)).
    { rewrite step_time. destruct e; try discriminate He; cbn [is_tick];
        change (Z.of_nat 1) with 1; change (Z.of_nat 0) with 0; try lia.
      cbn [is_tick] in H1. change (Z.of_nat 1) with 1 in H1.
      rewrite add_exact, to_Z_of_Z by lia. lia. }
    rewrite IH by (try exact Hes; lia). lia.
Qed.

End EffectFacts.
Import EffectFacts.

(** X15.  The component never has two intervals at once.  From a mount
    with a stopped timer, after any events: while the timer runs, exactly
    one interval of the component is set, the one whose handle is in
    [intervalRef]; while it is stopped, none is; the other intervals of
    the page are as they were; and after the cleanup of an unmount none
    of the component is left. *)
Theorem timer_intervals (w : World) (es : list event) (t0 : Timers)
    (Hstopped : isRunning (state w) = false)
    (Hnull : intervalRef t0 = None)
    (Hnext : (1 <= next t0)%nat)
    (Hfresh : forall id, id ∈ live t0 -> (id < next t0)%nat) :
  (if isRunning (state (run w es))
   then exists id,
     intervalRef (run_timers w es (timer_effect false t0)) = Some id
     /\ (id ∉ live t0)
     /\ live (run_timers w es (timer_effect false t0)) = {[id]} ∪ live t0
   else live (run_timers w es (timer_effect false t0)) = live t0)
  /\ live (timer_cleanup (run_timers w es (timer_effect false t0))) = live t0.
Proof.
  assert (H0 : timers_ok false (live t0) t0).
  { unfold timers_ok. rewrite Hnull. repeat split; try assumption; discriminate. }
  pose proof (run_timers_ok es w (live t0) (timer_effect false t0)) as H.
  rewrite Hstopped in H. specialize (H (timer_effect_ok false _ _ H0)).
  split.
  - destruct H as (_ & _ & _ & H4 & H5). destruct (isRunning (state (run w es))).
    + destruct H5 as (id & E & L). exists id. destruct (H4 id E) as [_ Hno]. auto.
    + exact H5.
  - apply (clear_current_ok _ _ _ H).
Qed.

Lemma timer_intervals_witness :
  (if isRunning (state (run (mkWorld initial ∅) [StartStop; Tick; StartStop; StartStop]))
   then exists id,
     intervalRef (run_timers (mkWorld initial ∅) [StartStop; Tick; StartStop; StartStop]
                    (timer_effect false (mkTimers None ∅ 1))) = Some id
     /\ (id ∉ live (mkTimers None ∅ 1))
     /\ live (run_timers (mkWorld initial ∅) [StartStop; Tick; StartStop; StartStop]
                (timer_effect false (mkTimers None ∅ 1)))
        = {[id]} ∪ live (mkTimers None ∅ 1)
   else live (run_timers (mkWorld initial ∅) [StartStop; Tick; StartStop; StartStop]
                (timer_effect false (mkTimers None ∅ 1)))
        = live (mkTimers None ∅ 1))
  /\ live (timer_cleanup
             (run_timers (mkWorld initial ∅) [StartStop; Tick; StartStop; StartStop]
                (timer_effect false (mkTimers None ∅ 1))))
     = live (mkTimers None ∅ 1).
Proof.
  apply (timer_intervals (mkWorld initial ∅)); [reflexivity | reflexivity | cbn; lia |].
  intros id Hid. cbn [live] in Hid. apply elem_of_empty in Hid. destruct Hid.
Defined.

(** X2.  Over events that can occur on the page, where a tick is the
    callback of an interval the component has set, without a reset and
    without a save, and while it stays below [2^53] milliseconds: elapsed
    time never decreases, each tick adds exactly ten milliseconds and no
    other event changes it; and while the timer is stopped and is not
    started, no tick occurs, so the time does not change at all. *)
Theorem elapsed_time_monotone (w : World) (es : list event)
    (others : gset nat) (t : Timers)
    (Hkeep : forallb keeps_time es = true)
    (Hpos : 0 <= time (state w))
    (Hbound : time (state w) + 10 * Z.of_nat (count_if is_tick es) < 2 ^ 53)
    (Htimers : timers_ok (isRunning (state w)) others t)
    (Hoccurs : occurs others w t es = true) :
  time (state w) <= time (state (run w es))
  /\ time (state (run w es)) = time (state w) + 10 * Z.of_nat (count_if is_tick es)
  /\ (isRunning (state w) = false ->
      forallb (fun e => negb (is_start_stop e)) es = true ->
      count_if is_tick es = 0%nat
      /\ time (state (run w es)) = time (state w)
      /\ isRunning (state (run w es)) = false).
Proof.
  pose proof (run_keeps_time es w Hkeep Hpos Hbound) as E.
  split; [lia|]. split; [exact E|].
  intros Hstop Hno.
  destruct (occurs_stopped es w others t Htimers Hoccurs Hstop Hno) as [H1 H2].
  split; [exact H1|]. split; [|exact H2]. rewrite E, H1. cbn. lia.
Qed.

Lemma elapsed_time_monotone_witness :
  (time (state (mkWorld initial ∅))
   <= time (state (run (mkWorld initial ∅) [StartStop; Tick; OpenSaveDialog; Tick; StartStop]))
   /\ time (state (run (mkWorld initial ∅) [StartStop; Tick; OpenSaveDialog; Tick; StartStop]))
      = time (state (mkWorld initial ∅))
        + 10 * Z.of_nat (count_if is_tick [StartStop; Tick; OpenSaveDialog; Tick; StartStop]))
  /\ (count_if is_tick [OpenSaveDialog; EditNotes "Green tea"; Navigate TrendsView] = 0%nat
      /\ time (state (run (mkWorld (mkState 65430 false false EmptyString [] TimerView) ∅)
                          [OpenSaveDialog; EditNotes "Green tea"; Navigate TrendsView]))
         = time (state (mkWorld (mkState 65430 false false EmptyString [] TimerView) ∅))
      /\ isRunning (state (run (mkWorld (mkState 65430 false false EmptyString [] TimerView) ∅)
                               [OpenSaveDialog; EditNotes "Green tea"; Navigate TrendsView]))
         = false).
Proof.
  assert (H0 : timers_ok false ∅ (timer_effect false (mkTimers None ∅ 1))).
  { unfold timers_ok. cbn. repeat split; try lia; try discriminate;
      intros id Hid; apply elem_of_empty in Hid; destruct Hid. }
  split.
  - pose proof (elapsed_time_monotone (mkWorld initial ∅)
                  [StartStop; Tick; OpenSaveDialog; Tick; StartStop] ∅
                  (timer_effect false (mkTimers None ∅ 1))
                  eq_refl ltac:(cbn; lia) ltac:(vm_compute; reflexivity) H0
                  ltac:(vm_compute; reflexivity)) as (H1 & H2 & _).
    split; [exact H1 | exact H2].
  - apply (elapsed_time_monotone
             (mkWorld (mkState 65430 false false EmptyString [] TimerView) ∅)
             [OpenSaveDialog; EditNotes "Green tea"; Navigate TrendsView] ∅
             (timer_effect false (mkTimers None ∅ 1))
             eq_refl ltac:(cbn; lia) ltac:(vm_compute; reflexivity) H0
             ltac:(vm_compute; reflexivity)); reflexivity.
Defined.
(** ** The statistics of a log that is not empty *)

Module OrderFacts.

Lemma ltb_key (x y : number) :
  is_nan x = false -> is_nan y = false ->
  (ltb x y = true <-> order_key_lt (order_key x) (order_key y)).
Proof.
  intros Hx Hy. unfold ltb, SFltb, order_key_lt.
  destruct x as [sx|sx| |sx mx ex]; try discriminate;
    destruct y as [sy|sy| |sy my ey]; try discriminate;
    try destruct sx; try destruct sy; cbn [SFcompare order_key fst snd];
    try change (Pos.compare_cont Eq mx my) with (Pos.compare mx my);
    try destruct (Z.compare_spec ex ey) as [He|He|He];
    try destruct (Pos.compare_spec mx my) as [Hm|Hm|Hm];
    cbn [CompOpp]; split; intros H; try discriminate H; try reflexivity; lia.
Qed.

Lemma ltb_trans (x y z : number) :
  is_nan x = false -> is_nan y = false -> is_nan z = false ->
  ltb x y = true -> ltb y z = true -> ltb x z = true.
Proof.
  intros Hx Hy Hz. rewrite !ltb_key by assumption. unfold order_key_lt.
  destruct (order_key x) as [[a b] c], (order_key y) as [[a' b'] c'], (order_key z) as [[a'' b''] c''].
  cbn [fst snd]. lia.
Qed.

Lemma ltb_irrefl (x : number) : ltb x x = false.
Proof.
  destruct (is_nan x) eqn:N; [destruct x; try discriminate; reflexivity|].
  destruct (ltb x x) eqn:E; [|reflexivity].
  apply ltb_key in E; [|exact N|exact N]. unfold order_key_lt in E. lia.
Qed.

(** Nothing below [x] is below what [x] is below. *)
Lemma not_below_trans (x y z : number) :
  is_nan x = false -> is_nan y = false -> is_nan z = false ->
  ltb y z = false -> ltb x z = true -> ltb y x = false.
Proof.
  intros Hx Hy Hz H1 H2. destruct (ltb y x) eqn:E; [|reflexivity].
  rewrite (ltb_trans y x z) in H1 by assumption. discriminate.
Qed.

Lemma not_above_trans (x y z : number) :
  is_nan x = false -> is_nan y = false -> is_nan z = false ->
  ltb z y = false -> ltb z x = true -> ltb x y = false.
Proof.
  intros Hx Hy Hz H1 H2. destruct (ltb x y) eqn:E; [|reflexivity].
  rewrite (ltb_trans z x y) in H1 by assumption. discriminate.
Qed.

Lemma ltb_zero_r (y : number) (a b : bool) : ltb y (S754_zero a) = ltb y (S754_zero b).
Proof. destruct y as [?|?| |? ? ?]; reflexivity. Qed.

Lemma ltb_zero_l (y : number) (a b : bool) : ltb (S754_zero a) y = ltb (S754_zero b) y.
Proof. destruct y as [?|?| |? ? ?]; reflexivity. Qed.

Lemma min_from_spec (r : list number) : forall (lowest : number) (seen : list number),
  forallb (fun x => negb (is_nan x)) r = true ->
  In lowest seen ->
  (forall y, In y seen -> is_nan y = false /\ ltb y lowest = false) ->
  In (min_from lowest r) (seen ++ r)
  /\ forall y, In y (seen ++ r) -> ltb y (min_from lowest r) = false.
Proof.
  induction r as [|x r IH]; intros lowest seen Hr Hin Hlow.
  - rewrite app_nil_r. cbn [min_from]. split; [exact Hin|]. intros y Hy. apply Hlow, Hy.
  - cbn [forallb] in Hr. apply andb_prop in Hr. destruct Hr as [Hx Hr].
    apply negb_true_iff in Hx.
    assert (Nl : is_nan lowest = false) by apply (Hlow lowest Hin).
    replace (seen ++ x :: r) with ((seen ++ [x]) ++ r) by (rewrite <- app_assoc; reflexivity).
    assert (E : min_from lowest (x :: r)
                = min_from (let lowest1 := if is_zero true x && is_zero false lowest
                                           then x else lowest in
                            if ltb x lowest1 then x else lowest1) r).
    { destruct x; try discriminate; reflexivity. }
    rewrite E. cbv zeta.
    set (lowest1 := if is_zero true x && is_zero false lowest then x else lowest).
    assert (H1 : In lowest1 (seen ++ [x])
                 /\ is_nan lowest1 = false
                 /\ forall y, In y seen -> ltb y lowest1 = false).
    { subst lowest1. destruct (is_zero true x && is_zero false lowest) eqn:Z.
      - split; [apply in_or_app; right; left; reflexivity|]. split; [exact Hx|].
        intros y Hy. apply andb_prop in Z. destruct Z as [Z1 Z2].
        destruct x as [[]| | |]; try discriminate.
        destruct lowest as [[]| | |]; try discriminate.
        rewrite (ltb_zero_r y true false). apply Hlow, Hy.
      - split; [apply in_or_app; left; exact Hin|]. split; [exact Nl|].
        intros y Hy. apply Hlow, Hy. }
    destruct H1 as (I1 & N1 & L1).
    apply IH; [exact Hr | |].
    + destruct (ltb x lowest1); [apply in_or_app; right; left; reflexivity | exact I1].
    + intros y Hy. apply in_app_or in Hy.
      assert (Ny : is_nan y = false).
      { destruct Hy as [Hy | [<- | []]]; [apply Hlow, Hy | exact Hx]. }
      split; [exact Ny|].
      destruct (ltb x lowest1) eqn:B.
      * destruct Hy as [Hy | [<- | []]]; [|apply ltb_irrefl].
        apply (not_below_trans x y lowest1); auto.
      * destruct Hy as [Hy | [<- | []]]; [apply L1, Hy | exact B].
Qed.

Lemma max_from_spec (r : list number) : forall (highest : number) (seen : list number),
  forallb (fun x => negb (is_nan x)) r = true ->
  In highest seen ->
  (forall y, In y seen -> is_nan y = false /\ ltb highest y = false) ->
  In (max_from highest r) (seen ++ r)
  /\ forall y, In y (seen ++ r) -> ltb (max_from highest r) y = false.
Proof.
  induction r as [|x r IH]; intros highest seen Hr Hin Hhigh.
  - rewrite app_nil_r. cbn [max_from]. split; [exact Hin|]. intros y Hy. apply Hhigh, Hy.
  - cbn [forallb] in Hr. apply andb_prop in Hr. destruct Hr as [Hx Hr].
    apply negb_true_iff in Hx.
    assert (Nl : is_nan highest = false) by apply (Hhigh highest Hin).
    replace (seen ++ x :: r) with ((seen ++ [x]) ++ r) by (rewrite <- app_assoc; reflexivity).
    assert (E : max_from highest (x :: r)
                = max_from (let highest1 := if is_zero false x && is_zero true highest
                                            then x else highest in
                            if ltb highest1 x then x else highest1) r).
    { destruct x; try discriminate; reflexivity. }
    rewrite E. cbv zeta.
    set (highest1 := if is_zero false x && is_zero true highest then x else highest).
    assert (H1 : In highest1 (seen ++ [x])
                 /\ is_nan highest1 = false
                 /\ forall y, In y seen -> ltb highest1 y = false).
    { subst highest1. destruct (is_zero false x && is_zero true highest) eqn:Z.
      - split; [apply in_or_app; right; left; reflexivity|]. split; [exact Hx|].
        intros y Hy. apply andb_prop in Z. destruct Z as [Z1 Z2].
        destruct x as [[]| | |]; try discriminate.
        destruct highest as [[]| | |]; try discriminate.
        rewrite (ltb_zero_l y false true). apply Hhigh, Hy.
      - split; [apply in_or_app; left; exact Hin|]. split; [exact Nl|].
        intros y Hy. apply Hhigh, Hy. }
    destruct H1 as (I1 & N1 & L1).
    apply IH; [exact Hr | |].
    + destruct (ltb highest1 x); [apply in_or_app; right; left; reflexivity | exact I1].
    + intros y Hy. apply in_app_or in Hy.
      assert (Ny : is_nan y = false).
      { destruct Hy as [Hy | [<- | []]]; [apply Hhigh, Hy | exact Hx]. }
      split; [exact Ny|].
      destruct (ltb highest1 x) eqn:B.
      * destruct Hy as [Hy | [<- | []]]; [|apply ltb_irrefl].
        apply (not_above_trans x y highest1); auto.
      * destruct Hy as [Hy | [<- | []]]; [apply L1, Hy | exact B].
Qed.

Lemma forallb_map_test {A B : Type} (f : A -> B) (p : B -> bool) (l : list A) :
  forallb p (map f l) = forallb (fun x => p (f x)) l.
Proof. induction l as [|x l IH]; cbn [map forallb]; congruence. Qed.

(** [Math.min] of numbers, not all absent: one of them, with none of
    them below it. *)
Lemma math_min_spec (l : list number) :
  l <> [] -> forallb (fun x => negb (is_nan x)) l = true ->
  In (math_min l) l /\ forall y, In y l -> ltb y (math_min l) = false.
Proof.
  destruct l as [|x r]; [contradiction|]. intros _ H.
  cbn [forallb] in H. apply andb_prop in H. destruct H as [Hx Hr].
  apply negb_true_iff in Hx.
  assert (E : math_min (x :: r) = min_from x r).
  { unfold math_min. destruct x as [[]|[]| |[] m e]; try discriminate; reflexivity. }
  rewrite E. apply (min_from_spec r x [x]); [exact Hr | left; reflexivity |].
  intros y [<- | []]. split; [exact Hx | apply ltb_irrefl].
Qed.

Lemma math_max_spec (l : list number) :
  l <> [] -> forallb (fun x => negb (is_nan x)) l = true ->
  In (math_max l) l /\ forall y, In y l -> ltb (math_max l) y = false.
Proof.
  destruct l as [|x r]; [contradiction|]. intros _ H.
  cbn [forallb] in H. apply andb_prop in H. destruct H as [Hx Hr].
  apply negb_true_iff in Hx.
  assert (E : math_max (x :: r) = max_from x r).
  { unfold math_max. destruct x as [[]|[]| |[] m e]; try discriminate; reflexivity. }
  rewrite E. apply (max_from_spec r x [x]); [exact Hr | left; reflexivity |].
  intros y [<- | []]. split; [exact Hx | apply ltb_irrefl].
Qed.

End OrderFacts.
Import OrderFacts.

(** X16.  For a log that is not empty and has no [NaN] among its minutes,
    the shortest and the longest that [getStats] returns are the minutes
    of a session of the log as [toFixed(2)] writes them: of one that no
    session is below, and of one that no session is above. *)
Theorem getStats_extremes (l : list Session.t)
    (Hnonempty : l <> [])
    (Hnumbers : forallb (fun s => negb (is_nan (Session.timeMinutes s))) l = true) :
  exists smin smax,
    In smin l /\ In smax l
    /\ TeaTimer.shortest (getStats l) = JStr (toFixed 2 (Session.timeMinutes smin))
    /\ TeaTimer.longest (getStats l) = JStr (toFixed 2 (Session.timeMinutes smax))
    /\ Forall (fun s =>
         ltb (Session.timeMinutes s) (Session.timeMinutes smin) = false
         /\ ltb (Session.timeMinutes smax) (Session.timeMinutes s) = false) l.
Proof.
  assert (Hn : forallb (fun x => negb (is_nan x)) (map Session.timeMinutes l) = true).
  { rewrite forallb_map_test. exact Hnumbers. }
  assert (Hm : map Session.timeMinutes l <> []).
  { destruct l; [contradiction | discriminate]. }
  destruct (math_min_spec _ Hm Hn) as [Imin Lmin].
  destruct (math_max_spec _ Hm Hn) as [Imax Lmax].
  apply in_map_iff in Imin. destruct Imin as (smin & Emin & Imin).
  apply in_map_iff in Imax. destruct Imax as (smax & Emax & Imax).
  exists smin, smax. split; [exact Imin|]. split; [exact Imax|].
  unfold getStats.
  replace (List.length l =? 0)%nat with false
    by (destruct l; [contradiction | reflexivity]).
  cbn [TeaTimer.shortest TeaTimer.longest].
  rewrite Emin, Emax. split; [reflexivity|]. split; [reflexivity|].
  apply List.Forall_forall. intros s Hs.
  split; [apply Lmin | apply Lmax]; apply in_map, Hs.
Qed.

Lemma getStats_extremes_witness :
  exists smin smax,
    In smin [Session.mk (of_Z 1762158960000) (of_Z 180000) (of_Z 3)
               "2026-11-03T08:36:00.000Z" "Sencha";
             Session.mk (of_Z 1762159960000) (of_Z 120000) (of_Z 2)
               "2026-11-03T08:52:40.000Z" "Gyokuro"]
    /\ In smax [Session.mk (of_Z 1762158960000) (of_Z 180000) (of_Z 3)
                  "2026-11-03T08:36:00.000Z" "Sencha";
                Session.mk (of_Z 1762159960000) (of_Z 120000) (of_Z 2)
                  "2026-11-03T08:52:40.000Z" "Gyokuro"]
    /\ TeaTimer.shortest
         (getStats [Session.mk (of_Z 1762158960000) (of_Z 180000) (of_Z 3)
                      "2026-11-03T08:36:00.000Z" "Sencha";
                    Session.mk (of_Z 1762159960000) (of_Z 120000) (of_Z 2)
                      "2026-11-03T08:52:40.000Z" "Gyokuro"])
       = JStr (toFixed 2 (Session.timeMinutes smin))
    /\ TeaTimer.longest
         (getStats [Session.mk (of_Z 1762158960000) (of_Z 180000) (of_Z 3)
                      "2026-11-03T08:36:00.000Z" "Sencha";
                    Session.mk (of_Z 1762159960000) (of_Z 120000) (of_Z 2)
                      "2026-11-03T08:52:40.000Z" "Gyokuro"])
       = JStr (toFixed 2 (Session.timeMinutes smax))
    /\ Forall (fun s =>
         ltb (Session.timeMinutes s) (Session.timeMinutes smin) = false
         /\ ltb (Session.timeMinutes smax) (Session.timeMinutes s) = false)
         [Session.mk (of_Z 1762158960000) (of_Z 180000) (of_Z 3)
            "2026-11-03T08:36:00.000Z" "Sencha";
          Session.mk (of_Z 1762159960000) (of_Z 120000) (of_Z 2)
            "2026-11-03T08:52:40.000Z" "Gyokuro"].
Proof. apply getStats_extremes; [discriminate | reflexivity]. Defined.

(** ** The points of the chart *)

Module ChartFacts.
Import FixedFacts DisplayFacts TeaTimerChart.

Lemma trim_start_none (fuel : nat) (s : string) :
  space_prefix s = None -> trim_start fuel s = s.
Proof. intros H. destruct fuel; cbn [trim_start]; [|rewrite H]; reflexivity. Qed.

Lemma digit_head (c : ascii) (r : string) :
  is_digit c = true ->
  space_prefix (String c r) = None
  /\ Ascii.eqb c "-" = false /\ Ascii.eqb c "+" = false /\ Ascii.eqb "I" c = false.
Proof.
  intros H. destruct c as [[] [] [] [] [] [] [] []]; try discriminate H;
    repeat split; reflexivity.
Qed.

(** What [parseFloat] reads from a sign, digits, a period and digits. *)
Lemma parseFloat_decimal (neg : bool) (ip fp : string) :
  all_digits ip = true -> (1 <= String.length ip)%nat -> all_digits fp = true ->
  parseFloat ((if neg then "-" else EmptyString) +:+ ip +:+ "." +:+ fp)
  = if dec_value (ip +:+ fp) 0 =? 0 then S754_zero neg
    else of_decimal neg (dec_value (ip +:+ fp) 0) (0 - Z.of_nat (String.length fp)).
Proof.
  intros Hi Li Hf. destruct ip as [|c ip]; [cbn in Li; lia|].
  cbn [all_digits] in Hi. apply andb_prop in Hi. destruct Hi as [Hc Hi].
  assert (Hs : span_digits (String c ip +:+ "." +:+ fp) = (String c ip, "." +:+ fp)).
  { apply span_digits_stop; [cbn [all_digits]; rewrite Hc, Hi|]; reflexivity. }
  assert (G : forall s1, s1 = String c ip +:+ "." +:+ fp ->
    match expect "Infinity" s1 with
    | Some _ => S754_infinity neg
    | None =>
        let '(ip0, s2) := span_digits s1 in
        let '(fp0, s3) :=
          match s2 with
          | String c0 r => if Ascii.eqb c0 "." then span_digits r else (EmptyString, s2)
          | EmptyString => (EmptyString, s2)
          end in
        match ip0 +:+ fp0 with
        | EmptyString => S754_nan
        | digits =>
            let ex := match span_exp s3 with
                      | Some (ex, _) => ex
                      | None => 0
                      end in
            let n := dec_value digits 0 in
            if n =? 0 then S754_zero neg
            else of_decimal neg n (ex - Z.of_nat (String.length fp0))
        end
    end
    = if dec_value (String c ip +:+ fp) 0 =? 0 then S754_zero neg
      else of_decimal neg (dec_value (String c ip +:+ fp) 0)
             (0 - Z.of_nat (String.length fp))).
  { intros s1 ->. rewrite Hs.
    destruct (digit_head c (ip +:+ "." +:+ fp) Hc) as (_ & _ & _ & HI).
    cbn [String.append expect]. rewrite HI.
    change (Ascii.eqb "." ".") with true. cbn iota.
    rewrite (span_digits_all fp Hf). cbn [String.append span_exp]. reflexivity. }
  unfold parseFloat. destruct neg.
  - rewrite trim_start_none by reflexivity.
    cbn [String.append]. change (Ascii.eqb "-" "-") with true. cbn iota.
    apply G. reflexivity.
  - change (EmptyString +:+ ?x) with x.
    destruct (digit_head c (ip +:+ "." +:+ fp) Hc) as (Hsp & Hm & Hp & _).
    rewrite trim_start_none by exact Hsp.
    cbn [String.append]. rewrite Hm, Hp. apply G. reflexivity.
Qed.

Lemma parseFloat_toFixed (x : number) :
  fixed_range x = true ->
  exists n,
    nearest_hundredth x n
    /\ parseFloat (toFixed 2 x)
       = if n =? 0 then S754_zero (is_negative x) else of_decimal (is_negative x) n (-2).
Proof.
  intros Hrange. destruct x as [s|s| |s m e]; cbn [fixed_range] in Hrange; try discriminate.
  - exists 0. split; [reflexivity|]. reflexivity.
  - destruct (nearest_scaled_nearest m e) as [Hn Hnear].
    destruct (fixed_digits_value (nearest_scaled m e 2) 1 Hn)
      as (ip & fp & E & Hi & Hf & Li & Lf & Hv).
    exists (nearest_scaled m e 2). split.
    + cbn [nearest_hundredth]. destruct (ratio_of m e) as [a b]. exact Hnear.
    + cbn [toFixed is_negative].
      destruct (mag_ge m e (10 ^ 21)); [discriminate|]. rewrite E.
      rewrite (parseFloat_decimal s ip fp Hi Li Hf), Hv, Lf. reflexivity.
Qed.

Lemma map_from_length (f : string -> string) (l : list Session.t) : forall k,
  List.length (map_from f k l) = List.length l.
Proof. induction l as [|s l IH]; intros k; cbn [map_from List.length]; auto. Qed.

Lemma map_from_nth (f : string -> string) (l : list Session.t) : forall k i s,
  nth_error l i = Some s ->
  nth_error (map_from f k l) i = Some (chart_point f s (k + i)).
Proof.
  induction l as [|s0 l IH]; intros k i s H; [destruct i; discriminate|].
  destruct i as [|i]; cbn [nth_error map_from] in *.
  - injection H as <-. rewrite Nat.add_0_r. reflexivity.
  - rewrite (IH (S k) i s H). f_equal. f_equal. lia.
Qed.

End ChartFacts.
Import ChartFacts.

(** X17.  The chart has one point for each session, in the order of the
    log and numbered from one; the point of a session has the date of the
    session as the host writes dates, and, where the minutes of the
    session are zero or finite and below [10^21] in magnitude, its time is
    the number nearest to the hundredth nearest to the minutes. *)
Theorem getChartData_points (toLocaleDateString : string -> string)
    (l : list Session.t) (i : nat) (s : Session.t)
    (Hnth : nth_error l i = Some s)
    (Hrange : fixed_range (Session.timeMinutes s) = true) :
  List.length (TeaTimerChart.getChartData toLocaleDateString l) = List.length l
  /\ exists p n,
       nth_error (TeaTimerChart.getChartData toLocaleDateString l) i = Some p
       /\ TeaTimerChart.session p = of_Z (Z.of_nat i + 1)
       /\ TeaTimerChart.date p = toLocaleDateString (Session.date s)
       /\ nearest_hundredth (Session.timeMinutes s) n
       /\ TeaTimerChart.time p
          = if n =? 0 then S754_zero (is_negative (Session.timeMinutes s))
            else of_decimal (is_negative (Session.timeMinutes s)) n (-2).
Proof.
  split; [apply map_from_length|].
  destruct (parseFloat_toFixed _ Hrange) as (n & Hn & E).
  exists (TeaTimerChart.chart_point toLocaleDateString s i), n.
  split; [apply (map_from_nth toLocaleDateString l 0 i s Hnth)|].
  split; [reflexivity|]. split; [reflexivity|]. split; [exact Hn | exact E].
Qed.

Lemma getChartData_points_witness :
  List.length (TeaTimerChart.getChartData (fun _ => "11/3/2026")
    [Session.mk (of_Z 1762158960000) (of_Z 65430) (div (of_Z 65430) (of_Z 60000))
       "2026-11-03T08:36:00.000Z" "Sencha"])
  = List.length
      [Session.mk (of_Z 1762158960000) (of_Z 65430) (div (of_Z 65430) (of_Z 60000))
         "2026-11-03T08:36:00.000Z" "Sencha"]
  /\ exists p n,
       nth_error (TeaTimerChart.getChartData (fun _ => "11/3/2026")
         [Session.mk (of_Z 1762158960000) (of_Z 65430) (div (of_Z 65430) (of_Z 60000))
            "2026-11-03T08:36:00.000Z" "Sencha"]) 0 = Some p
       /\ TeaTimerChart.session p = of_Z (Z.of_nat 0 + 1)
       /\ TeaTimerChart.date p = (fun _ : string => "11/3/2026")
                     (Session.date
                        (Session.mk (of_Z 1762158960000) (of_Z 65430)
                           (div (of_Z 65430) (of_Z 60000))
                           "2026-11-03T08:36:00.000Z" "Sencha"))
       /\ nearest_hundredth
            (Session.timeMinutes
               (Session.mk (of_Z 1762158960000) (of_Z 65430)
                  (div (of_Z 65430) (of_Z 60000)) "2026-11-03T08:36:00.000Z" "Sencha")) n
       /\ TeaTimerChart.time p
          = if n =? 0
            then S754_zero (is_negative (Session.timeMinutes
                   (Session.mk (of_Z 1762158960000) (of_Z 65430)
                      (div (of_Z 65430) (of_Z 60000)) "2026-11-03T08:36:00.000Z" "Sencha")))
            else of_decimal (is_negative (Session.timeMinutes
                   (Session.mk (of_Z 1762158960000) (of_Z 65430)
                      (div (of_Z 65430) (of_Z 60000)) "2026-11-03T08:36:00.000Z" "Sencha")))
                   n (-2).
Proof.
  apply (getChartData_points (fun _ => "11/3/2026")); [reflexivity | vm_compute; reflexivity].
Defined.

(** ** The save dialog *)

Import TimerFacts SyncFacts.

Module DialogFacts.

Lemma last_cons {A : Type} (x d : A) (l : list A) : List.last (x :: l) d = List.last l x.
Proof.
  revert x d. induction l as [|y l IH]; intros x d; [reflexivity|].
  change (List.last (x :: y :: l) d) with (List.last (y :: l) d).
  rewrite (IH y d), (IH y x). reflexivity.
Qed.

(** Typing in the field of the dialog changes the notes and nothing else. *)
Lemma run_edits (edits : list string) : forall w,
  run w (map EditNotes edits)
  = mkWorld (apply_update (state w) (setNotes (List.last edits (notes (state w)))))
            (localStorage w).
Proof.
  induction edits as [|s edits IH]; intros w.
  - destruct w as [[t r d n l v] ls]. reflexivity.
  - cbn [map]. rewrite run_cons, IH, last_cons.
    destruct w as [[t r d n l v] ls]. reflexivity.
Qed.

Lemma run_app (es es' : list event) (w : World) : run w (es ++ es') = run (run w es) es'.
Proof. apply fold_left_app. Qed.

End DialogFacts.
Import DialogFacts.

(** X18.  The button that opens the dialog is offered only with elapsed
    time and a stopped timer.  After the button, any typing in the field
    and nothing else, a save appends one session, with the elapsed time
    and the notes as typed last; the dialog is closed, the timer is at
    zero, the button is no longer offered and the storage holds the new
    log.  After a cancel instead of the save, the log, the time and the
    storage are as before, and what was typed stays in the notes.  After
    a reset under the open dialog, the save does nothing: the log and
    the storage are as before and the dialog stays open. *)
Theorem save_dialog_flow (w : World) (c : clock) (edits : list string)
    (Hshown : saveButtonShown (state w) = true) :
  state (run w (OpenSaveDialog :: map EditNotes edits ++ [Save c]))
  = mkState 0 false false EmptyString
      (sessions (state w)
       ++ [Session.mk (now c) (of_Z (time (state w)))
             (div (of_Z (time (state w))) (of_Z 60000)) (isoString c)
             (List.last edits (notes (state w)))])
      TimerView
  /\ saveButtonShown (state (run w (OpenSaveDialog :: map EditNotes edits ++ [Save c])))
     = false
  /\ localStorage (run w (OpenSaveDialog :: map EditNotes edits ++ [Save c])) !! storage_key
     = Some (stringify (sessions_value
         (sessions (state (run w (OpenSaveDialog :: map EditNotes edits ++ [Save c]))))))
  /\ run w (OpenSaveDialog :: map EditNotes edits ++ [CancelSaveDialog])
     = mkWorld (mkState (time (state w)) false false (List.last edits (notes (state w)))
                        (sessions (state w)) TimerView)
               (localStorage w)
  /\ run w (OpenSaveDialog :: map EditNotes edits ++ [Reset; Save c])
     = mkWorld (mkState 0 false true EmptyString (sessions (state w)) TimerView)
               (localStorage w).
Proof.
  destruct w as [[t r d n l v] ls]. unfold saveButtonShown in Hshown.
  cbn [state activeView time isRunning] in Hshown.
  destruct v; try discriminate. apply andb_prop in Hshown. destruct Hshown as [Ht Hr].
  apply Z.ltb_lt in Ht. apply negb_true_iff in Hr. subst r.
  cbn [state time notes sessions localStorage].
  assert (E : forall e, run (mkWorld (mkState t false d n l TimerView) ls)
                          (OpenSaveDialog :: map EditNotes edits ++ [e])
                    = step (mkWorld (mkState t false true (List.last edits n) l TimerView) ls) e).
  { intros e. rewrite run_cons, run_app, run_edits. reflexivity. }
  assert (R : run (mkWorld (mkState t false d n l TimerView) ls)
                 (OpenSaveDialog :: map EditNotes edits ++ [Reset; Save c])
               = mkWorld (mkState 0 false true EmptyString l TimerView) ls).
  { rewrite run_cons, run_app, run_edits. reflexivity. }
  rewrite !E, R. rewrite step_save_pos by (cbn; lia).
  cbn [state localStorage sessions time notes activeView newSession].
  split; [reflexivity|]. split; [reflexivity|]. split; [apply lookup_insert_eq|].
  split; reflexivity.
Qed.

Lemma save_dialog_flow_witness :
  state (run (mkWorld (mkState 65430 false false EmptyString [] TimerView) ∅)
           (OpenSaveDialog :: map EditNotes ["S"; "Se"; "Sen"]
            ++ [Save (mkClock (of_Z 1762158960000) "2026-11-03T08:36:00.000Z")]))
  = mkState 0 false false EmptyString
      (sessions (state (mkWorld (mkState 65430 false false EmptyString [] TimerView) ∅))
       ++ [Session.mk (now (mkClock (of_Z 1762158960000) "2026-11-03T08:36:00.000Z"))
             (of_Z (time (state (mkWorld (mkState 65430 false false EmptyString [] TimerView) ∅))))
             (div (of_Z (time (state (mkWorld (mkState 65430 false false EmptyString [] TimerView) ∅))))
                  (of_Z 60000))
             (isoString (mkClock (of_Z 1762158960000) "2026-11-03T08:36:00.000Z"))
             (List.last ["S"; "Se"; "Sen"]
                (notes (state (mkWorld (mkState 65430 false false EmptyString [] TimerView) ∅))))])
      TimerView
  /\ saveButtonShown
       (state (run (mkWorld (mkState 65430 false false EmptyString [] TimerView) ∅)
                 (OpenSaveDialog :: map EditNotes ["S"; "Se"; "Sen"]
                  ++ [Save (mkClock (of_Z 1762158960000) "2026-11-03T08:36:00.000Z")])))
     = false
  /\ localStorage
       (run (mkWorld (mkState 65430 false false EmptyString [] TimerView) ∅)
          (OpenSaveDialog :: map EditNotes ["S"; "Se"; "Sen"]
           ++ [Save (mkClock (of_Z 1762158960000) "2026-11-03T08:36:00.000Z")]))
       !! storage_key
     = Some (stringify (sessions_value (sessions (state
         (run (mkWorld (mkState 65430 false false EmptyString [] TimerView) ∅)
            (OpenSaveDialog :: map EditNotes ["S"; "Se"; "Sen"]
             ++ [Save (mkClock (of_Z 1762158960000) "2026-11-03T08:36:00.000Z")]))))))
  /\ run (mkWorld (mkState 65430 false false EmptyString [] TimerView) ∅)
       (OpenSaveDialog :: map EditNotes ["S"; "Se"; "Sen"] ++ [CancelSaveDialog])
     = mkWorld
         (mkState (time (state (mkWorld (mkState 65430 false false EmptyString [] TimerView) ∅)))
            false false
            (List.last ["S"; "Se"; "Sen"]
               (notes (state (mkWorld (mkState 65430 false false EmptyString [] TimerView) ∅))))
            (sessions (state (mkWorld (mkState 65430 false false EmptyString [] TimerView) ∅)))
            TimerView)
         (localStorage (mkWorld (mkState 65430 false false EmptyString [] TimerView) ∅))
  /\ run (mkWorld (mkState 65430 false false EmptyString [] TimerView) ∅)
       (OpenSaveDialog :: map EditNotes ["S"; "Se"; "Sen"]
        ++ [Reset; Save (mkClock (of_Z 1762158960000) "2026-11-03T08:36:00.000Z")])
     = mkWorld
         (mkState 0 false true EmptyString
            (sessions (state (mkWorld (mkState 65430 false false EmptyString [] TimerView) ∅)))
            TimerView)
         (localStorage (mkWorld (mkState 65430 false false EmptyString [] TimerView) ∅)).
Proof.
  apply (save_dialog_flow (mkWorld (mkState 65430 false false EmptyString [] TimerView) ∅)).
  reflexivity.
Defined.

